(** * review-pipeline: batching, verdict aggregation and rule evaluation

    A shallow embedding of the three scripts of the repository:

    - [PrScript]: the top-level pull-request script
      (scripts/index.js, first document);
    - [RepoScript]: the repository-wide analysis, [analyzeCodeBatches]
      (scripts/index.js, second document);
    - [PrApp]: the GitHub-App pull-request pipeline, [analyzePullRequest]
      with its local [updateOverallCodeQuality].

    JavaScript strings are modelled by [string]: a character stands for one
    UTF-16 code unit below 256, and the texts considered are those made of
    such code units.  JavaScript numbers that hold counts and lengths are
    integers ([Z]).  In the pull-request script, where a notification hangs
    on a rounded product, probabilities are the numbers of the language,
    binary64 floating point ([float], with the kernel's operations); in the
    other two scripts, where only sums of weighted verdicts are stated,
    they are summed in exact rational arithmetic ([Q]).  Calls to the
    network collaborators (the source-control host, the classifier, the
    chat webhook) are oracles given as arguments, and the calls a run makes
    are recorded in a trace of events. *)

From Stdlib Require Import PrimFloat FloatOps SpecFloat.
From Stdlib Require Import List ZArith QArith Qround Qabs String Ascii Bool.
From Stdlib Require Import Lia Lqa.
From Stdlib Require Import DecimalString.
Import ListNotations.

Local Open Scope list_scope.
Local Open Scope Z_scope.

Set Warnings "-inexact-float".

(* ================================================================= *)
(** ** JavaScript strings and arrays *)

(** [s.length] *)
Definition js_length (s : string) : Z := Z.of_nat (String.length s).

(** [arr.length] *)
Definition arr_length {A : Type} (l : list A) : Z := Z.of_nat (List.length l).

(** [arr.length > 0], the truthiness of [arr.length] *)
Definition nonempty {A : Type} (l : list A) : bool :=
  match l with [] => false | _ :: _ => true end.

(** Template-literal rendering of a non-negative integer, [`${n}`]. *)
Definition show_nat (n : nat) : string :=
  NilZero.string_of_uint (Nat.to_uint n).

(** [s.includes(needle)] *)
Fixpoint includes (needle s : string) : bool :=
  prefix needle s ||
  match s with
  | EmptyString => false
  | String _ rest => includes needle rest
  end.

Definition ascii_lower (c : ascii) : ascii :=
  let n := nat_of_ascii c in
  if ((65 <=? n)%nat && (n <=? 90)%nat)%bool then ascii_of_nat (n + 32) else c.

Fixpoint lowercase (s : string) : string :=
  match s with
  | EmptyString => EmptyString
  | String c rest => String (ascii_lower c) (lowercase rest)
  end.

(** [/test|spec/i.test(s)] *)
Definition test_or_spec (s : string) : bool :=
  let l := lowercase s in includes "test" l || includes "spec" l.

(** The white space of the language, which [\s] matches and [trim]
    removes, among the code units below 256: tab, line feed, vertical tab,
    form feed, carriage return, space and the no-break space U+00A0. *)
Definition is_space (c : ascii) : bool :=
  let n := nat_of_ascii c in
  ((n =? 32)%nat || ((9 <=? n)%nat && (n <=? 13)%nat) || (n =? 160)%nat)%bool.

Fixpoint skip_spaces (s : string) : string :=
  match s with
  | String c rest => if is_space c then skip_spaces rest else s
  | EmptyString => s
  end.

Definition license_name_here (s : string) : bool :=
  prefix "SPDX-License-Identifier" s || prefix "MIT License" s
  || prefix "Apache License" s.

(** [/SPDX-License-Identifier|MIT License|Apache License/.test(s)] *)
Definition license_name (s : string) : bool :=
  includes "SPDX-License-Identifier" s || includes "MIT License" s
  || includes "Apache License" s.

(** [/\+\s*(SPDX-License-Identifier|MIT License|Apache License)/.test(s)] *)
Fixpoint added_license_line (s : string) : bool :=
  match s with
  | EmptyString => false
  | String c rest =>
      (Ascii.eqb c "+" && license_name_here (skip_spaces rest))
      || added_license_line rest
  end.

Fixpoint rev_string (s : string) : string :=
  match s with
  | EmptyString => EmptyString
  | String c rest => (rev_string rest ++ String c EmptyString)%string
  end.

(** [s.trim()] *)
Definition trim (s : string) : string :=
  rev_string (skip_spaces (rev_string (skip_spaces s))).

(** [parts.join(sep)] *)
Fixpoint join (sep : string) (parts : list string) : string :=
  match parts with
  | [] => ""
  | [p] => p
  | p :: rest => (p ++ sep ++ join sep rest)%string
  end.

(* ================================================================= *)
(** ** Numbers *)

Definition Qlt_bool (x y : Q) : bool := negb (Qle_bool y x).

(** [a / b] on two integer-valued numbers, [b] non-zero, in exact
    arithmetic. *)
Definition ratio (a b : Z) : Q := (inject_Z a / inject_Z b)%Q.

(** *** Binary64

    The numbers of the language are the kernel's [float]: [PrimFloat.add],
    [PrimFloat.mul] and [PrimFloat.div] round to nearest, ties to even, and
    the comparisons are those of IEEE 754 (every comparison with NaN is
    false). *)

(** The number nearest to an integer: what an array length or a count is
    as a number. *)
Definition number_of_Z (z : Z) : float :=
  SF2Prim (binary_normalize prec emax z 0 false).

(** What a number stands for: no number, an infinity, or a rational. *)
Inductive exact_value : Type :=
| NotANumber
| Infinite (negative : bool)
| Finite (v : Q).

(** The rational [(-1)^s * m * 2^e]. *)
Definition finite_value (s : bool) (m : positive) (e : Z) : Q :=
  ((if s then -1 else 1) * inject_Z (Zpos m) * 2 ^ e)%Q.

Definition exact (x : float) : exact_value :=
  match Prim2SF x with
  | S754_nan => NotANumber
  | S754_infinity s => Infinite s
  | S754_zero _ => Finite 0
  | S754_finite s m e => Finite (finite_value s m e)
  end.

(** The digits that [toFixed(1)] writes for a rational, in tenths: the
    integer [n] with [n / 10] closest to [x], the larger one on a tie; a
    negative [x] is written as the sign followed by the digits of [-x]. *)
Definition tenths (x : Q) : Z :=
  if Qle_bool 0 x then Qfloor (x * 10 + (1 # 2))%Q
  else - Qfloor ((- x) * 10 + (1 # 2))%Q.

(** The string [x.toFixed(1)], by what it denotes. *)
Inductive fixed : Type :=
| PrintedNaN                         (* "NaN" *)
| PrintedInfinity (negative : bool)  (* "Infinity", "-Infinity" *)
| PrintedNumber (v : Q)    (* from 10^21 on: the digits of the number itself *)
| PrintedTenths (n : Z).   (* [n] tenths, with one digit after the point *)

(** [x.toFixed(1)]: the decimal with one digit after the point that is
    closest to the value of [x] itself. *)
Definition toFixed1 (x : float) : fixed :=
  match exact x with
  | NotANumber => PrintedNaN
  | Infinite s => PrintedInfinity s
  | Finite v =>
      if Qle_bool (inject_Z (10 ^ 21)) (Qabs v) then PrintedNumber v
      else PrintedTenths (tenths v)
  end.

(** [parseFloat(s) > 55] for a string [s] that [toFixed(1)] returned.
    [parseFloat] reads [n] tenths as the number nearest to [n / 10], which
    is above 55 exactly when [n] is above 550, 55 being a number itself. *)
Definition above_55 (s : fixed) : bool :=
  match s with
  | PrintedNaN => false
  | PrintedInfinity negative => negb negative
  | PrintedNumber v => Qlt_bool 55 v
  | PrintedTenths n => 550 <? n
  end.

(* ================================================================= *)
(** ** The top-level pull-request script *)

Module PrScript.

(** A record of the pull request's file listing.  [patch] is absent for
    files the host gives no diff for. *)
Record pr_file : Type := mk_pr_file {
  filename : string;
  patch : option string;
  additions : Z
}.

Definition MAX_DIFF_LENGTH : Z := 20000.

(** The truthiness of [f.patch]: an absent or an empty patch is falsy. *)
Definition has_patch (f : pr_file) : bool :=
  match patch f with
  | None => false
  | Some s => negb (String.eqb s "")
  end.

(** [f.patch.length] *)
Definition patch_length (f : pr_file) : Z :=
  match patch f with
  | None => 0
  | Some s => js_length s
  end.

Definition patch_text (f : pr_file) : string :=
  match patch f with
  | None => ""
  | Some s => s
  end.

(** The variables the batching loop updates. *)
Record loop_state : Type := mk_loop_state {
  batches : list (list pr_file);
  currentBatch : list pr_file;
  currentBatchSize : Z;
  linesAdded : Z;
  testsChanged : bool;
  licenseComment : bool
}.

Definition loop_init : loop_state :=
  mk_loop_state [] [] 0 0 false false.

(** [if (currentBatchSize + f.patch.length > MAX_DIFF_LENGTH)
       if (currentBatch.length > 0) { batches.push(currentBatch); ... }] *)
Definition close_if_full (st : loop_state) (f : pr_file) : loop_state :=
  if (currentBatchSize st + patch_length f >? MAX_DIFF_LENGTH)
     && nonempty (currentBatch st)
  then mk_loop_state (batches st ++ [currentBatch st]) [] 0
         (linesAdded st) (testsChanged st) (licenseComment st)
  else st.

(** One iteration of [for (const f of files)]. *)
Definition loop_body (st : loop_state) (f : pr_file) : loop_state :=
  if negb (has_patch f) then st
  else
    let st1 := close_if_full st f in
    mk_loop_state
      (batches st1)
      (currentBatch st1 ++ [f])
      (currentBatchSize st1 + patch_length f)
      (linesAdded st1 + additions f)
      (testsChanged st1 || test_or_spec (filename f))
      (licenseComment st1 || added_license_line (patch_text f)).

Definition run_loop (files : list pr_file) : loop_state :=
  fold_left loop_body files loop_init.

(** [if (currentBatch.length > 0) batches.push(currentBatch)] *)
Definition push_last (st : loop_state) : list (list pr_file) :=
  if nonempty (currentBatch st) then batches st ++ [currentBatch st]
  else batches st.

(** The value of [batches] when the analysis loop starts. *)
Definition make_batches (files : list pr_file) : list (list pr_file) :=
  push_last (run_loop files).

(** The total size of a batch: the sum of its patches' lengths. *)
Definition batch_size (b : list pr_file) : Z :=
  fold_right (fun f acc => patch_length f + acc) 0 b.

(** What the loop has put into batches so far. *)
Definition placed (st : loop_state) : list pr_file :=
  List.concat (batches st) ++ currentBatch st.

(** A batch within the limit, or a single file that alone exceeds it. *)
Definition within_limit (b : list pr_file) : Prop :=
  batch_size b <= MAX_DIFF_LENGTH
  \/ exists f, b = [f] /\ MAX_DIFF_LENGTH < patch_length f.

(** The invariant of the batching loop. *)
Record size_invariant (st : loop_state) : Prop := {
  size_tracked : currentBatchSize st = batch_size (currentBatch st);
  current_within : within_limit (currentBatch st);
  closed_within : Forall within_limit (batches st)
}.

(** *** The analysis loop *)

(** What the script reads from the classifier's tool call. *)
Record verdict : Type := mk_verdict {
  ai_prob : float;
  rationale : string
}.

(** The classifier collaborator, asked once per batch with the batch's
    index.  [None]: the request, or reading its answer, throws. *)
Definition classifier : Type := nat -> list pr_file -> option verdict.

(** A step that either goes on with a new state or lets an exception
    escape; the script has no handler around its analysis loop, so an
    exception there ends the run. *)
Inductive step (S : Type) : Type :=
| Next (s : S)
| Throw (s : S).
Arguments Next {S} s.
Arguments Throw {S} s.

Record analysis : Type := mk_analysis {
  overallAiProb : float;
  allRationales : list string;
  asked : list nat       (* the batches the classifier was called for *)
}.

Definition analysis_init : analysis := mk_analysis 0 [] [].

(** The body of [for (let i = 0; i < batches.length; i++)]; [n] is
    [files.length], the length of the whole listing. *)
Definition analyze_batch (cls : classifier) (n : Z) (i : nat)
    (b : list pr_file) (a : analysis) : step analysis :=
  match cls i b with
  | None => Throw (mk_analysis (overallAiProb a) (allRationales a)
                     (asked a ++ [i]))
  | Some v =>
      Next (mk_analysis
              (overallAiProb a
               + ai_prob v * (number_of_Z (arr_length b) / number_of_Z n))
              %float
              (allRationales a
                 ++ [("Batch " ++ show_nat (i + 1) ++ ": " ++ rationale v)
                     %string])
              (asked a ++ [i]))
  end.

Fixpoint analyze_from (cls : classifier) (n : Z) (i : nat)
    (bs : list (list pr_file)) (a : analysis) : step analysis :=
  match bs with
  | [] => Next a
  | b :: rest =>
      match analyze_batch cls n i b a with
      | Next a1 => analyze_from cls n (S i) rest a1
      | Throw a1 => Throw a1
      end
  end.

Definition analyze (cls : classifier) (files : list pr_file) : step analysis :=
  analyze_from cls (arr_length files) 0 (make_batches files) analysis_init.

(** The factor [batches[i].length / files.length] of each batch, as a
    fraction. *)
Definition weights (files : list pr_file) : list Q :=
  map (fun b => ratio (arr_length b) (arr_length files)) (make_batches files).

(** *** Rule conditions

    [eval(rule.when)] hands the condition's text to the language's own
    evaluator, in the scope of the script.  The text is represented by its
    parse, and the evaluator by its action on a fragment of the expression
    language: the conditions of the rule format (comparisons and logical
    connectives over the fields of [ctx]) and, beside them, forms that reach
    what else is in scope there: the script's variables, read and assigned,
    the lists [failures] and [warnings], [process.exit], an identifier that
    nothing binds, and a text that is no expression at all. *)

Inductive js_value : Type :=
| VNum (x : float)
| VBool (b : bool).

(** ToNumber *)
Definition to_number (v : js_value) : float :=
  match v with
  | VNum x => x
  | VBool true => 1
  | VBool false => 0
  end.

(** ToBoolean: zero, of either sign, and NaN are falsy. *)
Definition truthy (v : js_value) : bool :=
  match v with
  | VNum x => negb (PrimFloat.eqb x 0 || PrimFloat.is_nan x)
  | VBool b => b
  end.

Inductive ctx_field : Type :=
| f_ai_prob | f_lines_added | f_tests_changed | f_license_comment.

(** The script's [let] variables that [ctx] is built from. *)
Inductive script_var : Type :=
| x_overallAiProb | x_linesAdded | x_testsChanged | x_licenseComment.

(** The two lists that the rule loop fills. *)
Inductive message_list : Type := l_failures | l_warnings.

(** [>], [<], [>=], [<=], [==], [!=] *)
Inductive comparison_op : Type := Gt | Lt | Ge | Le | EqEq | NotEq.

Inductive expr : Type :=
| Num (x : float)
| Bool (b : bool)
| Ctx (f : ctx_field)                       (* ctx.f *)
| Cmp (op : comparison_op) (a b : expr)     (* a > b, ... *)
| And (a b : expr)                          (* a && b *)
| Or (a b : expr)                           (* a || b *)
| Not (a : expr)                            (* !a *)
| Assign (x : script_var) (a : expr)        (* x = a *)
| Var (x : script_var)                      (* x *)
| Free (name : string)          (* an identifier that nothing binds *)
| Length (l : message_list)                 (* l.length *)
| Push (l : message_list) (text : string)   (* l.push('text') *)
| Clear (l : message_list)                  (* l.length = 0 *)
| Comma (a b : expr)                        (* a, b *)
| ProcessExit (code : Z)                    (* process.exit(code) *)
| Unparsed.                     (* text that is no expression *)

(** A rule as [parseRulesFromText] returns it; [when] holds the parse of
    the text after [when=]. *)
Record rule : Type := mk_rule {
  name : string;
  when : expr;
  severity : string;
  message : string
}.

(** The current values of the four script variables. *)
Record scope : Type := mk_scope {
  cur_overallAiProb : js_value;
  cur_linesAdded : js_value;
  cur_testsChanged : js_value;
  cur_licenseComment : js_value
}.

(** [ctx]: a fresh object per rule, holding the values the variables have
    when the rule's turn comes. *)
Record context : Type := mk_context {
  ctx_ai_prob : js_value;
  ctx_lines_added : js_value;
  ctx_tests_changed : js_value;
  ctx_license_comment : js_value
}.

Definition make_ctx (sc : scope) : context :=
  mk_context (cur_overallAiProb sc) (cur_linesAdded sc)
    (cur_testsChanged sc) (cur_licenseComment sc).

Definition ctx_get (c : context) (f : ctx_field) : js_value :=
  match f with
  | f_ai_prob => ctx_ai_prob c
  | f_lines_added => ctx_lines_added c
  | f_tests_changed => ctx_tests_changed c
  | f_license_comment => ctx_license_comment c
  end.

Definition var_get (sc : scope) (x : script_var) : js_value :=
  match x with
  | x_overallAiProb => cur_overallAiProb sc
  | x_linesAdded => cur_linesAdded sc
  | x_testsChanged => cur_testsChanged sc
  | x_licenseComment => cur_licenseComment sc
  end.

Definition assign (x : script_var) (v : js_value) (sc : scope) : scope :=
  match x with
  | x_overallAiProb =>
      mk_scope v (cur_linesAdded sc) (cur_testsChanged sc)
        (cur_licenseComment sc)
  | x_linesAdded =>
      mk_scope (cur_overallAiProb sc) v (cur_testsChanged sc)
        (cur_licenseComment sc)
  | x_testsChanged =>
      mk_scope (cur_overallAiProb sc) (cur_linesAdded sc) v
        (cur_licenseComment sc)
  | x_licenseComment =>
      mk_scope (cur_overallAiProb sc) (cur_linesAdded sc)
        (cur_testsChanged sc) v
  end.

(** The comparison of two values that are numbers or booleans: both are
    taken as numbers. *)
Definition compare_values (op : comparison_op) (a b : js_value) : bool :=
  let x := to_number a in
  let y := to_number b in
  match op with
  | Gt => PrimFloat.ltb y x
  | Lt => PrimFloat.ltb x y
  | Ge => PrimFloat.leb y x
  | Le => PrimFloat.leb x y
  | EqEq => PrimFloat.eqb x y
  | NotEq => negb (PrimFloat.eqb x y)
  end.

(** How the process ends: [process.exit(code)], or running off the end of
    the module (exit code 0), or an exception nobody caught. *)
Inductive ending : Type :=
| Exit (code : Z)
| Uncaught.

(** The state of the rule loop: what a condition can reach (the script's
    variables and the two lists) and, for the statements below, the rules
    evaluated so far and the way the loop was left, if an exception or an
    exit left it. *)
Record evaluation : Type := mk_evaluation {
  vars : scope;
  failures : list string;
  warnings : list string;
  evaluated : list (rule * bool);  (* each rule with [triggered], in order *)
  halted : option ending
}.

Definition messages (l : message_list) (st : evaluation) : list string :=
  match l with
  | l_failures => failures st
  | l_warnings => warnings st
  end.

Definition set_messages (l : message_list) (ms : list string)
    (st : evaluation) : evaluation :=
  match l with
  | l_failures =>
      mk_evaluation (vars st) ms (warnings st) (evaluated st) (halted st)
  | l_warnings =>
      mk_evaluation (vars st) (failures st) ms (evaluated st) (halted st)
  end.

Definition set_vars (sc : scope) (st : evaluation) : evaluation :=
  mk_evaluation sc (failures st) (warnings st) (evaluated st) (halted st).

(** How the evaluation of an expression ends: with a value, with an
    exception, or with the end of the process. *)
Inductive completion : Type :=
| Normal (v : js_value) (st : evaluation)
| Thrown (st : evaluation)
| Exited (code : Z) (st : evaluation).

Definition and_then (r : completion)
    (k : js_value -> evaluation -> completion) : completion :=
  match r with
  | Normal v st => k v st
  | Thrown st => Thrown st
  | Exited code st => Exited code st
  end.

(** The evaluation of a parsed expression. *)
Fixpoint exec (e : expr) (c : context) (st : evaluation) : completion :=
  match e with
  | Num x => Normal (VNum x) st
  | Bool b => Normal (VBool b) st
  | Ctx f => Normal (ctx_get c f) st
  | Cmp op a b =>
      and_then (exec a c st) (fun va st1 =>
      and_then (exec b c st1) (fun vb st2 =>
      Normal (VBool (compare_values op va vb)) st2))
  | And a b =>
      and_then (exec a c st) (fun va st1 =>
      if truthy va then exec b c st1 else Normal va st1)
  | Or a b =>
      and_then (exec a c st) (fun va st1 =>
      if truthy va then Normal va st1 else exec b c st1)
  | Not a =>
      and_then (exec a c st) (fun va st1 =>
      Normal (VBool (negb (truthy va))) st1)
  | Assign x a =>
      and_then (exec a c st) (fun va st1 =>
      Normal va (set_vars (assign x va (vars st1)) st1))
  | Var x => Normal (var_get (vars st) x) st
  | Free _ => Thrown st                         (* ReferenceError *)
  | Length l => Normal (VNum (number_of_Z (arr_length (messages l st)))) st
  | Push l text =>
      let ms := messages l st ++ [text] in
      Normal (VNum (number_of_Z (arr_length ms))) (set_messages l ms st)
  | Clear l => Normal (VNum 0) (set_messages l [] st)
  | Comma a b =>
      and_then (exec a c st) (fun _ st1 => exec b c st1)
  | ProcessExit code => Exited code st
  | Unparsed => Thrown st
  end.

(** A text that is an expression throughout. *)
Fixpoint parses (e : expr) : bool :=
  match e with
  | Unparsed => false
  | Cmp _ a b | And a b | Or a b | Comma a b => parses a && parses b
  | Not a | Assign _ a => parses a
  | _ => true
  end.

(** [eval(text)]: a text that is no expression throws (SyntaxError) before
    any of it is run. *)
Definition eval (e : expr) (c : context) (st : evaluation) : completion :=
  if parses e then exec e c st else Thrown st.

(** The expression grammar of rule conditions: comparison and logical
    operators over constants and the four fields of [ctx]. *)
Fixpoint in_grammar (e : expr) : bool :=
  match e with
  | Num _ | Bool _ | Ctx _ => true
  | Cmp _ a b | And a b | Or a b => in_grammar a && in_grammar b
  | Not a => in_grammar a
  | _ => false
  end.

(** The value of a condition of the grammar, computed from [ctx] alone. *)
Fixpoint value_of (e : expr) (c : context) : js_value :=
  match e with
  | Num x => VNum x
  | Bool b => VBool b
  | Ctx f => ctx_get c f
  | Cmp op a b => VBool (compare_values op (value_of a c) (value_of b c))
  | And a b => if truthy (value_of a c) then value_of b c else value_of a c
  | Or a b => if truthy (value_of a c) then value_of a c else value_of b c
  | Not a => VBool (negb (truthy (value_of a c)))
  | _ => VBool false
  end.

(** *** Rules *)

(** The rule loop before its first rule: [let failures = [], warnings = []]. *)
Definition start (sc : scope) : evaluation := mk_evaluation sc [] [] [] None.

(** The body of [for (const rule of rules)].  Nothing is run once an
    exception or an exit has left the loop. *)
Definition apply_rule (st : evaluation) (r : rule) : evaluation :=
  match halted st with
  | Some _ => st
  | None =>
      let ctx := make_ctx (vars st) in
      match eval (when r) ctx st with
      | Normal v st1 =>
          let triggered := truthy v in
          if triggered then
            if String.eqb (severity r) "error"
            then mk_evaluation (vars st1)
                   (failures st1 ++ [trim (message r)]) (warnings st1)
                   (evaluated st1 ++ [(r, triggered)]) None
            else mk_evaluation (vars st1) (failures st1)
                   (warnings st1 ++ [trim (message r)])
                   (evaluated st1 ++ [(r, triggered)]) None
          else mk_evaluation (vars st1) (failures st1) (warnings st1)
                 (evaluated st1 ++ [(r, triggered)]) None
      | Thrown st1 =>
          mk_evaluation (vars st1) (failures st1) (warnings st1)
            (evaluated st1) (Some Uncaught)
      | Exited code st1 =>
          mk_evaluation (vars st1) (failures st1) (warnings st1)
            (evaluated st1) (Some (Exit code))
      end
  end.

Definition apply_rules (sc : scope) (rules : list rule) : evaluation :=
  fold_left apply_rule rules (start sc).

(** *** The whole run *)

Inductive event : Type :=
| Classify (i : nat)                   (* openai.chat.completions.create *)
| Evaluate (r : rule) (triggered : bool) (* eval(rule.when) and its result *)
| PostReview (passed : bool)           (* POST .../pulls/{pr}/reviews *)
| Webhook (url : string).              (* https.request to the webhook *)

Record run : Type := mk_run {
  trace : list event;
  finish : ending
}.

(** [(overallAiProb * 100).toFixed(1)] *)
Definition score_of (p : float) : fixed := toFixed1 (p * 100)%float.

(** [parseFloat(score) > 55] *)
Definition notifies (p : float) : bool := above_55 (score_of p).

(** The variables of the script when the rule loop starts. *)
Definition scope_of (st : loop_state) (p : float) : scope :=
  mk_scope (VNum p) (VNum (number_of_Z (linesAdded st)))
    (VBool (testsChanged st)) (VBool (licenseComment st)).

(** [if (failures.length) process.exit(1)], at the end of the module. *)
Definition exit_code (ev : evaluation) : ending :=
  if nonempty (failures ev) then Exit 1 else Exit 0.

(** The script from the file listing to the end of the process, when
    scripts/review.txt could be read and holds [rules].  [webhook]: the
    value of SLACK_WEBHOOK_URL when [new URL] accepts it, [None] when it
    throws.  Neither the analysis loop nor the rule loop nor the
    notification has a handler around it; posting the review has one. *)
Definition run_script (files : list pr_file) (cls : classifier)
    (rules : list rule) (webhook : option string) : run :=
  match analyze cls files with
  | Throw a => mk_run (map Classify (asked a)) Uncaught
  | Next a =>
      let ev := apply_rules (scope_of (run_loop files) (overallAiProb a))
                  rules in
      let evaluations :=
        map Classify (asked a)
        ++ map (fun rt => Evaluate (fst rt) (snd rt)) (evaluated ev) in
      match halted ev with
      | Some e => mk_run evaluations e
      | None =>
          let before :=
            evaluations ++ [PostReview (negb (nonempty (failures ev)))] in
          if notifies (overallAiProb a) then
            match webhook with
            | None => mk_run before Uncaught
            | Some url => mk_run (before ++ [Webhook url]) (exit_code ev)
            end
          else mk_run before (exit_code ev)
      end
  end.

(** The script from the file listing on.  [review_txt]: the rules that
    [parseRulesFromText] finds in scripts/review.txt, [None] when reading the
    file throws, which ends the run after the analysis loop. *)
Definition run_module (files : list pr_file) (cls : classifier)
    (review_txt : option (list rule)) (webhook : option string) : run :=
  match review_txt with
  | Some rules => run_script files cls rules webhook
  | None =>
      match analyze cls files with
      | Throw a => mk_run (map Classify (asked a)) Uncaught
      | Next a => mk_run (map Classify (asked a)) Uncaught
      end
  end.

(** A rule of severity [error] was triggered in the run. *)
Definition error_rule_triggered (r : run) : Prop :=
  exists rl, In (Evaluate rl true) (trace r) /\ severity rl = "error"%string.

(** The rules of severity [error] among those that were triggered. *)
Definition triggered_errors (evs : list (rule * bool)) : list (rule * bool) :=
  filter (fun rt => snd rt && String.eqb (severity (fst rt)) "error") evs.

End PrScript.

(* ================================================================= *)
(** ** The repository-wide analysis: [analyzeCodeBatches] *)

Module RepoScript.

(** An entry of the repository tree that passed the file filter. *)
Record tree_item : Type := mk_tree_item {
  path : string
}.

(** The answer of [GET /repos/{owner}/{repo}/contents/{path}]: the request
    throws, or it returns an encoding and the content, here already
    decoded to text. *)
Inductive response : Type :=
| Failed (message : string)
| Content (encoding : string) (content : string).

Definition contents_api : Type := tree_item -> response.

Definition MAX_BATCH_SIZE : Z := 800000.
Definition MAX_FILES_PER_BATCH : Z := 25.

(** What a batch holds for a file: [{ path, content: truncatedContent }]. *)
Record batch_entry : Type := mk_batch_entry {
  entry_path : string;
  entry_content : string
}.

(** An element of [reportData.analyzed_files]. *)
Inductive analyzed_file : Type :=
| Analyzed (p : string) (lines : Z)
| Unreadable (p : string) (error : string).

Definition newline : string := String (ascii_of_nat 10) EmptyString.

(** [content.split('\n').length] *)
Fixpoint count_lines (s : string) : Z :=
  match s with
  | EmptyString => 1
  | String c rest =>
      (if Ascii.eqb c (ascii_of_nat 10) then 1 else 0) + count_lines rest
  end.

(** [content.length > 12000 ? content.slice(0, 12000) + "..." : content] *)
Definition truncate (content : string) : string :=
  if js_length content >? 12000
  then (substring 0 (Z.to_nat 12000) content ++ newline
        ++ "... (content truncated for analysis)")%string
  else content.

Record loop_state : Type := mk_loop_state {
  batches : list (list batch_entry);
  currentBatch : list batch_entry;
  currentBatchSize : Z;
  totalFiles : Z;
  totalLines : Z;
  licenseDetected : bool;
  testFilesFound : bool;
  analyzed_files : list analyzed_file
}.

Definition loop_init : loop_state :=
  mk_loop_state [] [] 0 0 0 false false [].

(** A file the loop puts into a batch: the request succeeded and the
    encoding is base64. *)
Definition readable (api : contents_api) (file : tree_item) : bool :=
  match api file with
  | Content enc _ => String.eqb enc "base64"
  | Failed _ => false
  end.

(** The full text of a file, as fetched. *)
Definition full_content (api : contents_api) (file : tree_item) : string :=
  match api file with
  | Content _ content => content
  | Failed _ => ""
  end.

Definition entry_of (api : contents_api) (file : tree_item) : batch_entry :=
  mk_batch_entry (path file) (truncate (full_content api file)).

(** One iteration of [for (const file of codeFiles)]. *)
Definition loop_body (api : contents_api) (st : loop_state)
    (file : tree_item) : loop_state :=
  match api file with
  | Failed msg =>
      mk_loop_state (batches st) (currentBatch st) (currentBatchSize st)
        (totalFiles st) (totalLines st) (licenseDetected st)
        (testFilesFound st)
        (analyzed_files st ++ [Unreadable (path file) msg])
  | Content enc content =>
      if String.eqb enc "base64" then
        let lines := count_lines content in
        let full :=
          (currentBatchSize st + js_length content >? MAX_BATCH_SIZE)
          || (arr_length (currentBatch st) >=? MAX_FILES_PER_BATCH) in
        let close := full && nonempty (currentBatch st) in
        let truncatedContent := truncate content in
        mk_loop_state
          (if close then batches st ++ [currentBatch st] else batches st)
          ((if close then [] else currentBatch st)
             ++ [mk_batch_entry (path file) truncatedContent])
          ((if close then 0 else currentBatchSize st)
             + js_length truncatedContent)
          (totalFiles st + 1)
          (totalLines st + lines)
          (licenseDetected st || license_name content)
          (testFilesFound st || test_or_spec (path file))
          (analyzed_files st ++ [Analyzed (path file) lines])
      else st
  end.

Definition run_loop (api : contents_api) (codeFiles : list tree_item)
    : loop_state :=
  fold_left (loop_body api) codeFiles loop_init.

Definition push_last (st : loop_state) : list (list batch_entry) :=
  if nonempty (currentBatch st) then batches st ++ [currentBatch st]
  else batches st.

Definition make_batches (api : contents_api) (codeFiles : list tree_item)
    : list (list batch_entry) :=
  push_last (run_loop api codeFiles).

(** The size of a batch as it is sent: the sum of its entries' lengths. *)
Definition batch_size (b : list batch_entry) : Z :=
  fold_right (fun e acc => js_length (entry_content e) + acc) 0 b.

(** What the loop has put into batches so far. *)
Definition placed (st : loop_state) : list batch_entry :=
  List.concat (batches st) ++ currentBatch st.

(** The longest text a batch entry can hold: 12000 characters and the
    truncation notice. *)
Definition truncated_max : Z := 12037.

(** A batch of at most [MAX_FILES_PER_BATCH] truncated entries. *)
Definition small (b : list batch_entry) : Prop :=
  arr_length b <= MAX_FILES_PER_BATCH
  /\ Forall (fun e => js_length (entry_content e) <= truncated_max) b.

(** The invariant of the batching loop. *)
Record count_invariant (st : loop_state) : Prop := {
  current_small : small (currentBatch st);
  closed_small : Forall small (batches st)
}.

(** A file whose full text is longer than [MAX_BATCH_SIZE] is the only
    file of its batch. *)
Definition oversized_alone (api : contents_api) (codeFiles : list tree_item)
    : Prop :=
  forall file b,
    In file codeFiles -> readable api file = true ->
    MAX_BATCH_SIZE < js_length (full_content api file) ->
    In b (make_batches api codeFiles) -> In (entry_of api file) b ->
    b = [entry_of api file].

(** *** The analysis loop *)

Record verdict : Type := mk_verdict {
  ai_prob : Q;
  patterns_detected : list string;
  code_quality : string;
  rationale : string
}.

(** The classifier's answer for a batch: a verdict, or an exception with
    its message. *)
Inductive reply : Type :=
| Answer (v : verdict)
| Error (message : string).

Definition classifier : Type := nat -> list batch_entry -> reply.

Record analysis : Type := mk_analysis {
  allPatterns : list string;
  overallAiProb : Q;
  overallCodeQuality : string;
  allRationales : list string
}.

Definition analysis_init : analysis := mk_analysis [] 0 "Unknown" [].

(** [if (!allPatterns.some(p => p === pattern)) allPatterns.push(pattern)] *)
Definition add_pattern (acc : list string) (pattern : string) : list string :=
  if existsb (String.eqb pattern) acc then acc else acc ++ [pattern].

(** The branch that sets [overallCodeQuality]; the grouping of the second
    line is the one the language gives to [a && b || c]. *)
Definition update_quality (i : nat) (overall quality : string) : string :=
  if (i =? 0)%nat || String.eqb overall "Unknown" then quality
  else if
    (String.eqb quality "poor" && negb (String.eqb overall "poor"))
    || ((String.eqb quality "average" && String.eqb overall "good")
        || String.eqb overall "excellent")
    || (String.eqb quality "good" && String.eqb overall "excellent")
  then quality
  else overall.

(** The body of the analysis loop, with its [try]/[catch]; [n] is
    [totalFiles]. *)
Definition analyze_batch (cls : classifier) (n : Z) (i : nat)
    (b : list batch_entry) (a : analysis) : analysis :=
  match cls i b with
  | Answer v =>
      mk_analysis
        (fold_left add_pattern (patterns_detected v) (allPatterns a))
        (overallAiProb a + ai_prob v * ratio (arr_length b) n)%Q
        (update_quality i (overallCodeQuality a) (code_quality v))
        (allRationales a
           ++ [("Batch " ++ show_nat (i + 1) ++ " ("
                ++ show_nat (List.length b) ++ " files): " ++ rationale v)
               %string])
  | Error msg =>
      mk_analysis (allPatterns a) (overallAiProb a) (overallCodeQuality a)
        (allRationales a
           ++ [("Batch " ++ show_nat (i + 1)
                ++ ": Error during analysis - " ++ msg)%string])
  end.

Fixpoint analyze_from (cls : classifier) (n : Z) (i : nat)
    (bs : list (list batch_entry)) (a : analysis) : analysis :=
  match bs with
  | [] => a
  | b :: rest => analyze_from cls n (S i) rest (analyze_batch cls n i b a)
  end.

(** The accumulators at the end of [analyzeCodeBatches]. *)
Definition analyzeCodeBatches (api : contents_api) (cls : classifier)
    (codeFiles : list tree_item) : analysis :=
  let st := run_loop api codeFiles in
  analyze_from cls (totalFiles st) 0 (push_last st) analysis_init.

(** The factor [batches[i].length / totalFiles] of a batch. *)
Definition weight (n : Z) (b : list batch_entry) : Q :=
  ratio (arr_length b) n.

(** What batch [i] adds to [overallAiProb]. *)
Definition contribution (cls : classifier) (n : Z) (i : nat)
    (b : list batch_entry) : Q :=
  match cls i b with
  | Answer v => (ai_prob v * weight n b)%Q
  | Error _ => 0%Q
  end.

Fixpoint contributions_from (cls : classifier) (n : Z) (i : nat)
    (bs : list (list batch_entry)) : Q :=
  match bs with
  | [] => 0%Q
  | b :: rest => (contribution cls n i b + contributions_from cls n (S i) rest)%Q
  end.

(** The line of the rationale trail for batch [i]. *)
Definition rationale_line (cls : classifier) (i : nat) (b : list batch_entry)
    : string :=
  match cls i b with
  | Answer v =>
      ("Batch " ++ show_nat (i + 1) ++ " (" ++ show_nat (List.length b)
       ++ " files): " ++ rationale v)%string
  | Error msg =>
      ("Batch " ++ show_nat (i + 1) ++ ": Error during analysis - " ++ msg)
      %string
  end.

Fixpoint lines_from (cls : classifier) (i : nat)
    (bs : list (list batch_entry)) : list string :=
  match bs with
  | [] => []
  | b :: rest => rationale_line cls i b :: lines_from cls (S i) rest
  end.

(** The quality rollup over the qualities of successive batches that all
    returned a verdict, the first one at index [i]. *)
Fixpoint rollup_from (i : nat) (qualities : list string) (overall : string)
    : string :=
  match qualities with
  | [] => overall
  | q :: rest => rollup_from (S i) rest (update_quality i overall q)
  end.

Definition rollup (qualities : list string) : string :=
  rollup_from 0 qualities "Unknown".

End RepoScript.

(* ================================================================= *)
(** ** The GitHub-App pull-request pipeline: [analyzePullRequest] *)

Module PrApp.

(** The batching limits of [CONFIG]. *)
Definition maxBatchSize : Z := 1200000.
Definition maxFilesPerBatch : Z := 15.

(** *** [updateOverallCodeQuality]

    The function is declared in the body of [analyzePullRequest], after
    the [try] statement (lines 207-228); the variable it names,
    [overallCodeQuality], is declared by a [let] inside the [try] block
    (line 111).  The file is a module, hence strict code. *)

(** The identifiers declared in the scopes that enclose the body of the
    function, the innermost first: its parameters and constants, the
    declarations at the top of [analyzePullRequest], those of the module
    (with the functions that the file calls and leaves to the rest of the
    module).  The global object has no property of the name either. *)
Definition function_scope : list string :=
  ["batchIndex"; "batchQuality"; "qualityRank"; "currentRank"; "batchRank"]
  %string.

Definition analyzePullRequest_scope : list string :=
  ["reportData"; "tokenCount"; "startTime"; "updateOverallCodeQuality"]
  %string.

Definition module_scope : list string :=
  ["Octokit"; "createAppAuth"; "OpenAI"; "fs"; "https"; "path";
   "fileURLToPath"; "__filename"; "__dirname"; "CONFIG"; "octokit";
   "openai"; "analyzePullRequest"; "analyzeFileBatch";
   "formatReviewComment"; "initializeReportData"; "getAllPRFiles";
   "filterCodeFiles"; "organizeFilesIntoBatches";
   "evaluateAgainstPolicyRules"; "postReviewToPR"; "sendSlackNotification"]
  %string.

(** The declarations of the [try] block: not on the scope chain of the
    function. *)
Definition try_block_scope : list string :=
  ["event"; "owner"; "repo"; "pr"; "files"; "codeFiles"; "totalCodeSize";
   "estimatedTokens"; "batches"; "stats"; "overallAiProb"; "allPatterns";
   "allRationales"; "overallCodeQuality"; "batchSizes"; "batchTokens";
   "endTime"; "duration"; "score"; "failures"; "warnings"; "aiStatus"]
  %string.

Definition scope_chain : list string :=
  function_scope ++ analyzePullRequest_scope ++ module_scope.

Definition in_scope (name : string) : bool :=
  existsb (String.eqb name) scope_chain.

(** What the function sees of a variable of the [try] block that holds
    [value]: the value when the identifier resolves, nothing otherwise. *)
Definition seen (name : string) (value : string) : option string :=
  if in_scope name then Some value else None.

(** A call returns, or throws a ReferenceError with a message. *)
Inductive completion (A : Type) : Type :=
| Returned (a : A)
| ReferenceError (message : string).
Arguments Returned {A} a.
Arguments ReferenceError {A} message.

Definition not_defined (name : string) : string :=
  (name ++ " is not defined")%string.

(** What [qualityRank[q]] finds: a rank under one of the table's own keys,
    a property that every object inherits, or nothing. *)
Inductive property : Type :=
| Own (r : Z)
| Inherited (text : string)   (* the string the property turns into *)
| Absent.

(** The text of a built-in function of the given name. *)
Definition native (name : string) : string :=
  ("function " ++ name ++ "() { [native code] }")%string.

(** The properties of [Object.prototype]. *)
Definition inherited (q : string) : option string :=
  if String.eqb q "constructor" then Some (native "Object")
  else if String.eqb q "__proto__" then Some "[object Object]"%string
  else if existsb (String.eqb q)
            ["__defineGetter__"; "__defineSetter__"; "hasOwnProperty";
             "__lookupGetter__"; "__lookupSetter__"; "isPrototypeOf";
             "propertyIsEnumerable"; "toString"; "valueOf";
             "toLocaleString"]%string
       then Some (native q)
  else None.

(** [qualityRank[q]] *)
Definition qualityRank (q : string) : property :=
  if String.eqb q "poor" then Own 0
  else if String.eqb q "average" then Own 1
  else if String.eqb q "good" then Own 2
  else if String.eqb q "excellent" then Own 3
  else match inherited q with
       | Some text => Inherited text
       | None => Absent
       end.

(** [p || 0]: nothing and the rank 0 give 0, anything else itself. *)
Definition or_zero (p : property) : property :=
  match p with
  | Absent => Own 0
  | _ => p
  end.

(** [a < b]: two ranks are compared as numbers and two inherited
    properties as the strings they turn into; a rank against an inherited
    property is a number against NaN, which is false. *)
Definition less (a b : property) : bool :=
  match a, b with
  | Own x, Own y => x <? y
  | Inherited s, Inherited t => String.ltb s t
  | _, _ => false
  end.

(** [updateOverallCodeQuality(batchIndex, batchQuality)].
    [overallCodeQuality] is what the identifier of that name resolves to in
    the body: the variable's value, or nothing.  With nothing, the
    assignment of line 210 throws when [batchIndex] is 0, and the read of
    line 209 throws otherwise.  The result is the value the variable is
    left with. *)
Definition updateOverallCodeQuality (overallCodeQuality : option string)
    (batchIndex : nat) (batchQuality : string) : completion string :=
  match overallCodeQuality with
  | None => ReferenceError (not_defined "overallCodeQuality")
  | Some overall =>
      if (batchIndex =? 0)%nat || String.eqb overall "Unknown"
      then Returned batchQuality
      else
        let currentRank := or_zero (qualityRank overall) in
        let batchRank := or_zero (qualityRank batchQuality) in
        if less batchRank currentRank then Returned batchQuality
        else Returned overall
  end.

Section AnalyzePullRequest.

(** The records of the pull request's file listing, and the parts of the
    pipeline that the file calls without defining them. *)
Variable file : Type.
Variable stats : Type.
Variable policy : Type.      (* what evaluateAgainstPolicyRules returns *)

Variable filterCodeFiles : list file -> list file.
Variable organizeFilesIntoBatches : list file -> list (list file) * stats.

Record verdict : Type := mk_verdict {
  ai_prob : Q;
  patterns_detected : list string;
  code_quality : string;
  rationale : string
}.

(** [analyzeFileBatch(batch, i)]: the classifier's answer, or the
    exception it throws. *)
Inductive reply : Type :=
| Answer (v : verdict)
| Error (message : string).

Variable analyzeFileBatch : list file -> nat -> reply.

Record analysis : Type := mk_analysis {
  overallAiProb : Q;
  allPatterns : list string;
  allRationales : list string;
  overallCodeQuality : string
}.

Variable evaluateAgainstPolicyRules : analysis -> stats -> policy.

Definition analysis_init : analysis := mk_analysis 0 [] [] "Unknown".

(** [if (!allPatterns.includes(pattern)) allPatterns.push(pattern)] *)
Definition add_pattern (acc : list string) (pattern : string)
    : list string :=
  if existsb (String.eqb pattern) acc then acc else acc ++ [pattern].

(** The line that the [catch] of the loop records. *)
Definition error_line (i : nat) (msg : string) : string :=
  ("Batch " ++ show_nat (i + 1) ++ ": Error during analysis - " ++ msg)
  %string.

(** The body of the analysis loop, with its [try]/[catch]; [n] is
    [codeFiles.length].  The statements of the [try] block run in their
    order: the probability, the patterns and the rationale are recorded
    before [updateOverallCodeQuality] is called, and an exception it throws
    is caught like one of the classifier. *)
Definition analyze_batch (n : Z) (i : nat) (b : list file) (a : analysis)
    : analysis :=
  match analyzeFileBatch b i with
  | Answer v =>
      let prob := (overallAiProb a + ai_prob v * ratio (arr_length b) n)%Q in
      let patterns :=
        fold_left add_pattern (patterns_detected v) (allPatterns a) in
      let rationales :=
        allRationales a
        ++ [("Batch " ++ show_nat (i + 1) ++ " ("
             ++ show_nat (List.length b) ++ " files): " ++ rationale v)
            %string] in
      match updateOverallCodeQuality
              (seen "overallCodeQuality" (overallCodeQuality a)) i
              (code_quality v) with
      | Returned quality => mk_analysis prob patterns rationales quality
      | ReferenceError msg =>
          mk_analysis prob patterns (rationales ++ [error_line i msg])
            (overallCodeQuality a)
      end
  | Error msg =>
      mk_analysis (overallAiProb a) (allPatterns a)
        (allRationales a ++ [error_line i msg])
        (overallCodeQuality a)
  end.

Fixpoint analyze_from (n : Z) (i : nat) (bs : list (list file))
    (a : analysis) : analysis :=
  match bs with
  | [] => a
  | b :: rest => analyze_from n (S i) rest (analyze_batch n i b a)
  end.

Inductive event : Type :=
| Classify (i : nat)            (* analyzeFileBatch *)
| EvaluateRules                 (* evaluateAgainstPolicyRules *)
| PostReview                    (* postReviewToPR *)
| Notify.                       (* sendSlackNotification *)

(** [reportData.analysis_status] and [reportData.error] at the end, with
    the collaborators called on the way. *)
Record outcome : Type := mk_outcome {
  analysis_status : string;
  error : option string;
  trace : list event;
  result : option (analysis * policy)
}.

(** [analyzePullRequest], from the file listing on.  [listing] is the
    listing of the pull request, or the message of the exception thrown
    while reading the trigger payload or fetching the listing; [post]
    and [notify] are the messages of the exceptions that posting the
    review and sending the notification throw, if they throw. *)
Definition analyzePullRequest (listing : string + list file)
    (post notify : option string) : outcome :=
  match listing with
  | inl msg => mk_outcome "failed" (Some msg) [Notify] None
  | inr files =>
      let codeFiles := filterCodeFiles files in
      if (arr_length codeFiles =? 0) then
        mk_outcome "skipped"
          (Some "No code files to analyze after filtering"%string) [] None
      else
        let (batches, st) := organizeFilesIntoBatches codeFiles in
        let a :=
          analyze_from (arr_length codeFiles) 0 batches analysis_init in
        let calls := map Classify (seq 0 (List.length batches)) in
        let p := evaluateAgainstPolicyRules a st in
        match post, notify with
        | Some msg, _ =>
            mk_outcome "failed" (Some msg)
              (calls ++ [EvaluateRules; PostReview; Notify]) (Some (a, p))
        | None, Some msg =>
            mk_outcome "failed" (Some msg)
              (calls ++ [EvaluateRules; PostReview; Notify; Notify])
              (Some (a, p))
        | None, None =>
            mk_outcome "completed" None
              (calls ++ [EvaluateRules; PostReview; Notify]) (Some (a, p))
        end
  end.

End AnalyzePullRequest.

Arguments analyzePullRequest {file stats policy}.
Arguments mk_outcome {policy}.
Arguments analysis_status {policy}.
Arguments error {policy}.
Arguments trace {policy}.
Arguments result {policy}.

End PrApp.

Definition sum_Q (l : list Q) : Q := fold_right Qplus 0%Q l.

(* ================================================================= *)
(** ** Sample inputs *)

Module Samples.

(** A text of [n] characters. *)
Definition text_of_length (n : Z) : string :=
  string_of_list_ascii (repeat "a"%char (Z.to_nat n)).

(** A changed source file with a one-line patch. *)
Definition source_file : PrScript.pr_file :=
  PrScript.mk_pr_file "src/a.js" (Some "+x"%string) 1.

(** A binary file: the host lists it without a patch. *)
Definition image_file : PrScript.pr_file :=
  PrScript.mk_pr_file "logo.png" None 0.

(** A file whose patch has 15000 characters. *)
Definition long_file : PrScript.pr_file :=
  PrScript.mk_pr_file "src/long.js" (Some (text_of_length 15000)) 300.

Definition big_item : RepoScript.tree_item :=
  RepoScript.mk_tree_item "big.js".

Definition small_item : RepoScript.tree_item :=
  RepoScript.mk_tree_item "small.js".

(** A repository where big.js has 800001 characters and every other file
    has one. *)
Definition big_api : RepoScript.contents_api :=
  fun file =>
    if String.eqb (RepoScript.path file) "big.js"
    then RepoScript.Content "base64" (text_of_length 800001)
    else RepoScript.Content "base64" "x".

(** Two rules within the condition grammar. *)
Definition high_confidence : PrScript.rule :=
  PrScript.mk_rule "High AI Confidence"
    (PrScript.Cmp PrScript.Gt (PrScript.Ctx PrScript.f_ai_prob)
       (PrScript.Num 0.8))
    "error" "High AI confidence".

Definition missing_tests : PrScript.rule :=
  PrScript.mk_rule "Missing Tests"
    (PrScript.Not (PrScript.Ctx PrScript.f_tests_changed))
    "error" "No tests were changed".

(** Rules outside the grammar.  [overallAiProb = 0]: *)
Definition reset_probability : PrScript.rule :=
  PrScript.mk_rule "Reset"
    (PrScript.Assign PrScript.x_overallAiProb (PrScript.Num 0))
    "warning" "reset".

(** [ai_prob > 0.8]: the name [ai_prob] is bound only inside the analysis
    loop, not where the rules are evaluated. *)
Definition bare_name : PrScript.rule :=
  PrScript.mk_rule "High AI Confidence"
    (PrScript.Cmp PrScript.Gt (PrScript.Free "ai_prob") (PrScript.Num 0.8))
    "error" "High AI confidence".

(** [(failures.length = 0, false)] *)
Definition sweep : PrScript.rule :=
  PrScript.mk_rule "Sweep"
    (PrScript.Comma (PrScript.Clear PrScript.l_failures)
       (PrScript.Bool false))
    "warning" "swept".

(** [failures.push('x') && false] *)
Definition plant : PrScript.rule :=
  PrScript.mk_rule "Plant"
    (PrScript.And (PrScript.Push PrScript.l_failures "x")
       (PrScript.Bool false))
    "warning" "planted".

(** [process.exit(0)] *)
Definition leave : PrScript.rule :=
  PrScript.mk_rule "Leave" (PrScript.ProcessExit 0) "warning" "left".

(** The script's variables after a run of the classifier that left a
    probability of 0.9. *)
Definition suspicious : PrScript.scope :=
  PrScript.mk_scope (PrScript.VNum 0.9) (PrScript.VNum 10)
    (PrScript.VBool false) (PrScript.VBool false).

(** A classifier that answers every request with the probability [p]. *)
Definition says (p : float) : PrScript.classifier :=
  fun _ _ => Some (PrScript.mk_verdict p "generated").

(** A classifier that is certain of every batch. *)
Definition certain : PrScript.classifier := says 1.

(** A classifier whose first request fails. *)
Definition first_request_fails : PrScript.classifier :=
  fun i b => match i with O => None | S _ => certain i b end.

(** A repository classifier that reports the qualities [qs], batch by
    batch. *)
Definition reports (qs : list string) : RepoScript.classifier :=
  fun i _ =>
    RepoScript.Answer (RepoScript.mk_verdict 0 [] (nth i qs "good"%string) "").

(** A repository classifier whose every request times out. *)
Definition times_out : RepoScript.classifier :=
  fun _ _ => RepoScript.Error "timeout".

(** The classifier of the GitHub-App pipeline reporting the qualities
    [qs], batch by batch, and failing on the batches beyond. *)
Definition app_reports (qs : list string)
    : list PrScript.pr_file -> nat -> PrApp.reply :=
  fun _ i =>
    match nth_error qs i with
    | Some q => PrApp.Answer (PrApp.mk_verdict 1 ["verbose names"%string] q "tidy")
    | None => PrApp.Error "timeout"
    end.

End Samples.

(* ================================================================= *)
(** ** Fetching the listing: [getAllPRFiles] *)

Module Listing.

(** The loop of [getAllPRFiles]: request page after page, 100 records a
    page, until a page comes back with fewer than 100.  [request] is the
    host, from the page number to the records of that page; [fuel] bounds
    the number of requests ([None]: the loop is still running after that
    many). *)
Fixpoint fetch_pages {A : Type} (request : nat -> list A) (fuel page : nat)
    (allFiles : list A) : option (list A) :=
  match fuel with
  | O => None
  | S fuel' =>
      let files := request page in
      let allFiles' := allFiles ++ files in
      if (List.length files <? 100)%nat then Some allFiles'
      else fetch_pages request fuel' (S page) allFiles'
  end.

Definition getAllPRFiles {A : Type} (request : nat -> list A) (fuel : nat)
    : option (list A) :=
  fetch_pages request fuel 1 [].

(** A host that serves [listing] in pages of 100, the first page being
    page 1. *)
Definition serve {A : Type} (listing : list A) (page : nat) : list A :=
  firstn 100 (skipn ((page - 1) * 100) listing).

End Listing.

(* ================================================================= *)
(** ** Statements about the pull-request script *)

Module PrBatching.
Import PrScript.

(** Each batch but the last was closed because the file that opens the
    next one did not fit. *)
Fixpoint closed_when_full (bs : list (list pr_file)) : Prop :=
  match bs with
  | b1 :: (b2 :: _) as rest =>
      (exists f tl, b2 = f :: tl
                    /\ MAX_DIFF_LENGTH < batch_size b1 + patch_length f)
      /\ closed_when_full rest
  | _ => True
  end.

(** The batches of a state, the open one last. *)
Definition all_batches (st : loop_state) : list (list pr_file) :=
  batches st ++ [currentBatch st].

(** The invariant behind [closed_when_full]: before the first file with a
    patch nothing was made; after it a batch is always open. *)
Definition greedy_invariant (st : loop_state) : Prop :=
  currentBatchSize st = batch_size (currentBatch st)
  /\ Forall (fun b => b <> []) (batches st)
  /\ ((batches st = [] /\ currentBatch st = [])
      \/ (currentBatch st <> [] /\ closed_when_full (all_batches st))).

(** The statistics of the files that have a patch. *)
Definition sum_additions (files : list pr_file) : Z :=
  fold_right (fun f acc => additions f + acc) 0 files.

(** The terms that the batches from index [i] on add to [overallAiProb]
    when every request is answered: each verdict's probability times its
    batch's share, [n] being [files.length]. *)
Fixpoint terms (cls : classifier) (n : Z) (i : nat)
    (bs : list (list pr_file)) : list float :=
  match bs with
  | [] => []
  | b :: rest =>
      match cls i b with
      | Some v =>
          [(ai_prob v * (number_of_Z (arr_length b) / number_of_Z n))%float]
      | None => []
      end ++ terms cls n (S i) rest
  end.

(** The terms added one after the other, from 0 on. *)
Definition weighted_sum (cls : classifier) (n : Z) (i : nat)
    (bs : list (list pr_file)) : float :=
  fold_left PrimFloat.add (terms cls n i bs) 0%float.

(** The rules that were triggered and do not have severity [error]. *)
Definition triggered_warnings (evs : list (rule * bool)) : list (rule * bool) :=
  filter (fun rt => snd rt && negb (String.eqb (severity (fst rt)) "error"))
    evs.

(** The verdict on a rule of the grammar, read off the context alone. *)
Definition judged (sc : scope) (r : rule) : rule * bool :=
  (r, truthy (value_of (when r) (make_ctx sc))).

(** The messages that rules of the grammar leave in the two lists. *)
Definition error_messages (sc : scope) (rules : list rule) : list string :=
  map (fun rt => trim (message (fst rt)))
    (triggered_errors (map (judged sc) rules)).

Definition warning_messages (sc : scope) (rules : list rule) : list string :=
  map (fun rt => trim (message (fst rt)))
    (triggered_warnings (map (judged sc) rules)).


(** The rule loop of a run whose analysis left [a]. *)
Definition rule_loop (files : list pr_file) (a : analysis)
    (rules : list rule) : evaluation :=
  apply_rules (scope_of (run_loop files) (overallAiProb a)) rules.

End PrBatching.

(* ================================================================= *)
(** ** Reading the rules: [parseRulesFromText], [parseHumanReadableRules] *)

Module RulesText.

Definition nl : string := String (ascii_of_nat 10) EmptyString.

(** [s.split(sep)] for a separator that is not empty: the pieces between
    the occurrences of [sep], found from left to right.  [skip] counts the
    characters of an occurrence still to pass over, [cur] is the piece
    read so far. *)
Fixpoint split_from (sep : string) (skip : nat) (s cur : string)
    : list string :=
  match s with
  | EmptyString => [cur]
  | String c rest =>
      match skip with
      | S k => split_from sep k rest cur
      | O =>
          if prefix sep s
          then cur :: split_from sep (String.length sep - 1) rest ""
          else split_from sep 0 rest (cur ++ String c EmptyString)
      end
  end.

Definition split (sep s : string) : list string := split_from sep 0 s "".

(** The truthiness of a string. *)
Definition filled (s : string) : bool := negb (String.eqb s "").

(** The object [rule] that [parseRulesFromText] fills: the assignments
    made, the latest first. *)
Definition object : Type := list (string * string).

(** [rule[key]], with the empty string for a key that was never set. *)
Fixpoint field (key : string) (o : object) : string :=
  match o with
  | [] => ""
  | (k, v) :: rest => if String.eqb k key then v else field key rest
  end.

(** The body of [for (const line of lines)]. *)
Definition parse_line (rule : object) (line : string) : object :=
  if filled (trim line) && negb (prefix "#" line) then
    match split "=" line with
    | key :: valueParts => (trim key, trim (join "=" valueParts)) :: rule
    | [] => rule
    end
  else rule.

Definition parse_section (section : string) : object :=
  fold_left parse_line (split nl (trim section)) [].

(** [rule.name && rule.when && rule.severity && rule.message] *)
Definition complete (o : object) : bool :=
  filled (field "name" o) && filled (field "when" o)
  && filled (field "severity" o) && filled (field "message" o).

Definition parseRulesFromText (text : string) : list object :=
  filter complete (map parse_section (tl (split "[rule]" text))).

(** *** [parseHumanReadableRules] *)

Record readable_rule : Type := mk_readable_rule {
  name : string;
  condition : string;
  severity : string;
  message : string
}.

(** The chain of comparisons on the title. *)
Definition condition_of (title : string) : string :=
  if String.eqb title "High AI Confidence" then "ai_prob > 0.8"
  else if String.eqb title "Medium AI Confidence"
       then "ai_prob > 0.6 && !license_comment"
  else if String.eqb title "Likely AI Generated"
       then "ai_prob > 0.4 && !license_comment"
  else if String.eqb title "Poor Comment Quality" then "ai_prob > 0.5"
  else if String.eqb title "Grammar Issues" then "ai_prob > 0.3"
  else if String.eqb title "Missing Context"
       then "ai_prob > 0.4 && lines_added > 100"
  else if String.eqb title "Missing Tests"
       then "ai_prob > 0.5 && !tests_changed && lines_added > 50"
  else if String.eqb title "Excessive Code"
       then "lines_added > 300 && ai_prob > 0.5"
  else "".

(** The conditions the function can give to a rule. *)
Definition known_conditions : list string :=
  ["ai_prob > 0.8"; "ai_prob > 0.6 && !license_comment";
   "ai_prob > 0.4 && !license_comment"; "ai_prob > 0.5"; "ai_prob > 0.3";
   "ai_prob > 0.4 && lines_added > 100";
   "ai_prob > 0.5 && !tests_changed && lines_added > 50";
   "lines_added > 300 && ai_prob > 0.5"]%string.

(** The body of [for (const section of sections)]. *)
Definition read_section (section : string) : list readable_rule :=
  let lines := split nl (trim section) in
  let title := trim (hd ""%string lines) in
  let content := trim (join " " (tl lines)) in
  let severity :=
    (if includes "flag this as an error" content then "error" else "warning")
    %string in
  let condition := condition_of title in
  if filled condition
  then [mk_readable_rule title condition severity content]
  else [].

Definition parseHumanReadableRules (text : string) : list readable_rule :=
  flat_map read_section (tl (split "## " text)).

(** *** Rules as they are written in the file *)

Record written_rule : Type := mk_written_rule {
  w_name : string;
  w_when : string;
  w_severity : string;
  w_message : string
}.

(** The lines of a rule after its [[rule]] line. *)
Definition body (r : written_rule) : string :=
  (nl ++ "name=" ++ w_name r ++ nl ++ "when=" ++ w_when r ++ nl
   ++ "severity=" ++ w_severity r ++ nl ++ "message=" ++ w_message r ++ nl)
  %string.

Definition render (r : written_rule) : string := ("[rule]" ++ body r)%string.

Fixpoint render_all (rs : list written_rule) : string :=
  match rs with
  | [] => ""
  | r :: rest => (render r ++ render_all rest)%string
  end.

Definition as_object (r : written_rule) : object :=
  [("message", w_message r); ("severity", w_severity r);
   ("when", w_when r); ("name", w_name r)]%string.

Fixpoint has_char (c : ascii) (s : string) : bool :=
  match s with
  | EmptyString => false
  | String d rest => Ascii.eqb c d || has_char c rest
  end.

(** A string that starts with a character that is not white space. *)
Definition starts_solid (s : string) : bool :=
  match s with
  | EmptyString => false
  | String c _ => negb (is_space c)
  end.

(** A value as one writes it on a line: not empty, without a line break
    or an opening bracket, and without white space at either end. *)
Definition plain (s : string) : bool :=
  negb (has_char (ascii_of_nat 10) s) && negb (has_char "[" s)
  && starts_solid s && starts_solid (rev_string s).

Definition well_written (r : written_rule) : bool :=
  plain (w_name r) && plain (w_when r) && plain (w_severity r)
  && plain (w_message r).

End RulesText.

(* ================================================================= *)
(** ** Statements about the repository analysis *)

Module RepoBatching.
Import RepoScript.

(** What the loop records in [reportData.analyzed_files] for a file. *)
Definition report_entries (api : contents_api) (file : tree_item)
    : list analyzed_file :=
  match api file with
  | Failed msg => [Unreadable (path file) msg]
  | Content enc content =>
      if String.eqb enc "base64"
      then [Analyzed (path file) (count_lines content)]
      else []
  end.

Definition sum_lines (api : contents_api) (files : list tree_item) : Z :=
  fold_right (fun f acc => count_lines (full_content api f) + acc) 0 files.

(** Each batch but the last was closed for one of the two causes the loop
    tests: it had reached the file limit, or the full text of the file that
    opens the next batch would have taken its size over the size limit. *)
Fixpoint closed_for_cause (api : contents_api)
    (bs : list (list batch_entry)) : Prop :=
  match bs with
  | b1 :: (b2 :: _) as rest =>
      (exists file tl,
          readable api file = true
          /\ b2 = entry_of api file :: tl
          /\ (MAX_FILES_PER_BATCH <= arr_length b1
              \/ MAX_BATCH_SIZE
                 < batch_size b1 + js_length (full_content api file)))
      /\ closed_for_cause api rest
  | _ => True
  end.

Definition cause_invariant (api : contents_api) (st : loop_state) : Prop :=
  currentBatchSize st = batch_size (currentBatch st)
  /\ Forall (fun b => b <> []) (batches st)
  /\ ((batches st = [] /\ currentBatch st = [])
      \/ (currentBatch st <> []
          /\ closed_for_cause api (batches st ++ [currentBatch st]))).

(** The patterns that the verdicts of the batches from index [i] on
    report. *)
Fixpoint reported (cls : classifier) (i : nat) (bs : list (list batch_entry))
    : list string :=
  match bs with
  | [] => []
  | b :: rest =>
      (match cls i b with
       | Answer v => patterns_detected v
       | Error _ => []
       end) ++ reported cls (S i) rest
  end.

(** The qualities that the verdicts of the batches from index [i] on
    report, in the order of the batches; a batch whose request failed
    reports none. *)
Fixpoint answered_qualities (cls : classifier) (i : nat)
    (bs : list (list batch_entry)) : list string :=
  match bs with
  | [] => []
  | b :: rest =>
      (match cls i b with
       | Answer v => [code_quality v]
       | Error _ => []
       end) ++ answered_qualities cls (S i) rest
  end.

(** The four qualities that the comparison chain names, in their order:
    poor < average < good < excellent. *)
Inductive quality : Type := poor | average | good | excellent.

Definition quality_name (k : quality) : string :=
  match k with
  | poor => "poor"
  | average => "average"
  | good => "good"
  | excellent => "excellent"
  end.

Definition quality_rank (k : quality) : Z :=
  match k with
  | poor => 0
  | average => 1
  | good => 2
  | excellent => 3
  end.

(** The lower of two qualities, the first one when they are equal. *)
Definition lower (k1 k2 : quality) : quality :=
  if quality_rank k2 <? quality_rank k1 then k2 else k1.

End RepoBatching.

(* ================================================================= *)
(** ** Statements about the loop of [analyzePullRequest] *)

Module PrAppLoop.
Import PrApp.

Section Loop.
Variable file : Type.
Variable analyzeFileBatch : list file -> nat -> reply.

(** The lines that batch [i] leaves in the rationale trail: the error line
    when the request failed; when it was answered, the line of its rationale
    and then the error line of the exception that
    [updateOverallCodeQuality] throws. *)
Definition rationale_lines (i : nat) (b : list file) : list string :=
  match analyzeFileBatch b i with
  | Answer v =>
      [("Batch " ++ show_nat (i + 1) ++ " (" ++ show_nat (List.length b)
        ++ " files): " ++ rationale v)%string;
       ("Batch " ++ show_nat (i + 1)
        ++ ": Error during analysis - overallCodeQuality is not defined")
       %string]
  | Error msg =>
      [("Batch " ++ show_nat (i + 1) ++ ": Error during analysis - " ++ msg)
       %string]
  end.

Fixpoint lines_from (i : nat) (bs : list (list file)) : list string :=
  match bs with
  | [] => []
  | b :: rest => rationale_lines i b ++ lines_from (S i) rest
  end.

(** What batch [i] adds to [overallAiProb]; [n] is [codeFiles.length]. *)
Definition contribution (n : Z) (i : nat) (b : list file) : Q :=
  match analyzeFileBatch b i with
  | Answer v => (ai_prob v * ratio (arr_length b) n)%Q
  | Error _ => 0%Q
  end.

Fixpoint contributions_from (n : Z) (i : nat) (bs : list (list file)) : Q :=
  match bs with
  | [] => 0%Q
  | b :: rest => (contribution n i b + contributions_from n (S i) rest)%Q
  end.

(** The patterns that the verdicts of the batches from index [i] on
    report. *)
Fixpoint reported (i : nat) (bs : list (list file)) : list string :=
  match bs with
  | [] => []
  | b :: rest =>
      (match analyzeFileBatch b i with
       | Answer v => patterns_detected v
       | Error _ => []
       end) ++ reported (S i) rest
  end.

End Loop.

End PrAppLoop.

(* ================================================================= *)
(** * Properties *)

Section ListFacts.
Context {A : Type}.

Lemma concat_snoc (ls : list (list A)) (l : list A) :
  List.concat (ls ++ [l]) = List.concat ls ++ l.
Proof.
  rewrite concat_app. simpl. now rewrite app_nil_r.
Qed.

Lemma nonempty_false (l : list A) : nonempty l = false -> l = [].
Proof. destruct l; [reflexivity | discriminate]. Qed.

Lemma fold_left_invariant {B : Type} (f : B -> A -> B) (P : B -> Prop) :
  (forall s a, P s -> P (f s a)) ->
  forall l s, P s -> P (fold_left f l s).
Proof.
  intros Hstep l. induction l as [| a l IH]; intros s Hs; simpl.
  - exact Hs.
  - apply IH, Hstep, Hs.
Qed.
End ListFacts.

Module PrScriptFacts.
Import PrScript.

Lemma close_if_full_placed st f : placed (close_if_full st f) = placed st.
Proof.
  unfold close_if_full, placed.
  destruct (_ && _); simpl; [| reflexivity].
  now rewrite concat_snoc, app_nil_r.
Qed.

Lemma loop_body_placed st f :
  placed (loop_body st f) = placed st ++ filter has_patch [f].
Proof.
  unfold loop_body. simpl. destruct (has_patch f); simpl.
  - unfold placed at 1. simpl. fold (placed (close_if_full st f)).
    rewrite app_assoc. fold (placed (close_if_full st f)).
    now rewrite close_if_full_placed.
  - now rewrite app_nil_r.
Qed.

Lemma fold_loop_placed files st :
  placed (fold_left loop_body files st) = placed st ++ filter has_patch files.
Proof.
  revert st. induction files as [| f files IH]; intros st.
  - simpl. now rewrite app_nil_r.
  - cbn [fold_left]. rewrite IH, loop_body_placed.
    rewrite <- app_assoc. f_equal.
    simpl. now destruct (has_patch f).
Qed.

Lemma push_last_placed st : List.concat (push_last st) = placed st.
Proof.
  unfold push_last, placed. destruct (nonempty (currentBatch st)) eqn:E.
  - apply concat_snoc.
  - apply nonempty_false in E. rewrite E. now rewrite app_nil_r.
Qed.

Lemma make_batches_concat files :
  List.concat (make_batches files) = filter has_patch files.
Proof.
  unfold make_batches, run_loop.
  now rewrite push_last_placed, fold_loop_placed.
Qed.

Lemma patch_length_nonneg f : 0 <= patch_length f.
Proof. unfold patch_length, js_length. destruct (patch f); lia. Qed.

Lemma batch_size_nonneg b : 0 <= batch_size b.
Proof.
  induction b as [| f b IH]; simpl; [lia |].
  pose proof (patch_length_nonneg f). lia.
Qed.

Lemma batch_size_snoc b f : batch_size (b ++ [f]) = batch_size b + patch_length f.
Proof. induction b as [| g b IH]; simpl; lia. Qed.

Lemma batch_size_member b f : In f b -> patch_length f <= batch_size b.
Proof.
  induction b as [| g b IH]; simpl; [tauto |].
  intros [-> | H].
  - pose proof (batch_size_nonneg b). lia.
  - specialize (IH H). pose proof (patch_length_nonneg g). lia.
Qed.

Lemma size_invariant_init : size_invariant loop_init.
Proof.
  split; simpl.
  - reflexivity.
  - left. simpl. unfold MAX_DIFF_LENGTH. lia.
  - constructor.
Qed.

Lemma size_invariant_step st f :
  size_invariant st -> size_invariant (loop_body st f).
Proof.
  intros [Hsz Hcur Hcl]. unfold loop_body.
  destruct (has_patch f); simpl; [| now split].
  unfold close_if_full.
  destruct (Z.gtb_spec (currentBatchSize st + patch_length f) MAX_DIFF_LENGTH)
    as [Hover | Hfits]; simpl.
  - destruct (currentBatch st) as [| g rest] eqn:Ecur; simpl.
    + (* nothing to close: the file alone exceeds the limit *)
      simpl in Hsz. split; simpl; rewrite ?Ecur; simpl.
      * lia.
      * right. exists f. split; [reflexivity | lia].
      * exact Hcl.
    + split; simpl.
      * lia.
      * destruct (Z.le_gt_cases (patch_length f) MAX_DIFF_LENGTH).
        -- left. simpl. lia.
        -- right. exists f. split; [reflexivity | lia].
      * apply Forall_app. split; [exact Hcl | now constructor].
  - split; simpl.
    + rewrite batch_size_snoc. lia.
    + left. rewrite batch_size_snoc. lia.
    + exact Hcl.
Qed.

Lemma size_invariant_loop files : size_invariant (run_loop files).
Proof.
  unfold run_loop. apply fold_left_invariant.
  - intros s a. apply size_invariant_step.
  - apply size_invariant_init.
Qed.

Lemma make_batches_within files :
  Forall within_limit (make_batches files).
Proof.
  destruct (size_invariant_loop files) as [_ Hcur Hcl].
  unfold make_batches, push_last.
  destruct (nonempty _); [| exact Hcl].
  apply Forall_app. split; [exact Hcl | now constructor].
Qed.

End PrScriptFacts.

Section StringFacts.

Lemma length_append (s t : string) :
  String.length (s ++ t) = (String.length s + String.length t)%nat.
Proof. induction s as [| c s IH]; simpl; [reflexivity | now rewrite IH]. Qed.

Lemma length_substring_0 (n : nat) (s : string) :
  (String.length (substring 0 n s) <= n)%nat.
Proof.
  revert s. induction n as [| n IH]; intros s.
  - destruct s; simpl; lia.
  - destruct s as [| c s]; simpl; [lia |]. specialize (IH s). lia.
Qed.

End StringFacts.

Module RepoScriptFacts.
Import RepoScript.

Lemma repo_loop_body_placed api st file :
  placed (loop_body api st file)
  = placed st ++ map (entry_of api) (filter (readable api) [file]).
Proof.
  assert (forall enc content, api file = Content enc content ->
            entry_of api file = mk_batch_entry (path file) (truncate content))
    as Hentry.
  { intros enc content E. unfold entry_of, full_content. now rewrite E. }
  unfold loop_body, readable. simpl.
  destruct (api file) as [msg | enc content] eqn:E; simpl.
  - now rewrite app_nil_r.
  - destruct (String.eqb enc "base64"); simpl; [| now rewrite app_nil_r].
    rewrite (Hentry enc content eq_refl).
    unfold placed. simpl.
    destruct (_ && _); simpl.
    + rewrite concat_snoc. now rewrite <- app_assoc.
    + now rewrite app_assoc.
Qed.

Lemma repo_fold_loop_placed api files st :
  placed (fold_left (loop_body api) files st)
  = placed st ++ map (entry_of api) (filter (readable api) files).
Proof.
  revert st. induction files as [| f files IH]; intros st.
  - simpl. now rewrite app_nil_r.
  - cbn [fold_left]. rewrite IH, repo_loop_body_placed.
    rewrite <- app_assoc. f_equal.
    simpl. destruct (readable api f); reflexivity.
Qed.

Lemma repo_push_last_placed st : List.concat (push_last st) = placed st.
Proof.
  unfold push_last, placed. destruct (nonempty (currentBatch st)) eqn:E.
  - apply concat_snoc.
  - apply nonempty_false in E. rewrite E. now rewrite app_nil_r.
Qed.

Lemma repo_make_batches_concat api codeFiles :
  List.concat (make_batches api codeFiles)
  = map (entry_of api) (filter (readable api) codeFiles).
Proof.
  unfold make_batches, run_loop.
  now rewrite repo_push_last_placed, repo_fold_loop_placed.
Qed.

Lemma truncate_length content : js_length (truncate content) <= truncated_max.
Proof.
  unfold truncate, js_length, truncated_max.
  destruct (Z.gtb_spec (Z.of_nat (String.length content)) 12000) as [Hlong | Hshort].
  - rewrite !length_append.
    pose proof (length_substring_0 (Z.to_nat 12000) content) as Hsub.
    change (String.length newline) with 1%nat.
    change (String.length "... (content truncated for analysis)") with 36%nat.
    lia.
  - lia.
Qed.

Lemma small_size b : small b -> batch_size b <= MAX_FILES_PER_BATCH * truncated_max.
Proof.
  intros [Hlen Hall].
  assert (batch_size b <= arr_length b * truncated_max) as Hsum.
  { clear Hlen. unfold arr_length. induction Hall as [| e b He Hall IH].
    - simpl. lia.
    - cbn [batch_size fold_right List.length]. fold (batch_size b). lia. }
  unfold truncated_max in *. nia.
Qed.

Lemma count_invariant_init : count_invariant loop_init.
Proof.
  split; simpl.
  - split; [unfold arr_length, MAX_FILES_PER_BATCH; simpl; lia | constructor].
  - constructor.
Qed.

Lemma small_singleton e :
  js_length (entry_content e) <= truncated_max -> small [e].
Proof.
  intros He. split.
  - unfold arr_length, MAX_FILES_PER_BATCH. simpl. lia.
  - constructor; [exact He | constructor].
Qed.

Lemma small_snoc b e :
  small b -> arr_length b < MAX_FILES_PER_BATCH ->
  js_length (entry_content e) <= truncated_max -> small (b ++ [e]).
Proof.
  intros [_ Hall] Hroom He. split.
  - unfold arr_length in *. rewrite length_app. simpl. lia.
  - apply Forall_app. split; [exact Hall |].
    constructor; [exact He | constructor].
Qed.

Lemma count_invariant_step api st file :
  count_invariant st -> count_invariant (loop_body api st file).
Proof.
  intros [Hcur Hcl]. unfold loop_body.
  destruct (api file) as [msg | enc content]; [now split |].
  destruct (String.eqb enc "base64"); [| now split].
  pose proof (truncate_length content) as Htr.
  assert (Forall small (batches st ++ [currentBatch st])) as Hclosed.
  { apply Forall_app. split; [exact Hcl |]. constructor; [exact Hcur | constructor]. }
  destruct (nonempty (currentBatch st)) eqn:Hne.
  - (* a batch is open *)
    rewrite andb_true_r.
    destruct (_ || _) eqn:Hfull; split; simpl.
    + now apply small_singleton.
    + exact Hclosed.
    + apply orb_false_elim in Hfull. destruct Hfull as [_ Hroom].
      apply small_snoc; [exact Hcur | | exact Htr].
      destruct (Z.geb_spec (arr_length (currentBatch st)) MAX_FILES_PER_BATCH);
        [discriminate | assumption].
    + exact Hcl.
  - (* no batch is open: the file starts one *)
    rewrite andb_false_r. apply nonempty_false in Hne.
    split; simpl; [| exact Hcl].
    rewrite Hne. simpl. now apply small_singleton.
Qed.

Lemma count_invariant_loop api codeFiles :
  count_invariant (run_loop api codeFiles).
Proof.
  unfold run_loop. apply fold_left_invariant.
  - intros s a. apply count_invariant_step.
  - apply count_invariant_init.
Qed.

Lemma make_batches_small api codeFiles :
  Forall small (make_batches api codeFiles).
Proof.
  destruct (count_invariant_loop api codeFiles) as [Hcur Hcl].
  unfold make_batches, push_last.
  destruct (nonempty _); [| exact Hcl].
  apply Forall_app. split; [exact Hcl | now constructor].
Qed.

End RepoScriptFacts.

(* ================================================================= *)
(** * The batch partitioner *)

(** C1. In both partitioners the batches, concatenated in order, are the
    files that were not skipped, each once and in the order of the input:
    in the pull-request script the files that have a patch, in the
    repository analysis the entries of the files that could be read. *)
Theorem C1_batches_partition
    (files : list PrScript.pr_file)
    (api : RepoScript.contents_api) (codeFiles : list RepoScript.tree_item) :
  List.concat (PrScript.make_batches files)
    = filter PrScript.has_patch files
  /\ List.concat (RepoScript.make_batches api codeFiles)
    = map (RepoScript.entry_of api) (filter (RepoScript.readable api) codeFiles).
Proof.
  split.
  - apply PrScriptFacts.make_batches_concat.
  - apply RepoScriptFacts.repo_make_batches_concat.
Qed.

(** C2, as stated, fails in the repository analysis: big.js, whose text is
    longer than [MAX_BATCH_SIZE], is cut to the truncation length and shares
    its batch with small.js. *)
Lemma C2_oversized_file_shares_batch :
  ~ RepoScript.oversized_alone Samples.big_api
      [Samples.big_item; Samples.small_item].
Proof.
  unfold RepoScript.oversized_alone. intros H.
  assert (RepoScript.make_batches Samples.big_api
            [Samples.big_item; Samples.small_item]
          = [[RepoScript.entry_of Samples.big_api Samples.big_item;
              RepoScript.entry_of Samples.big_api Samples.small_item]])
    as Hb by (vm_compute; reflexivity).
  assert ([RepoScript.entry_of Samples.big_api Samples.big_item;
           RepoScript.entry_of Samples.big_api Samples.small_item]
          = [RepoScript.entry_of Samples.big_api Samples.big_item]) as Heq.
  { apply H.
    - left. reflexivity.
    - vm_compute. reflexivity.
    - vm_compute. reflexivity.
    - rewrite Hb. left. reflexivity.
    - left. reflexivity. }
  apply (f_equal (@List.length _)) in Heq. simpl in Heq. discriminate.
Qed.

(** C2, amended.  In the pull-request script a batch stays within
    [MAX_DIFF_LENGTH] unless it is a single file whose patch alone exceeds
    it, and such a file is a batch of its own.  In the repository analysis
    every text in a batch is at most [truncated_max] characters long, and
    every batch, measured by the texts it holds, stays within
    [MAX_BATCH_SIZE]. *)
Theorem C2_batch_size_bound
    (files : list PrScript.pr_file)
    (api : RepoScript.contents_api) (codeFiles : list RepoScript.tree_item) :
  (forall b, In b (PrScript.make_batches files) -> PrScript.within_limit b)
  /\ (forall f, In f files -> PrScript.has_patch f = true ->
        PrScript.MAX_DIFF_LENGTH < PrScript.patch_length f ->
        In [f] (PrScript.make_batches files))
  /\ (forall b, In b (RepoScript.make_batches api codeFiles) ->
        RepoScript.batch_size b <= RepoScript.MAX_BATCH_SIZE
        /\ forall e, In e b ->
             js_length (RepoScript.entry_content e)
             <= RepoScript.truncated_max).
Proof.
  pose proof (PrScriptFacts.make_batches_within files) as Hwithin.
  rewrite Forall_forall in Hwithin.
  split; [exact Hwithin | split].
  - intros f Hin Hpatch Hbig.
    assert (In f (List.concat (PrScript.make_batches files))) as Hplaced.
    { rewrite PrScriptFacts.make_batches_concat. apply filter_In. now split. }
    apply in_concat in Hplaced. destruct Hplaced as [b [Hb Hfb]].
    destruct (Hwithin b Hb) as [Hfits | [g [-> Hg]]].
    + pose proof (PrScriptFacts.batch_size_member b f Hfb). lia.
    + destruct Hfb as [-> | []]. exact Hb.
  - intros b Hb.
    pose proof (RepoScriptFacts.make_batches_small api codeFiles) as Hsmall.
    rewrite Forall_forall in Hsmall.
    pose proof (RepoScriptFacts.small_size b (Hsmall b Hb)) as Hsize.
    split.
    + unfold RepoScript.MAX_FILES_PER_BATCH, RepoScript.truncated_max,
        RepoScript.MAX_BATCH_SIZE in *. lia.
    + destruct (Hsmall b Hb) as [_ Hall]. rewrite Forall_forall in Hall.
      exact Hall.
Qed.

Lemma C2_batch_size_bound_witness :
  PrScript.within_limit [Samples.source_file]
  /\ In [Samples.source_file]
       (PrScript.make_batches [Samples.image_file; Samples.source_file])
  /\ RepoScript.batch_size
       [RepoScript.entry_of Samples.big_api Samples.small_item]
     <= RepoScript.MAX_BATCH_SIZE.
Proof.
  destruct (C2_batch_size_bound [Samples.image_file; Samples.source_file]
              Samples.big_api [Samples.small_item]) as [Ha [_ Hb]].
  split; [| split].
  - apply Ha. left. reflexivity.
  - left. reflexivity.
  - apply (proj1 (Hb _ (or_introl eq_refl))).
Defined.

(** C7, as stated, fails in the pull-request script, which has no limit on
    the number of files: 26 files with short patches make one batch, more
    than either file limit of the repository. *)
Lemma C7_pr_script_has_no_file_limit :
  exists b, In b (PrScript.make_batches (repeat Samples.source_file 26))
    /\ RepoScript.MAX_FILES_PER_BATCH < arr_length b
    /\ PrApp.maxFilesPerBatch < arr_length b.
Proof.
  exists (repeat Samples.source_file 26).
  split; [vm_compute; left; reflexivity | split; reflexivity].
Qed.

(** C7, amended.  In the repository analysis no batch holds more than
    [MAX_FILES_PER_BATCH] files. *)
Theorem C7_file_count_bound
    (api : RepoScript.contents_api) (codeFiles : list RepoScript.tree_item)
    (b : list RepoScript.batch_entry) :
  In b (RepoScript.make_batches api codeFiles) ->
  arr_length b <= RepoScript.MAX_FILES_PER_BATCH.
Proof.
  intros Hb.
  pose proof (RepoScriptFacts.make_batches_small api codeFiles) as Hsmall.
  rewrite Forall_forall in Hsmall.
  exact (proj1 (Hsmall b Hb)).
Qed.

Lemma C7_file_count_bound_witness :
  arr_length [RepoScript.entry_of Samples.big_api Samples.small_item]
  <= RepoScript.MAX_FILES_PER_BATCH.
Proof.
  apply (C7_file_count_bound Samples.big_api [Samples.small_item]).
  left. reflexivity.
Defined.

(* ================================================================= *)
(** * The verdict aggregator *)

Module RepoAnalysisFacts.
Import RepoScript.

Lemma analyze_from_rationales cls n bs : forall i a,
  allRationales (analyze_from cls n i bs a)
  = allRationales a ++ lines_from cls i bs.
Proof.
  induction bs as [| b bs IH]; intros i a; simpl.
  - now rewrite app_nil_r.
  - rewrite IH. unfold analyze_batch, rationale_line.
    destruct (cls i b); simpl; now rewrite <- app_assoc.
Qed.

Lemma analyze_from_prob cls n bs : forall i a,
  (overallAiProb (analyze_from cls n i bs a)
   == overallAiProb a + contributions_from cls n i bs)%Q.
Proof.
  induction bs as [| b bs IH]; intros i a; simpl.
  - ring.
  - rewrite IH. unfold analyze_batch, contribution, weight.
    destruct (cls i b); simpl; ring.
Qed.

Lemma lines_from_length cls bs : forall i,
  List.length (lines_from cls i bs) = List.length bs.
Proof.
  induction bs as [| b bs IH]; intros i; simpl; [reflexivity | now rewrite IH].
Qed.

Lemma lines_from_nth cls bs : forall i k b,
  nth_error bs k = Some b ->
  nth_error (lines_from cls i bs) k = Some (rationale_line cls (i + k) b).
Proof.
  induction bs as [| b0 bs IH]; intros i k b Hk.
  - destruct k; discriminate.
  - destruct k as [| k]; simpl in *.
    + injection Hk as ->. now rewrite Nat.add_0_r.
    + rewrite (IH (S i) k b Hk). now rewrite Nat.add_succ_r.
Qed.

Lemma total_files_counted api files : forall st,
  totalFiles (fold_left (loop_body api) files st)
  = totalFiles st + arr_length (filter (readable api) files).
Proof.
  unfold arr_length.
  induction files as [| f files IH]; intros st; cbn [fold_left filter].
  - simpl. lia.
  - rewrite IH. unfold loop_body, readable.
    destruct (api f) as [msg | enc content]; simpl; [lia |].
    destruct (String.eqb enc "base64"); simpl List.length; simpl totalFiles; lia.
Qed.

Lemma ratio_plus a b n : (ratio (a + b) n == ratio a n + ratio b n)%Q.
Proof. unfold ratio, Qdiv. rewrite inject_Z_plus. ring. Qed.

Lemma ratio_same n : n <> 0 -> (ratio n n == 1)%Q.
Proof.
  intros Hn. unfold ratio, Qdiv. apply Qmult_inv_r.
  intros H. apply Hn. unfold Qeq in H. simpl in H. lia.
Qed.

Lemma weights_sum n bs :
  (sum_Q (map (weight n) bs) == ratio (arr_length (List.concat bs)) n)%Q.
Proof.
  unfold sum_Q.
  induction bs as [| b bs IH]; cbn [map fold_right List.concat].
  - unfold ratio, Qdiv. change (inject_Z (arr_length [])) with 0%Q. ring.
  - rewrite IH. unfold weight, arr_length. rewrite length_app, Nat2Z.inj_add.
    now rewrite ratio_plus.
Qed.

(** In the repository analysis the factors of the batches add up to 1 as
    soon as one file could be read: [totalFiles] counts the files that were
    put into batches. *)
Lemma weights_sum_to_one api codeFiles :
  filter (readable api) codeFiles <> [] ->
  (sum_Q (map (weight (totalFiles (run_loop api codeFiles)))
            (make_batches api codeFiles)) == 1)%Q.
Proof.
  intros Hsome. rewrite weights_sum.
  rewrite RepoScriptFacts.repo_make_batches_concat.
  unfold run_loop. rewrite total_files_counted. simpl.
  unfold arr_length. rewrite length_map.
  apply ratio_same.
  destruct (filter (readable api) codeFiles); [contradiction | simpl; lia].
Qed.

End RepoAnalysisFacts.

(** C3: the pull-request script at a listing of one source file and one
    image.  The only batch holds the one file that has a patch, and its
    factor is 1/2, its share of the whole listing: the factors do not add
    up to 1, and a classifier that is certain leaves an overall
    probability of one half. *)
Theorem C3_pr_script_divides_by_whole_listing :
  filter PrScript.has_patch [Samples.source_file; Samples.image_file]
    = [Samples.source_file]
  /\ PrScript.make_batches [Samples.source_file; Samples.image_file]
    = [[Samples.source_file]]
  /\ (sum_Q (PrScript.weights [Samples.source_file; Samples.image_file])
      == 1 # 2)%Q
  /\ ~ (sum_Q (PrScript.weights [Samples.source_file; Samples.image_file])
        == 1)%Q
  /\ exists a,
      PrScript.analyze Samples.certain
        [Samples.source_file; Samples.image_file] = PrScript.Next a
      /\ PrScript.overallAiProb a = 0.5%float.
Proof.
  split; [reflexivity | split; [reflexivity | split; [| split]]].
  - vm_compute. reflexivity.
  - vm_compute. discriminate.
  - eexists. split; [vm_compute; reflexivity |].
    vm_compute. reflexivity.
Qed.

(** C5, as stated, fails in the pull-request script, whose analysis loop
    has no handler: with two batches and a classifier whose first request
    fails, the exception ends the run; the second batch is never sent, no
    rule is evaluated and no review is posted. *)
Lemma C5_pr_script_stops_at_classifier_error :
  List.length (PrScript.make_batches [Samples.long_file; Samples.long_file])
    = 2%nat
  /\ PrScript.run_script [Samples.long_file; Samples.long_file]
       Samples.first_request_fails [] None
     = PrScript.mk_run [PrScript.Classify 0] PrScript.Uncaught.
Proof.
  split; vm_compute; reflexivity.
Qed.

(** C5, amended.  In the repository analysis every batch leaves one line
    in the rationale trail, so the loop goes through all batches whatever
    the classifier does; the overall probability is the sum of the
    batches' contributions; and a batch whose request fails leaves the
    error line with its number and adds nothing to the probability. *)
Theorem C5_classifier_errors_are_recorded
    (api : RepoScript.contents_api) (cls : RepoScript.classifier)
    (codeFiles : list RepoScript.tree_item)
    (i : nat) (b : list RepoScript.batch_entry) (msg : string) :
  nth_error (RepoScript.make_batches api codeFiles) i = Some b ->
  cls i b = RepoScript.Error msg ->
  let a := RepoScript.analyzeCodeBatches api cls codeFiles in
  let n := RepoScript.totalFiles (RepoScript.run_loop api codeFiles) in
  List.length (RepoScript.allRationales a)
    = List.length (RepoScript.make_batches api codeFiles)
  /\ nth_error (RepoScript.allRationales a) i
     = Some ("Batch " ++ show_nat (i + 1) ++ ": Error during analysis - "
             ++ msg)%string
  /\ (RepoScript.contribution cls n i b == 0)%Q
  /\ (RepoScript.overallAiProb a
      == RepoScript.contributions_from cls n 0
           (RepoScript.make_batches api codeFiles))%Q.
Proof.
  intros Hb Hcls a n. subst a n.
  unfold RepoScript.analyzeCodeBatches.
  fold (RepoScript.make_batches api codeFiles).
  rewrite RepoAnalysisFacts.analyze_from_rationales. simpl.
  split; [apply RepoAnalysisFacts.lines_from_length | split; [| split]].
  - rewrite (RepoAnalysisFacts.lines_from_nth cls _ 0 i b Hb). simpl.
    unfold RepoScript.rationale_line. now rewrite Hcls.
  - unfold RepoScript.contribution. rewrite Hcls. reflexivity.
  - rewrite RepoAnalysisFacts.analyze_from_prob. simpl. ring.
Qed.

Lemma C5_classifier_errors_are_recorded_witness :
  nth_error
    (RepoScript.allRationales
       (RepoScript.analyzeCodeBatches Samples.big_api Samples.times_out
          [Samples.small_item])) 0
  = Some "Batch 1: Error during analysis - timeout"%string.
Proof.
  refine (proj1 (proj2 (C5_classifier_errors_are_recorded
            Samples.big_api Samples.times_out [Samples.small_item] 0
            [RepoScript.entry_of Samples.big_api Samples.small_item]
            "timeout" _ _))); reflexivity.
Defined.

(* ================================================================= *)
(** * The quality rollup *)

Module RollupFacts.
Import RepoBatching.

(** After the first batch, and on the four qualities it names, the
    comparison chain keeps the lower quality. *)
Lemma repo_step i k1 k2 :
  RepoScript.update_quality (S i) (quality_name k1) (quality_name k2)
  = quality_name (lower k1 k2).
Proof. destruct k1, k2; reflexivity. Qed.

Lemma repo_rollup_from i ks : forall k,
  RepoScript.rollup_from (S i) (map quality_name ks) (quality_name k)
  = quality_name (fold_left lower ks k).
Proof.
  revert i. induction ks as [| k' ks IH]; intros i k; [reflexivity |].
  cbn [map RepoScript.rollup_from fold_left].
  rewrite repo_step. apply IH.
Qed.

Lemma repo_rollup_named k ks :
  RepoScript.rollup (map quality_name (k :: ks))
  = quality_name (fold_left lower ks k).
Proof.
  unfold RepoScript.rollup. cbn [map RepoScript.rollup_from].
  replace (RepoScript.update_quality 0 "Unknown" (quality_name k))
    with (quality_name k) by now destruct k.
  apply repo_rollup_from.
Qed.

(** The quality that [lower] leaves is one of those folded, and none of
    them ranks below it. *)
Lemma lowest ks : forall k,
  In (fold_left lower ks k) (k :: ks)
  /\ forall k', In k' (k :: ks) ->
       quality_rank (fold_left lower ks k) <= quality_rank k'.
Proof.
  induction ks as [| k1 ks IH]; intros k.
  - simpl. split; [now left |]. intros k' [<- | []]. lia.
  - cbn [fold_left]. destruct (IH (lower k k1)) as [Hin Hlow]. split.
    + destruct Hin as [Hhead | Htail]; [| now right; right].
      rewrite <- Hhead. unfold lower.
      destruct (_ <? _); [right; now left | now left].
    + assert (quality_rank (lower k k1) <= quality_rank k
              /\ quality_rank (lower k k1) <= quality_rank k1) as [Hk Hk1].
      { unfold lower.
        destruct (Z.ltb_spec (quality_rank k1) (quality_rank k)); lia. }
      pose proof (Hlow (lower k k1) (or_introl eq_refl)) as Hfirst.
      intros k' [<- | [<- | Hrest]]; [lia | lia |].
      apply Hlow. now right.
Qed.

(** The identifier [overallCodeQuality] does not resolve in the body of
    [updateOverallCodeQuality]: every call throws. *)
Lemma app_update_throws (overall : string) (i : nat) (q : string) :
  PrApp.updateOverallCodeQuality (PrApp.seen "overallCodeQuality" overall) i q
  = PrApp.ReferenceError "overallCodeQuality is not defined".
Proof. reflexivity. Qed.

End RollupFacts.

(** C4.  In the repository analysis, three batches that report excellent,
    Unknown and good: the second verdict replaces the aggregate, through
    the operand [overallCodeQuality === 'excellent'] that stands alone in
    the chain, and the third one, finding the aggregate equal to the
    initial value of the variable, seeds it again: the aggregate ends as
    good, above the unrecognized quality reported and above its own earlier
    value.  An unrecognized quality, moreover, does not replace a good
    aggregate.  In the GitHub-App pipeline the rollup never takes place:
    the identifier [overallCodeQuality] does not resolve in
    [updateOverallCodeQuality], every call throws, and the aggregate keeps
    its initial value Unknown whatever the verdicts report. *)
Theorem C4_rollup_rises_after_unknown :
  (RepoScript.rollup ["excellent"; "Unknown"] = "Unknown"
   /\ RepoScript.rollup ["excellent"; "Unknown"; "good"] = "good")%string
  /\ List.map (@List.length _)
       (RepoScript.make_batches Samples.big_api (repeat Samples.small_item 51))
     = [25; 25; 1]%nat
  /\ RepoScript.overallCodeQuality
       (RepoScript.analyzeCodeBatches Samples.big_api
          (Samples.reports ["excellent"; "Unknown"; "good"]%string)
          (repeat Samples.small_item 51))
     = "good"%string
  /\ RepoScript.rollup ["good"; "mediocre"]%string = "good"%string
  /\ PrApp.in_scope "overallCodeQuality" = false
  /\ (forall (overall : string) (i : nat) (q : string),
        PrApp.updateOverallCodeQuality
          (PrApp.seen "overallCodeQuality" overall) i q
        = PrApp.ReferenceError "overallCodeQuality is not defined")
  /\ PrApp.overallCodeQuality
       (PrApp.analyze_from PrScript.pr_file
          (Samples.app_reports ["good"; "poor"]%string) 2 0
          [[Samples.source_file]; [Samples.long_file]] PrApp.analysis_init)
     = "Unknown"%string.
Proof.
  repeat split; try (vm_compute; reflexivity).
Qed.

(* ================================================================= *)
(** * The rule evaluator and the end of the run *)

Module RuleFacts.
Import PrScript PrBatching.

Lemma in_grammar_parses e : in_grammar e = true -> parses e = true.
Proof.
  induction e; simpl; intros H; try reflexivity; try discriminate;
    try (apply andb_prop in H; destruct H as [Ha Hb];
         now rewrite IHe1, IHe2);
    now apply IHe.
Qed.

Lemma exec_in_grammar e c : forall st,
  in_grammar e = true -> exec e c st = Normal (value_of e c) st.
Proof.
  induction e; intros st H; simpl in *; try reflexivity; try discriminate.
  - apply andb_prop in H. destruct H as [Ha Hb].
    rewrite (IHe1 st Ha). cbn [and_then]. now rewrite (IHe2 st Hb).
  - apply andb_prop in H. destruct H as [Ha Hb].
    rewrite (IHe1 st Ha). cbn [and_then].
    destruct (truthy _); [now apply IHe2 | reflexivity].
  - apply andb_prop in H. destruct H as [Ha Hb].
    rewrite (IHe1 st Ha). cbn [and_then].
    destruct (truthy _); [reflexivity | now apply IHe2].
  - now rewrite (IHe st H).
Qed.

(** A condition of the grammar is evaluated to its value on [ctx], and
    nothing that is in scope changes. *)
Lemma eval_in_grammar e c st :
  in_grammar e = true -> eval e c st = Normal (value_of e c) st.
Proof.
  intros H. unfold eval. rewrite (in_grammar_parses e H).
  now apply exec_in_grammar.
Qed.

Lemma messages_one (keep : rule * bool -> bool) (rt : rule * bool) :
  map (fun rt => trim (message (fst rt))) (filter keep [rt])
  = if keep rt then [trim (message (fst rt))] else [].
Proof. simpl. now destruct (keep rt). Qed.

(** One rule of the grammar: its message goes to one of the lists when its
    condition holds of [ctx], and everything else stays. *)
Lemma apply_rule_in_grammar st r :
  halted st = None -> in_grammar (when r) = true ->
  vars (apply_rule st r) = vars st
  /\ failures (apply_rule st r)
     = failures st ++ error_messages (vars st) [r]
  /\ warnings (apply_rule st r)
     = warnings st ++ warning_messages (vars st) [r]
  /\ evaluated (apply_rule st r) = evaluated st ++ [judged (vars st) r]
  /\ halted (apply_rule st r) = None.
Proof.
  intros Hrun Hg. unfold apply_rule. rewrite Hrun.
  rewrite (eval_in_grammar _ _ _ Hg).
  unfold error_messages, warning_messages, triggered_errors,
    triggered_warnings.
  cbn [map]. rewrite !messages_one. unfold judged. cbn [fst snd].
  destruct (truthy _); [destruct (String.eqb (severity r) "error") |];
    cbn [vars failures warnings evaluated halted andb negb];
    rewrite ?app_nil_r; repeat split; reflexivity.
Qed.

Lemma error_messages_app sc l1 l2 :
  error_messages sc (l1 ++ l2) = error_messages sc l1 ++ error_messages sc l2.
Proof.
  unfold error_messages, triggered_errors.
  now rewrite map_app, filter_app, map_app.
Qed.

Lemma warning_messages_app sc l1 l2 :
  warning_messages sc (l1 ++ l2)
  = warning_messages sc l1 ++ warning_messages sc l2.
Proof.
  unfold warning_messages, triggered_warnings.
  now rewrite map_app, filter_app, map_app.
Qed.

Lemma fold_rules_in_grammar rules : forall st,
  halted st = None ->
  Forall (fun r => in_grammar (when r) = true) rules ->
  let final := fold_left apply_rule rules st in
  vars final = vars st
  /\ failures final = failures st ++ error_messages (vars st) rules
  /\ warnings final = warnings st ++ warning_messages (vars st) rules
  /\ evaluated final = evaluated st ++ map (judged (vars st)) rules
  /\ halted final = None.
Proof.
  induction rules as [| r rules IH]; intros st Hrun Hall; cbn [fold_left].
  - cbv zeta. simpl. now rewrite !app_nil_r.
  - inversion Hall as [| ? ? Hr Hrest]; subst.
    destruct (apply_rule_in_grammar st r Hrun Hr)
      as [Hv [Hf [Hw [He Hh]]]].
    destruct (IH (apply_rule st r) Hh Hrest) as [Hv' [Hf' [Hw' [He' Hh']]]].
    cbv zeta in *. rewrite Hv', Hf', Hw', He', Hh', Hv, Hf, Hw, He.
    change (r :: rules) with ([r] ++ rules).
    rewrite error_messages_app, warning_messages_app, map_app.
    now rewrite <- !app_assoc.
Qed.

(** Rules of the grammar, from the start of the loop. *)
Lemma apply_rules_in_grammar sc rules :
  Forall (fun r => in_grammar (when r) = true) rules ->
  vars (apply_rules sc rules) = sc
  /\ failures (apply_rules sc rules) = error_messages sc rules
  /\ warnings (apply_rules sc rules) = warning_messages sc rules
  /\ evaluated (apply_rules sc rules) = map (judged sc) rules
  /\ halted (apply_rules sc rules) = None.
Proof.
  intros Hall.
  exact (fold_rules_in_grammar rules (start sc) eq_refl Hall).
Qed.

(** Once the loop was left, the rules that remain are not evaluated. *)
Lemma fold_rules_halted rules : forall st,
  halted st <> None -> fold_left apply_rule rules st = st.
Proof.
  induction rules as [| r rules IH]; intros st H; [reflexivity |].
  cbn [fold_left].
  assert (apply_rule st r = st) as ->
    by (unfold apply_rule; destruct (halted st); [reflexivity | congruence]).
  now apply IH.
Qed.

Lemma fold_rules_app l1 l2 st :
  fold_left apply_rule (l1 ++ l2) st
  = fold_left apply_rule l2 (fold_left apply_rule l1 st).
Proof. apply fold_left_app. Qed.

(** Some failure is recorded exactly when a rule of severity [error] has a
    condition that holds. *)
Lemma error_messages_nonempty sc rules :
  nonempty (error_messages sc rules) = true
  <-> exists r, In r rules /\ snd (judged sc r) = true
                /\ severity r = "error"%string.
Proof.
  unfold error_messages, triggered_errors.
  set (keep := fun rt : rule * bool =>
                 snd rt && String.eqb (severity (fst rt)) "error").
  split.
  - intros H.
    destruct (filter keep (map (judged sc) rules)) as [| [r t] rest] eqn:E;
      [discriminate |].
    assert (In (r, t) (filter keep (map (judged sc) rules))) as Hin
      by (rewrite E; now left).
    apply filter_In in Hin. destruct Hin as [Hin Hkeep].
    apply in_map_iff in Hin. destruct Hin as [r' [Heq Hr']].
    unfold keep in Hkeep. cbn [fst snd] in Hkeep.
    apply andb_prop in Hkeep. destruct Hkeep as [Ht Hsev].
    assert (r' = r) as -> by (unfold judged in Heq; congruence).
    exists r. split; [exact Hr' | split].
    + rewrite Heq. exact Ht.
    + now apply String.eqb_eq.
  - intros [r [Hin [Ht Hsev]]].
    assert (In (judged sc r) (filter keep (map (judged sc) rules))) as Hf.
    { apply filter_In. split; [now apply in_map |].
      unfold keep. rewrite Ht. cbn [andb]. unfold judged. cbn [fst].
      now apply String.eqb_eq. }
    destruct (filter keep (map (judged sc) rules)); [destruct Hf | reflexivity].
Qed.

(** The events of a trace by their kind. *)
Lemma in_evaluate_events r (evs : list (rule * bool)) pre post :
  (forall e, In e pre -> exists i, e = Classify i) ->
  (forall e, In e post -> (exists p, e = PostReview p) \/ exists u, e = Webhook u) ->
  In (Evaluate r true)
     ((pre ++ map (fun rt => Evaluate (fst rt) (snd rt)) evs) ++ post)
  <-> In (r, true) evs.
Proof.
  intros Hpre Hpost. rewrite !in_app_iff, in_map_iff. split.
  - intros [[H | [[r' t] [Heq Hin]]] | H].
    + destruct (Hpre _ H) as [i Hi]. discriminate.
    + simpl in Heq. now injection Heq as -> ->.
    + destruct (Hpost _ H) as [[p Hp] | [u Hu]]; discriminate.
  - intros H. left. right. exists (r, true). now split.
Qed.

Lemma classify_events (l : list nat) e :
  In e (map Classify l) -> exists i, e = Classify i.
Proof.
  intros He. apply in_map_iff in He. destruct He as [i [<- _]]. now exists i.
Qed.



(** The run of the script after an analysis that came to its end, by the
    way the rule loop was left. *)
Lemma run_script_after files cls rules webhook a :
  analyze cls files = Next a ->
  let ev := rule_loop files a rules in
  let evaluations :=
    map Classify (asked a)
    ++ map (fun rt => Evaluate (fst rt) (snd rt)) (evaluated ev) in
  run_script files cls rules webhook
  = match halted ev with
    | Some e => mk_run evaluations e
    | None =>
        let before :=
          evaluations ++ [PostReview (negb (nonempty (failures ev)))] in
        if notifies (overallAiProb a) then
          match webhook with
          | None => mk_run before Uncaught
          | Some url => mk_run (before ++ [Webhook url]) (exit_code ev)
          end
        else mk_run before (exit_code ev)
    end.
Proof. intros Ha. unfold run_script, rule_loop. now rewrite Ha. Qed.


(** The run of the script after an analysis that came to its end, for
    rules of the grammar. *)
Lemma run_in_grammar files cls rules webhook a :
  analyze cls files = Next a ->
  Forall (fun r => in_grammar (when r) = true) rules ->
  let sc := scope_of (run_loop files) (overallAiProb a) in
  let code := if nonempty (error_messages sc rules) then Exit 1 else Exit 0 in
  let before :=
    (map Classify (asked a)
     ++ map (fun rt => Evaluate (fst rt) (snd rt)) (map (judged sc) rules))
    ++ [PostReview (negb (nonempty (error_messages sc rules)))] in
  run_script files cls rules webhook
  = if notifies (overallAiProb a) then
      match webhook with
      | None => mk_run before Uncaught
      | Some url => mk_run (before ++ [Webhook url]) code
      end
    else mk_run before code.
Proof.
  intros Ha Hall. rewrite (run_script_after files cls rules webhook a Ha).
  cbv zeta. unfold rule_loop, exit_code.
  destruct (apply_rules_in_grammar
              (scope_of (run_loop files) (overallAiProb a)) rules Hall)
    as [_ [Hf [_ [He Hh]]]].
  now rewrite Hh, He, Hf.
Qed.

Lemma run_in_grammar_events files cls rules webhook a r :
  analyze cls files = Next a ->
  Forall (fun r => in_grammar (when r) = true) rules ->
  In (Evaluate r true) (trace (run_script files cls rules webhook))
  <-> In (r, true)
        (map (judged (scope_of (run_loop files) (overallAiProb a))) rules).
Proof.
  intros Ha Hall. rewrite (run_in_grammar files cls rules webhook a Ha Hall).
  cbv zeta.
  destruct (notifies (overallAiProb a)); [destruct webhook as [url |] |];
    cbn [trace]; rewrite <- ?app_assoc;
    rewrite (app_assoc (map Classify (asked a)));
    (apply in_evaluate_events; [apply classify_events |]).
  - intros e [<- | [<- | []]]; [left | right]; eexists; reflexivity.
  - intros e [<- | []]. left. eexists. reflexivity.
  - intros e [<- | []]. left. eexists. reflexivity.
Qed.

Lemma run_in_grammar_finish files cls rules webhook a code :
  analyze cls files = Next a ->
  Forall (fun r => in_grammar (when r) = true) rules ->
  finish (run_script files cls rules webhook) = Exit code ->
  code = if nonempty
              (error_messages (scope_of (run_loop files) (overallAiProb a))
                 rules)
         then 1 else 0.
Proof.
  intros Ha Hall. rewrite (run_in_grammar files cls rules webhook a Ha Hall).
  cbv zeta.
  destruct (notifies (overallAiProb a)); [destruct webhook as [url |] |];
    cbn [finish]; try discriminate;
    destruct (nonempty _); congruence.
Qed.

End RuleFacts.

Section ScoreFacts.






End ScoreFacts.

(** C6, as stated, fails: the evaluator runs a condition that is not in
    the grammar.  The rule Reset assigns to the script's probability; the
    assignment is carried out, and the rule High AI Confidence, which is
    triggered when it is evaluated alone, is no longer triggered after
    it. *)
Lemma C6_eval_runs_assignment :
  PrScript.in_grammar (PrScript.when Samples.reset_probability) = false
  /\ PrScript.eval (PrScript.when Samples.reset_probability)
       (PrScript.make_ctx Samples.suspicious)
       (PrScript.start Samples.suspicious)
     = PrScript.Normal (PrScript.VNum 0)
         (PrScript.start
            (PrScript.assign PrScript.x_overallAiProb (PrScript.VNum 0)
               Samples.suspicious))
  /\ PrScript.failures
       (PrScript.apply_rules Samples.suspicious [Samples.high_confidence])
     = ["High AI confidence"%string]
  /\ PrScript.failures
       (PrScript.apply_rules Samples.suspicious
          [Samples.reset_probability; Samples.high_confidence])
     = [].
Proof.
  repeat split; vm_compute; reflexivity.
Qed.

(** C6, amended.  A condition built from comparison and logical operators
    over constants and the four fields of [ctx] is evaluated to its value
    on [ctx] and leaves the script's variables, and the lists of messages,
    as they were.  (Nothing else is promised: the text is handed to [eval]
    as it is.) *)
Theorem C6_grammar_conditions_are_pure
    (e : PrScript.expr) (c : PrScript.context) (st : PrScript.evaluation) :
  PrScript.in_grammar e = true ->
  PrScript.eval e c st = PrScript.Normal (PrScript.value_of e c) st.
Proof.
  apply RuleFacts.eval_in_grammar.
Qed.

Lemma C6_grammar_conditions_are_pure_witness :
  PrScript.eval (PrScript.when Samples.high_confidence)
    (PrScript.make_ctx Samples.suspicious) (PrScript.start Samples.suspicious)
  = PrScript.Normal
      (PrScript.value_of (PrScript.when Samples.high_confidence)
         (PrScript.make_ctx Samples.suspicious))
      (PrScript.start Samples.suspicious).
Proof.
  apply (C6_grammar_conditions_are_pure
           (PrScript.when Samples.high_confidence)).
  reflexivity.
Defined.

(** C9, as stated, fails: the exit code is taken from the length of
    [failures] at the end of the module, and a condition is run where
    [failures] is in scope.  With the rules High AI Confidence, of severity
    error, and Sweep, whose condition [(failures.length = 0, false)] empties
    the list, the first rule is triggered and the run, which reaches its
    end, exits with code 0; without Sweep it exits with code 1.  With the
    rule Plant alone, whose condition [failures.push('x') && false] is
    false, no rule is triggered and the run exits with code 1. *)
Lemma C9_condition_empties_failures :
  PrScript.run_module [Samples.source_file] Samples.certain
    (Some [Samples.high_confidence; Samples.sweep])
    (Some "https://hooks.example/T"%string)
  = PrScript.mk_run
      [PrScript.Classify 0;
       PrScript.Evaluate Samples.high_confidence true;
       PrScript.Evaluate Samples.sweep false;
       PrScript.PostReview true;
       PrScript.Webhook "https://hooks.example/T"]
      (PrScript.Exit 0)
  /\ PrScript.error_rule_triggered
       (PrScript.run_module [Samples.source_file] Samples.certain
          (Some [Samples.high_confidence; Samples.sweep])
          (Some "https://hooks.example/T"%string))
  /\ PrScript.run_module [Samples.source_file] Samples.certain
       (Some [Samples.high_confidence])
       (Some "https://hooks.example/T"%string)
     = PrScript.mk_run
         [PrScript.Classify 0;
          PrScript.Evaluate Samples.high_confidence true;
          PrScript.PostReview false;
          PrScript.Webhook "https://hooks.example/T"]
         (PrScript.Exit 1)
  /\ PrScript.run_module [Samples.source_file] Samples.certain
       (Some [Samples.plant]) (Some "https://hooks.example/T"%string)
     = PrScript.mk_run
         [PrScript.Classify 0;
          PrScript.Evaluate Samples.plant false;
          PrScript.PostReview false;
          PrScript.Webhook "https://hooks.example/T"]
         (PrScript.Exit 1)
  /\ ~ PrScript.error_rule_triggered
         (PrScript.run_module [Samples.source_file] Samples.certain
            (Some [Samples.plant]) (Some "https://hooks.example/T"%string)).
Proof.
  split; [vm_compute; reflexivity |].
  split; [| split; [vm_compute; reflexivity |
                    split; [vm_compute; reflexivity |]]].
  - exists Samples.high_confidence. split; [| reflexivity].
    vm_compute. right. left. reflexivity.
  - intros [rl [Hin _]]. vm_compute in Hin.
    destruct Hin as [H | [H | [H | [H | []]]]]; discriminate.
Qed.

(** C9, amended.  A run of the pull-request script whose rules have
    conditions within the grammar, and that reaches its end: the rules
    triggered are those whose condition holds of [ctx]; the exit code is 1
    when one of them has severity [error], and 0 when none has, whatever
    warnings were raised. *)
Theorem C9_exit_code
    (files : list PrScript.pr_file) (cls : PrScript.classifier)
    (rules : list PrScript.rule) (webhook : option string) (code : Z) :
  Forall (fun r => PrScript.in_grammar (PrScript.when r) = true) rules ->
  PrScript.finish (PrScript.run_module files cls (Some rules) webhook)
    = PrScript.Exit code ->
  exists a,
    PrScript.analyze cls files = PrScript.Next a
    /\ let sc := PrScript.scope_of (PrScript.run_loop files)
                   (PrScript.overallAiProb a) in
       let holds r :=
         PrScript.truthy
           (PrScript.value_of (PrScript.when r) (PrScript.make_ctx sc)) in
       (forall r,
           In (PrScript.Evaluate r true)
              (PrScript.trace
                 (PrScript.run_module files cls (Some rules) webhook))
           <-> In r rules /\ holds r = true)
       /\ ((exists r, In r rules /\ holds r = true
                      /\ PrScript.severity r = "error"%string) ->
           code = 1 /\ code <> 0)
       /\ ((forall r, In r rules -> holds r = true ->
                      PrScript.severity r <> "error"%string) ->
           code = 0).
Proof.
  intros Hall Hend. unfold PrScript.run_module in *.
  destruct (PrScript.analyze cls files) as [a | a] eqn:Ha.
  2:{ unfold PrScript.run_script in Hend. rewrite Ha in Hend. discriminate. }
  exists a. split; [reflexivity |]. cbv zeta.
  set (sc := PrScript.scope_of (PrScript.run_loop files)
               (PrScript.overallAiProb a)).
  pose proof (RuleFacts.run_in_grammar_finish files cls rules webhook a code
                Ha Hall Hend) as Hcode.
  fold sc in Hcode.
  pose proof (RuleFacts.error_messages_nonempty sc rules) as Hne.
  split; [| split].
  - intros r.
    rewrite (RuleFacts.run_in_grammar_events files cls rules webhook a r Ha Hall).
    fold sc. rewrite in_map_iff. unfold PrBatching.judged. split.
    + intros [r' [Heq Hin]]. injection Heq as -> Ht. now split.
    + intros [Hin Ht]. exists r. split; [now rewrite Ht | exact Hin].
  - intros Hsome.
    assert (nonempty (PrBatching.error_messages sc rules) = true) as Htrue
      by (apply Hne; exact Hsome).
    rewrite Htrue in Hcode. subst code. split; [reflexivity | discriminate].
  - intros Hnone.
    destruct (nonempty (PrBatching.error_messages sc rules)) eqn:E;
      [| exact Hcode].
    exfalso. destruct (proj1 Hne eq_refl) as [r [Hin [Ht Hsev]]].
    exact (Hnone r Hin Ht Hsev).
Qed.

Lemma C9_exit_code_witness :
  exists a,
    PrScript.analyze Samples.certain [Samples.source_file] = PrScript.Next a
    /\ let sc := PrScript.scope_of (PrScript.run_loop [Samples.source_file])
                   (PrScript.overallAiProb a) in
       let holds r :=
         PrScript.truthy
           (PrScript.value_of (PrScript.when r) (PrScript.make_ctx sc)) in
       (forall r,
           In (PrScript.Evaluate r true)
              (PrScript.trace
                 (PrScript.run_module [Samples.source_file] Samples.certain
                    (Some [Samples.high_confidence; Samples.missing_tests])
                    (Some "https://hooks.example/T"%string)))
           <-> In r [Samples.high_confidence; Samples.missing_tests]
               /\ holds r = true)
       /\ ((exists r, In r [Samples.high_confidence; Samples.missing_tests]
                      /\ holds r = true
                      /\ PrScript.severity r = "error"%string) ->
           1 = 1 /\ 1 <> 0)
       /\ ((forall r, In r [Samples.high_confidence; Samples.missing_tests] ->
                      holds r = true ->
                      PrScript.severity r <> "error"%string) ->
           1 = 0).
Proof.
  apply (C9_exit_code [Samples.source_file] Samples.certain
           [Samples.high_confidence; Samples.missing_tests]
           (Some "https://hooks.example/T"%string) 1).
  - repeat constructor.
  - vm_compute. reflexivity.
Defined.



(* ================================================================= *)
(** * Nothing to analyze *)

(** C8, as stated, fails in the pull-request script, which has no such
    exit: when the only file listed has no patch, no batch is made and the
    classifier is not called, but the rules are evaluated all the same, a
    review is posted, and the rule Missing Tests fails the run. *)
Lemma C8_pr_script_evaluates_rules_without_files :
  filter PrScript.has_patch [Samples.image_file] = []
  /\ PrScript.make_batches [Samples.image_file] = []
  /\ PrScript.run_script [Samples.image_file] Samples.certain
       [Samples.missing_tests] None
     = PrScript.mk_run
         [PrScript.Evaluate Samples.missing_tests true;
          PrScript.PostReview false]
         (PrScript.Exit 1).
Proof.
  repeat split; vm_compute; reflexivity.
Qed.

(** C8, amended.  In the GitHub-App pipeline, [analyzePullRequest], a
    listing of which the file filter leaves nothing ends the run with the
    status skipped, without a call to the classifier, the rule evaluator or
    any other collaborator; and no other run ends with that status. *)
Theorem C8_no_code_files_is_skipped
    (file stats policy : Type)
    (filterCodeFiles : list file -> list file)
    (organizeFilesIntoBatches : list file -> list (list file) * stats)
    (analyzeFileBatch : list file -> nat -> PrApp.reply)
    (evaluateAgainstPolicyRules : PrApp.analysis -> stats -> policy)
    (files : list file) (post notify : option string) :
  filterCodeFiles files = [] ->
  let run :=
    PrApp.analyzePullRequest filterCodeFiles organizeFilesIntoBatches
      analyzeFileBatch evaluateAgainstPolicyRules in
  PrApp.analysis_status (run (inr files) post notify) = "skipped"%string
  /\ PrApp.trace (run (inr files) post notify) = []
  /\ PrApp.result (run (inr files) post notify) = None
  /\ forall listing post' notify',
      PrApp.analysis_status (run listing post' notify') = "skipped"%string ->
      exists files', listing = inr files' /\ filterCodeFiles files' = [].
Proof.
  intros Hnone run. subst run. unfold PrApp.analyzePullRequest.
  rewrite Hnone. simpl.
  repeat split.
  intros listing post' notify' H.
  destruct listing as [msg | files']; [discriminate |].
  exists files'. split; [reflexivity |].
  destruct (filterCodeFiles files') as [| f rest]; [reflexivity |].
  exfalso. revert H.
  change (arr_length (f :: rest) =? 0) with false. cbv iota.
  destruct (organizeFilesIntoBatches (f :: rest)) as [batches st].
  destruct post', notify'; discriminate.
Qed.

Lemma C8_no_code_files_is_skipped_witness :
  PrApp.analysis_status
    (PrApp.analyzePullRequest
       (filter PrScript.has_patch) (fun files => ([files], tt))
       (fun _ _ => PrApp.Error "timeout") (fun _ _ => tt)
       (inr [Samples.image_file]) None None)
  = "skipped"%string.
Proof.
  refine (proj1 (C8_no_code_files_is_skipped
                   PrScript.pr_file unit unit
                   (filter PrScript.has_patch) (fun files => ([files], tt))
                   (fun _ _ => PrApp.Error "timeout") (fun _ _ => tt)
                   [Samples.image_file] None None _)).
  reflexivity.
Defined.

(* ================================================================= *)
(** * Further properties of the pull-request script *)

Module ListingFacts.
Import Listing.

Lemma div_100_step n : (100 <= n -> n / 100 = S ((n - 100) / 100))%nat.
Proof.
  intros H. replace n with ((n - 100) + 1 * 100)%nat at 1 by lia.
  rewrite Nat.div_add by discriminate. lia.
Qed.

(** From any page on, the loop appends what is left of the listing, with
    one request per hundred records and one more. *)
Lemma fetch_pages_serve {A : Type} (listing : list A) : forall fuel page acc,
  fetch_pages (serve listing) fuel (S page) acc
  = if (List.length (skipn (page * 100) listing) / 100 <? fuel)%nat
    then Some (acc ++ skipn (page * 100) listing)
    else None.
Proof.
  induction fuel as [| fuel IH]; intros page acc.
  - reflexivity.
  - cbn [fetch_pages].
    assert (serve listing (S page) = firstn 100 (skipn (page * 100) listing))
      as Hpage.
    { unfold serve. now replace (S page - 1)%nat with page by lia. }
    rewrite Hpage.
    set (rest := skipn (page * 100) listing).
    rewrite length_firstn.
    destruct (Nat.ltb_spec (Nat.min 100 (List.length rest)) 100) as [Hshort | Hfull].
    + assert (List.length rest < 100)%nat as Hlen by lia.
      rewrite firstn_all2 by lia.
      rewrite Nat.div_small by exact Hlen. reflexivity.
    + assert (100 <= List.length rest)%nat as Hlen by lia.
      rewrite IH.
      assert (skipn (S page * 100) listing = skipn 100 rest) as Hnext.
      { unfold rest. now rewrite skipn_skipn. }
      rewrite Hnext, length_skipn, (div_100_step _ Hlen).
      rewrite <- app_assoc, firstn_skipn.
      destruct (Nat.ltb_spec ((List.length rest - 100) / 100) fuel);
        destruct (Nat.ltb_spec (S ((List.length rest - 100) / 100)) (S fuel));
        try reflexivity; lia.
Qed.

End ListingFacts.

(** X1.  Against a host that serves a listing in pages of 100,
    [getAllPRFiles] returns the whole listing, in order, after one request
    per full hundred of records and one more; with fewer requests allowed
    it has not finished. *)
Theorem X1_pagination_returns_the_listing
    (A : Type) (listing : list A) (fuel : nat) :
  Listing.getAllPRFiles (Listing.serve listing) fuel
  = if (List.length listing / 100 <? fuel)%nat then Some listing else None.
Proof.
  unfold Listing.getAllPRFiles.
  rewrite (ListingFacts.fetch_pages_serve listing fuel 0 []). reflexivity.
Qed.

Module PrBatchingFacts.
Import PrScript PrBatching.

Lemma stats_step st f :
  linesAdded (loop_body st f)
    = linesAdded st + sum_additions (filter has_patch [f])
  /\ testsChanged (loop_body st f)
    = testsChanged st
      || existsb (fun g => test_or_spec (filename g)) (filter has_patch [f])
  /\ licenseComment (loop_body st f)
    = licenseComment st
      || existsb (fun g => added_license_line (patch_text g))
           (filter has_patch [f]).
Proof.
  unfold loop_body, close_if_full. simpl.
  destruct (has_patch f); simpl.
  - destruct (_ && _); simpl; rewrite ?orb_false_r; repeat split; lia.
  - rewrite !orb_false_r. repeat split; lia.
Qed.

Lemma sum_additions_app l1 l2 :
  sum_additions (l1 ++ l2) = sum_additions l1 + sum_additions l2.
Proof. induction l1 as [| f l1 IH]; simpl; lia. Qed.

Lemma stats_fold files : forall st,
  let final := fold_left loop_body files st in
  linesAdded final = linesAdded st + sum_additions (filter has_patch files)
  /\ testsChanged final
    = testsChanged st
      || existsb (fun g => test_or_spec (filename g)) (filter has_patch files)
  /\ licenseComment final
    = licenseComment st
      || existsb (fun g => added_license_line (patch_text g))
           (filter has_patch files).
Proof.
  induction files as [| f files IH]; intros st; cbn [fold_left filter].
  - simpl. rewrite !orb_false_r. repeat split; lia.
  - destruct (IH (loop_body st f)) as [Hl [Ht Hc]].
    destruct (stats_step st f) as [Hl1 [Ht1 Hc1]].
    cbv zeta. rewrite Hl, Ht, Hc, Hl1, Ht1, Hc1.
    cbn [filter]. destruct (has_patch f); cbn [existsb sum_additions fold_right app];
      rewrite ?orb_false_r, ?orb_assoc; repeat split; try reflexivity;
      unfold sum_additions; cbn [fold_right]; lia.
Qed.

Lemma closed_when_full_snoc bs b f tl :
  closed_when_full (bs ++ [b]) ->
  MAX_DIFF_LENGTH < batch_size b + patch_length f ->
  closed_when_full ((bs ++ [b]) ++ [f :: tl]).
Proof.
  induction bs as [| b0 bs IH]; intros H Hfull.
  - simpl. split; [| exact I]. exists f, tl. now split.
  - destruct bs as [| b1 bs].
    + simpl in *. destruct H as [H1 _]. split; [exact H1 |].
      split; [| exact I]. exists f, tl. now split.
    + cbn [app closed_when_full] in *. destruct H as [H1 H2].
      split; [exact H1 |]. apply IH; assumption.
Qed.

Lemma closed_when_full_grow bs g rest f :
  closed_when_full (bs ++ [g :: rest]) ->
  closed_when_full (bs ++ [(g :: rest) ++ [f]]).
Proof.
  induction bs as [| b0 bs IH]; intros H.
  - exact I.
  - destruct bs as [| b1 bs].
    + simpl in *. destruct H as [[f0 [tl [Heq Hfull]]] _].
      injection Heq as <- <-.
      split; [| exact I]. exists g, (rest ++ [f]). now split.
    + cbn [app closed_when_full] in *. destruct H as [H1 H2].
      split; [exact H1 |]. now apply IH.
Qed.

Lemma greedy_invariant_step st f :
  greedy_invariant st -> greedy_invariant (loop_body st f).
Proof.
  intros [Hsz [Hne Hshape]]. unfold loop_body.
  destruct (has_patch f); simpl; [| now repeat split].
  unfold close_if_full, greedy_invariant, all_batches.
  destruct (Z.gtb_spec (currentBatchSize st + patch_length f) MAX_DIFF_LENGTH)
    as [Hover | Hfits]; simpl.
  - destruct (currentBatch st) as [| g rest] eqn:Ecur; simpl.
    + rewrite Ecur. simpl. split; [simpl in Hsz; lia |].
      split; [exact Hne |]. right. split; [discriminate |].
      destruct Hshape as [[Hb _] | [Hc _]]; [| now contradiction Hc].
      rewrite Hb. exact I.
    + split; [lia |]. split.
      * apply Forall_app. split; [exact Hne |]. constructor; [discriminate | constructor].
      * right. split; [discriminate |].
        destruct Hshape as [[_ Hc] | [_ Hchain]]; [discriminate |].
        unfold all_batches in Hchain. rewrite Ecur in Hchain.
        apply closed_when_full_snoc; [exact Hchain | lia].
  - split; [rewrite PrScriptFacts.batch_size_snoc; lia |].
    split; [exact Hne |]. right.
    split; [now destruct (currentBatch st) |].
    destruct Hshape as [[Hb Hc] | [Hc Hchain]].
    + rewrite Hb, Hc. exact I.
    + unfold all_batches in Hchain.
      destruct (currentBatch st) as [| g rest]; [now contradiction Hc |].
      now apply closed_when_full_grow.
Qed.

Lemma greedy_invariant_loop files : greedy_invariant (run_loop files).
Proof.
  unfold run_loop. apply fold_left_invariant.
  - intros s a. apply greedy_invariant_step.
  - split; [reflexivity | split; [constructor | now left]].
Qed.

End PrBatchingFacts.

(** X2.  The statistics the pull-request script hands to the rules count
    the files that have a patch and no others: the lines added are the sum
    of their additions, tests count as changed when one of their names
    matches, and a license counts as present when one of their patches has
    an added license line; how the files fall into batches plays no
    part. *)
Theorem X2_statistics_of_patched_files (files : list PrScript.pr_file) :
  let patched := filter PrScript.has_patch files in
  PrScript.linesAdded (PrScript.run_loop files)
    = PrBatching.sum_additions patched
  /\ PrScript.testsChanged (PrScript.run_loop files)
    = existsb (fun f => test_or_spec (PrScript.filename f)) patched
  /\ PrScript.licenseComment (PrScript.run_loop files)
    = existsb (fun f => added_license_line (PrScript.patch_text f)) patched.
Proof.
  exact (PrBatchingFacts.stats_fold files PrScript.loop_init).
Qed.

(** X3.  The pull-request script makes no empty batch, and it closes a
    batch only when it must: the first file of every batch after the first
    would have taken the batch before it over [MAX_DIFF_LENGTH]. *)
Theorem X3_batches_closed_only_when_full (files : list PrScript.pr_file) :
  Forall (fun b => b <> []) (PrScript.make_batches files)
  /\ PrBatching.closed_when_full (PrScript.make_batches files).
Proof.
  destruct (PrBatchingFacts.greedy_invariant_loop files)
    as [_ [Hne Hshape]].
  unfold PrScript.make_batches, PrScript.push_last.
  destruct Hshape as [[Hb Hc] | [Hc Hchain]].
  - rewrite Hc, Hb. simpl. split; [constructor | exact I].
  - destruct (PrScript.currentBatch (PrScript.run_loop files)) eqn:E;
      [now contradiction Hc |].
    simpl nonempty. cbv iota. split.
    + apply Forall_app. split; [exact Hne |]. constructor; [discriminate | constructor].
    + unfold PrBatching.all_batches in Hchain. now rewrite E in Hchain.
Qed.

Section WeightFacts.
Context {A : Type}.

Lemma ratio_sum (n : Z) (bs : list (list A)) :
  (sum_Q (map (fun b => ratio (arr_length b) n) bs)
   == ratio (arr_length (List.concat bs)) n)%Q.
Proof.
  unfold sum_Q.
  induction bs as [| b bs IH]; cbn [map fold_right List.concat].
  - unfold ratio, Qdiv. change (inject_Z (arr_length [])) with 0%Q. ring.
  - rewrite IH. unfold arr_length. rewrite length_app, Nat2Z.inj_add.
    now rewrite RepoAnalysisFacts.ratio_plus.
Qed.

Lemma ratio_one (a n : Z) : n <> 0 -> (ratio a n == 1)%Q <-> a = n.
Proof.
  intros Hn.
  assert (~ inject_Z n == 0)%Q as Hq.
  { intros H. apply Hn. unfold Qeq in H. simpl in H. lia. }
  split.
  - intros H. unfold ratio in H.
    assert (inject_Z a == inject_Z n)%Q as Heq.
    { rewrite <- (Qmult_div_r (inject_Z a) (inject_Z n) Hq). rewrite H. ring. }
    unfold Qeq in Heq. simpl in Heq. lia.
  - intros ->. now apply RepoAnalysisFacts.ratio_same.
Qed.

Lemma filter_keeps_all (p : A -> bool) (l : list A) :
  List.length (filter p l) = List.length l <-> forallb p l = true.
Proof.
  induction l as [| x l IH]; simpl; [tauto |].
  pose proof (filter_length_le p l) as Hle.
  destruct (p x); simpl.
  - rewrite <- IH. lia.
  - split; [lia | discriminate].
Qed.

End WeightFacts.

(** X4.  In the pull-request script the factors of the batches add up to
    the share of the listing that has a patch; for a listing that is not
    empty they add up to 1 exactly when every file listed has a patch. *)
Theorem X4_pr_weights_sum (files : list PrScript.pr_file) :
  files <> [] ->
  (sum_Q (PrScript.weights files)
   == ratio (arr_length (filter PrScript.has_patch files))
        (arr_length files))%Q
  /\ ((sum_Q (PrScript.weights files) == 1)%Q
      <-> forallb PrScript.has_patch files = true).
Proof.
  intros Hsome.
  assert (sum_Q (PrScript.weights files)
          == ratio (arr_length (filter PrScript.has_patch files))
               (arr_length files))%Q as Hsum.
  { unfold PrScript.weights. rewrite ratio_sum.
    now rewrite PrScriptFacts.make_batches_concat. }
  split; [exact Hsum |].
  rewrite Hsum, ratio_one.
  - unfold arr_length. rewrite <- filter_keeps_all. lia.
  - unfold arr_length. destruct files; [contradiction | simpl; lia].
Qed.

Lemma X4_pr_weights_sum_witness :
  (sum_Q (PrScript.weights [Samples.source_file; Samples.image_file]) == 1)%Q
  <-> forallb PrScript.has_patch [Samples.source_file; Samples.image_file]
      = true.
Proof.
  refine (proj2 (X4_pr_weights_sum
                   [Samples.source_file; Samples.image_file] _)).
  discriminate.
Defined.

Module PrAnalysisFacts.
Import PrScript PrBatching.

Lemma analyze_from_answered cls n bs : forall i a,
  (forall k b, nth_error bs k = Some b -> cls (i + k)%nat b <> None) ->
  exists a',
    analyze_from cls n i bs a = Next a'
    /\ asked a' = asked a ++ seq i (List.length bs)
    /\ List.length (allRationales a')
       = (List.length (allRationales a) + List.length bs)%nat
    /\ overallAiProb a'
       = fold_left PrimFloat.add (terms cls n i bs) (overallAiProb a)
    /\ List.length (terms cls n i bs) = List.length bs.
Proof.
  induction bs as [| b bs IH]; intros i a Hall.
  - exists a. simpl. rewrite app_nil_r. repeat split. lia.
  - cbn [analyze_from terms]. unfold analyze_batch.
    pose proof (Hall 0%nat b eq_refl) as Hb. rewrite Nat.add_0_r in Hb.
    destruct (cls i b) as [v |] eqn:E; [| contradiction].
    destruct (IH (S i)
                (mk_analysis
                   (overallAiProb a
                    + ai_prob v
                      * (number_of_Z (arr_length b) / number_of_Z n))%float
                   (allRationales a
                      ++ [("Batch " ++ show_nat (i + 1) ++ ": "
                           ++ rationale v)%string])
                   (asked a ++ [i])))
      as [a' [Hrun [Hasked [Hlen [Hprob Hterms]]]]].
    { intros k b' Hk. rewrite Nat.add_succ_l, <- Nat.add_succ_r.
      now apply (Hall (S k)). }
    exists a'. split; [exact Hrun |]. simpl in *.
    rewrite Hasked, Hlen, Hprob, Hterms, length_app, <- app_assoc. simpl.
    repeat split. lia.
Qed.

Lemma analyze_from_fails cls n pre : forall i a b post,
  (forall k b', nth_error pre k = Some b' -> cls (i + k)%nat b' <> None) ->
  cls (i + List.length pre)%nat b = None ->
  exists a',
    analyze_from cls n i (pre ++ b :: post) a = Throw a'
    /\ asked a' = asked a ++ seq i (S (List.length pre)).
Proof.
  induction pre as [| b0 pre IH]; intros i a b post Hall Hfail.
  - simpl in *. rewrite Nat.add_0_r in Hfail. unfold analyze_batch.
    rewrite Hfail. eexists. split; reflexivity.
  - cbn [app analyze_from]. unfold analyze_batch.
    pose proof (Hall 0%nat b0 eq_refl) as Hb. rewrite Nat.add_0_r in Hb.
    destruct (cls i b0) as [v |] eqn:E; [| contradiction].
    edestruct (IH (S i)) as [a' [Hrun Hasked]].
    + intros k b' Hk. rewrite Nat.add_succ_l, <- Nat.add_succ_r.
      now apply (Hall (S k)).
    + simpl in Hfail. rewrite Nat.add_succ_l, <- Nat.add_succ_r. exact Hfail.
    + exists a'. split; [exact Hrun |].
      rewrite Hasked. simpl. now rewrite <- app_assoc.
Qed.

(** A rule whose condition does not come to a value ends the loop: the
    rules after it are not evaluated. *)
Lemma apply_rules_stopped sc pre r post st' e :
  Forall (fun r => in_grammar (when r) = true) pre ->
  (eval (when r) (make_ctx sc) (apply_rules sc pre) = Thrown st'
   /\ e = Uncaught)
  \/ (exists code,
        eval (when r) (make_ctx sc) (apply_rules sc pre) = Exited code st'
        /\ e = Exit code) ->
  apply_rules sc (pre ++ r :: post)
  = mk_evaluation (vars st') (failures st') (warnings st') (evaluated st')
      (Some e).
Proof.
  intros Hpre Hstop. unfold apply_rules.
  rewrite RuleFacts.fold_rules_app. cbn [fold_left].
  fold (apply_rules sc pre).
  destruct (RuleFacts.apply_rules_in_grammar sc pre Hpre)
    as [Hv [_ [_ [_ Hh]]]].
  assert (apply_rule (apply_rules sc pre) r
          = mk_evaluation (vars st') (failures st') (warnings st')
              (evaluated st') (Some e)) as ->.
  { unfold apply_rule. rewrite Hh, Hv.
    destruct Hstop as [[-> ->] | [code [-> ->]]]; reflexivity. }
  apply RuleFacts.fold_rules_halted. discriminate.
Qed.

End PrAnalysisFacts.

(** X5.  When the classifier answers every request, the analysis loop of
    the pull-request script calls it once for every batch, in the order of
    the batches, records one rationale for each, and leaves as overall
    probability the terms of the batches, the verdict's probability times
    the batch's share of the listing, one for every batch, added in the
    order of the batches from 0 on. *)
Theorem X5_pr_analysis_calls_every_batch
    (cls : PrScript.classifier) (files : list PrScript.pr_file) :
  (forall k b, nth_error (PrScript.make_batches files) k = Some b ->
               cls k b <> None) ->
  exists a,
    PrScript.analyze cls files = PrScript.Next a
    /\ PrScript.asked a
       = seq 0 (List.length (PrScript.make_batches files))
    /\ List.length (PrScript.allRationales a)
       = List.length (PrScript.make_batches files)
    /\ PrScript.overallAiProb a
       = PrBatching.weighted_sum cls (arr_length files) 0
           (PrScript.make_batches files)
    /\ List.length
         (PrBatching.terms cls (arr_length files) 0
            (PrScript.make_batches files))
       = List.length (PrScript.make_batches files).
Proof.
  intros Hall. unfold PrScript.analyze.
  destruct (PrAnalysisFacts.analyze_from_answered cls (arr_length files)
              (PrScript.make_batches files) 0 PrScript.analysis_init Hall)
    as [a [Hrun [Hasked [Hlen [Hprob Hterms]]]]].
  exists a. simpl in *. repeat split; assumption.
Qed.

Lemma X5_pr_analysis_calls_every_batch_witness :
  exists a,
    PrScript.analyze Samples.certain [Samples.long_file; Samples.long_file]
      = PrScript.Next a
    /\ PrScript.asked a
       = seq 0 (List.length
                  (PrScript.make_batches [Samples.long_file; Samples.long_file]))
    /\ List.length (PrScript.allRationales a)
       = List.length
           (PrScript.make_batches [Samples.long_file; Samples.long_file])
    /\ PrScript.overallAiProb a
       = PrBatching.weighted_sum Samples.certain
           (arr_length [Samples.long_file; Samples.long_file]) 0
           (PrScript.make_batches [Samples.long_file; Samples.long_file])
    /\ List.length
         (PrBatching.terms Samples.certain
            (arr_length [Samples.long_file; Samples.long_file]) 0
            (PrScript.make_batches [Samples.long_file; Samples.long_file]))
       = List.length
           (PrScript.make_batches [Samples.long_file; Samples.long_file]).
Proof.
  apply (X5_pr_analysis_calls_every_batch Samples.certain
           [Samples.long_file; Samples.long_file]).
  intros k b _. discriminate.
Defined.

(** X6.  The analysis loop of the pull-request script stops at the first
    request that fails: the batches before it were sent, in order, the
    failing one was sent, and none after it is. *)
Theorem X6_pr_analysis_stops_at_first_failure
    (cls : PrScript.classifier) (files : list PrScript.pr_file)
    (k : nat) (b : list PrScript.pr_file) :
  nth_error (PrScript.make_batches files) k = Some b ->
  cls k b = None ->
  (forall j b', (j < k)%nat ->
                nth_error (PrScript.make_batches files) j = Some b' ->
                cls j b' <> None) ->
  exists a,
    PrScript.analyze cls files = PrScript.Throw a
    /\ PrScript.asked a = seq 0 (S k).
Proof.
  intros Hk Hfail Hbefore. unfold PrScript.analyze.
  destruct (nth_error_split _ _ Hk) as [pre [post [Hsplit Hlen]]].
  rewrite Hsplit.
  destruct (PrAnalysisFacts.analyze_from_fails cls (arr_length files) pre 0
              PrScript.analysis_init b post) as [a [Hrun Hasked]].
  - intros j b' Hj. apply (Hbefore j b').
    + rewrite <- Hlen. apply nth_error_Some. now rewrite Hj.
    + rewrite Hsplit, nth_error_app1; [exact Hj |].
      apply nth_error_Some. now rewrite Hj.
  - simpl. now rewrite Hlen.
  - exists a. split; [exact Hrun |]. rewrite Hasked, Hlen. reflexivity.
Qed.

Lemma X6_pr_analysis_stops_at_first_failure_witness :
  exists a,
    PrScript.analyze Samples.first_request_fails
      [Samples.long_file; Samples.long_file] = PrScript.Throw a
    /\ PrScript.asked a = seq 0 1.
Proof.
  apply (X6_pr_analysis_stops_at_first_failure Samples.first_request_fails
           [Samples.long_file; Samples.long_file] 0 [Samples.long_file]).
  - vm_compute. reflexivity.
  - reflexivity.
  - intros j b' Hj. inversion Hj.
Defined.

(** X7.  The rule loop, for rules whose conditions lie within the grammar:
    every rule is evaluated once, in the order of the rules file, and the
    trimmed message of each rule whose condition holds of [ctx] is filed in
    exactly one list, in that order: under the failures when the severity
    is the string error, under the warnings for any other severity.  The
    loop has no handler: a rule whose condition throws, after rules of the
    grammar, ends it with the exception, and one whose condition calls
    [process.exit] ends the process; the rules after it are not
    evaluated. *)
Theorem X7_rules_evaluated_in_order
    (sc : PrScript.scope) (pre : list PrScript.rule) :
  Forall (fun r => PrScript.in_grammar (PrScript.when r) = true) pre ->
  let ev := PrScript.apply_rules sc pre in
  map fst (PrScript.evaluated ev) = pre
  /\ PrScript.failures ev
     = map (fun r => trim (PrScript.message r))
         (filter (fun r => snd (PrBatching.judged sc r)
                           && String.eqb (PrScript.severity r) "error") pre)
  /\ PrScript.warnings ev
     = map (fun r => trim (PrScript.message r))
         (filter (fun r => snd (PrBatching.judged sc r)
                           && negb (String.eqb (PrScript.severity r) "error"))
            pre)
  /\ PrScript.halted ev = None
  /\ (forall r post st',
        PrScript.eval (PrScript.when r) (PrScript.make_ctx sc) ev
          = PrScript.Thrown st' ->
        PrScript.apply_rules sc (pre ++ r :: post)
        = PrScript.mk_evaluation (PrScript.vars st') (PrScript.failures st')
            (PrScript.warnings st') (PrScript.evaluated st')
            (Some PrScript.Uncaught))
  /\ (forall r post code st',
        PrScript.eval (PrScript.when r) (PrScript.make_ctx sc) ev
          = PrScript.Exited code st' ->
        PrScript.apply_rules sc (pre ++ r :: post)
        = PrScript.mk_evaluation (PrScript.vars st') (PrScript.failures st')
            (PrScript.warnings st') (PrScript.evaluated st')
            (Some (PrScript.Exit code))).
Proof.
  intros Hpre. cbv zeta.
  destruct (RuleFacts.apply_rules_in_grammar sc pre Hpre)
    as [_ [Hf [Hw [He Hh]]]].
  assert (forall keep : PrScript.rule * bool -> bool,
            map (fun rt => trim (PrScript.message (fst rt)))
              (filter keep (map (PrBatching.judged sc) pre))
            = map (fun r => trim (PrScript.message r))
                (filter (fun r => keep (PrBatching.judged sc r)) pre))
    as Hfilter.
  { intros keep. clear. induction pre as [| r pre IH]; [reflexivity |].
    cbn [map filter]. destruct (keep (PrBatching.judged sc r)); cbn [map];
      now rewrite IH. }
  split; [| split; [| split; [| split; [| split]]]].
  - rewrite He, map_map. unfold PrBatching.judged. cbn [fst].
    apply map_id.
  - rewrite Hf. unfold PrBatching.error_messages, PrScript.triggered_errors.
    apply Hfilter.
  - rewrite Hw.
    unfold PrBatching.warning_messages, PrBatching.triggered_warnings.
    apply Hfilter.
  - exact Hh.
  - intros r post st' Hr.
    apply PrAnalysisFacts.apply_rules_stopped; [exact Hpre |].
    left. now split.
  - intros r post code st' Hr.
    apply PrAnalysisFacts.apply_rules_stopped; [exact Hpre |].
    right. exists code. now split.
Qed.

Lemma X7_rules_evaluated_in_order_witness :
  PrScript.apply_rules Samples.suspicious
    ([Samples.missing_tests] ++ Samples.bare_name :: [Samples.high_confidence])
  = PrScript.mk_evaluation Samples.suspicious
      ["No tests were changed"%string] []
      [(Samples.missing_tests, true)] (Some PrScript.Uncaught)
  /\ PrScript.apply_rules Samples.suspicious
       ([Samples.missing_tests] ++ Samples.leave :: [Samples.high_confidence])
     = PrScript.mk_evaluation Samples.suspicious
         ["No tests were changed"%string] []
         [(Samples.missing_tests, true)] (Some (PrScript.Exit 0)).
Proof.
  split.
  - refine (proj1 (proj2 (proj2 (proj2 (proj2
              (X7_rules_evaluated_in_order Samples.suspicious
                 [Samples.missing_tests] _)))))
              Samples.bare_name [Samples.high_confidence]
              (PrScript.apply_rules Samples.suspicious
                 [Samples.missing_tests]) _).
    + repeat constructor.
    + vm_compute. reflexivity.
  - refine (proj2 (proj2 (proj2 (proj2 (proj2
              (X7_rules_evaluated_in_order Samples.suspicious
                 [Samples.missing_tests] _)))))
              Samples.leave [Samples.high_confidence] 0
              (PrScript.apply_rules Samples.suspicious
                 [Samples.missing_tests]) _).
    + repeat constructor.
    + vm_compute. reflexivity.
Defined.

(** X8.  Rules whose conditions lie within the grammar do not affect one
    another: each is judged against the context built from the script's
    variables as they were before the first rule, and the variables are
    unchanged after the last. *)
Theorem X8_grammar_rules_are_independent
    (sc : PrScript.scope) (rules : list PrScript.rule) :
  Forall (fun r => PrScript.in_grammar (PrScript.when r) = true) rules ->
  PrScript.vars (PrScript.apply_rules sc rules) = sc
  /\ PrScript.evaluated (PrScript.apply_rules sc rules)
     = map (PrBatching.judged sc) rules.
Proof.
  intros Hall.
  destruct (RuleFacts.apply_rules_in_grammar sc rules Hall)
    as [Hv [_ [_ [He _]]]].
  now split.
Qed.

Lemma X8_grammar_rules_are_independent_witness :
  PrScript.vars
    (PrScript.apply_rules Samples.suspicious
       [Samples.missing_tests; Samples.high_confidence])
  = Samples.suspicious
  /\ PrScript.evaluated
       (PrScript.apply_rules Samples.suspicious
          [Samples.missing_tests; Samples.high_confidence])
     = map (PrBatching.judged Samples.suspicious)
         [Samples.missing_tests; Samples.high_confidence].
Proof.
  apply (X8_grammar_rules_are_independent Samples.suspicious
           [Samples.missing_tests; Samples.high_confidence]).
  repeat constructor.
Defined.


(** X10.  The boundary of the notification, for a listing of one file and
    a classifier that answers with the probability [p], which is then the
    overall probability.  The number 0.5505 does not notify: its product
    with 100 is the number just below 55.05, which [toFixed(1)] writes as
    55.0.  The next number after it, 0.5505000000000001, does.  NaN, which
    fails every comparison, does not notify; plus infinity does. *)
Theorem X10_webhook_boundary :
  PrScript.score_of 0.5505 = PrintedTenths 550
  /\ PrScript.run_module [Samples.source_file] (Samples.says 0.5505)
       (Some []) (Some "https://hooks.example/T"%string)
     = PrScript.mk_run
         [PrScript.Classify 0; PrScript.PostReview true]
         (PrScript.Exit 0)
  /\ PrScript.score_of 0.5505000000000001 = PrintedTenths 551
  /\ PrScript.run_module [Samples.source_file]
       (Samples.says 0.5505000000000001)
       (Some []) (Some "https://hooks.example/T"%string)
     = PrScript.mk_run
         [PrScript.Classify 0; PrScript.PostReview true;
          PrScript.Webhook "https://hooks.example/T"]
         (PrScript.Exit 0)
  /\ PrimFloat.next_up 0.5505 = 0.5505000000000001%float
  /\ PrScript.notifies PrimFloat.nan = false
  /\ PrScript.notifies PrimFloat.infinity = true
  /\ PrScript.notifies PrimFloat.neg_infinity = false
  /\ PrScript.finish
       (PrScript.run_module [Samples.source_file]
          (Samples.says 0.5505000000000001) (Some []) None)
     = PrScript.Uncaught.
Proof.
  repeat split; vm_compute; reflexivity.
Qed.

(* ================================================================= *)
(** * Further properties of the repository analysis *)

Module RepoStatsFacts.
Import RepoScript RepoBatching.

Lemma count_lines_positive s : 1 <= count_lines s.
Proof.
  induction s as [| c s IH]; simpl; [lia |].
  destruct (Ascii.eqb c (ascii_of_nat 10)); lia.
Qed.

Lemma sum_lines_bound api files : arr_length files <= sum_lines api files.
Proof.
  unfold arr_length. induction files as [| f files IH]; simpl; [lia |].
  pose proof (count_lines_positive (full_content api f)).
  fold (sum_lines api files). lia.
Qed.

Lemma report_step api st file :
  let st' := loop_body api st file in
  analyzed_files st' = analyzed_files st ++ report_entries api file
  /\ totalLines st'
     = totalLines st + sum_lines api (filter (readable api) [file])
  /\ licenseDetected st'
     = licenseDetected st
       || existsb (fun f => license_name (full_content api f))
            (filter (readable api) [file])
  /\ testFilesFound st'
     = testFilesFound st
       || existsb (fun f => test_or_spec (path f))
            (filter (readable api) [file]).
Proof.
  unfold loop_body, report_entries, readable, sum_lines, full_content.
  cbv zeta. cbn [filter].
  destruct (api file) as [msg | enc content] eqn:E; simpl.
  - rewrite !orb_false_r. repeat split; first [reflexivity | lia].
  - destruct (String.eqb enc "base64"); simpl; rewrite ?E.
    + rewrite !orb_false_r. repeat split; first [reflexivity | lia].
    + rewrite !orb_false_r, app_nil_r. repeat split; first [reflexivity | lia].
Qed.

Lemma report_fold api files : forall st,
  let final := fold_left (loop_body api) files st in
  analyzed_files final
    = analyzed_files st ++ flat_map (report_entries api) files
  /\ totalLines final
     = totalLines st + sum_lines api (filter (readable api) files)
  /\ licenseDetected final
     = licenseDetected st
       || existsb (fun f => license_name (full_content api f))
            (filter (readable api) files)
  /\ testFilesFound final
     = testFilesFound st
       || existsb (fun f => test_or_spec (path f))
            (filter (readable api) files).
Proof.
  induction files as [| f files IH]; intros st; cbn [fold_left flat_map filter].
  - simpl. rewrite !orb_false_r, app_nil_r. repeat split; lia.
  - destruct (IH (loop_body api st f)) as [Ha [Hl [Hc Ht]]].
    destruct (report_step api st f) as [Ha1 [Hl1 [Hc1 Ht1]]].
    cbv zeta in *. rewrite Ha, Hl, Hc, Ht, Ha1, Hl1, Hc1, Ht1.
    cbn [filter]. destruct (readable api f);
      cbn [existsb sum_lines fold_right app];
      rewrite ?orb_false_r, ?orb_assoc, <- ?app_assoc;
      repeat split; try reflexivity;
      unfold sum_lines; cbn [fold_right]; lia.
Qed.

Lemma length_substring_exact (n : nat) : forall s,
  (n <= String.length s)%nat -> String.length (substring 0 n s) = n.
Proof.
  induction n as [| n IH]; intros s H.
  - destruct s; reflexivity.
  - destruct s as [| c s]; simpl in *; [lia |]. rewrite IH; lia.
Qed.

Lemma substring_append (n : nat) : forall s t,
  (n <= String.length s)%nat ->
  substring 0 n (s ++ t) = substring 0 n s.
Proof.
  induction n as [| n IH]; intros s t H.
  - destruct s; simpl; [destruct t |]; reflexivity.
  - destruct s as [| c s]; simpl in *; [lia |]. rewrite IH; [reflexivity | lia].
Qed.

Lemma substring_twice (n : nat) : forall s,
  substring 0 n (substring 0 n s) = substring 0 n s.
Proof.
  induction n as [| n IH]; intros s.
  - destruct s; reflexivity.
  - destruct s as [| c s]; simpl; [reflexivity | now rewrite IH].
Qed.

End RepoStatsFacts.

(** X11.  What the repository analysis reports about the files: the list
    of analyzed files has, in the order of the input, an entry with the
    line count for every file read and an entry with the error for every
    file whose request failed, and nothing for a file that came back in
    another encoding than base64; the totals count the files read and
    their lines, so there are at least as many lines as files; a license
    or a test file is found exactly when one of the files read has it. *)
Theorem X11_repository_report
    (api : RepoScript.contents_api) (codeFiles : list RepoScript.tree_item) :
  let st := RepoScript.run_loop api codeFiles in
  let read := filter (RepoScript.readable api) codeFiles in
  RepoScript.analyzed_files st
    = flat_map (RepoBatching.report_entries api) codeFiles
  /\ RepoScript.totalFiles st = arr_length read
  /\ RepoScript.totalLines st = RepoBatching.sum_lines api read
  /\ RepoScript.totalFiles st <= RepoScript.totalLines st
  /\ RepoScript.licenseDetected st
     = existsb (fun f => license_name (RepoScript.full_content api f)) read
  /\ RepoScript.testFilesFound st
     = existsb (fun f => test_or_spec (RepoScript.path f)) read.
Proof.
  cbv zeta. unfold RepoScript.run_loop.
  destruct (RepoStatsFacts.report_fold api codeFiles RepoScript.loop_init)
    as [Ha [Hl [Hc Ht]]].
  cbv zeta in *. simpl in Ha, Hl, Hc, Ht.
  pose proof (RepoAnalysisFacts.total_files_counted api codeFiles
                RepoScript.loop_init) as Hn.
  simpl in Hn.
  repeat split; try assumption.
  rewrite Hn, Hl. apply RepoStatsFacts.sum_lines_bound.
Qed.

(** X12.  In the repository analysis the factors of the batches add up to
    1 as soon as one file could be read: the divisor [totalFiles] counts
    exactly the files that were put into batches. *)
Theorem X12_repository_weights_sum_to_one
    (api : RepoScript.contents_api) (codeFiles : list RepoScript.tree_item) :
  filter (RepoScript.readable api) codeFiles <> [] ->
  (sum_Q (map (RepoScript.weight
                 (RepoScript.totalFiles (RepoScript.run_loop api codeFiles)))
            (RepoScript.make_batches api codeFiles)) == 1)%Q.
Proof.
  apply RepoAnalysisFacts.weights_sum_to_one.
Qed.

Lemma X12_repository_weights_sum_to_one_witness :
  (sum_Q (map (RepoScript.weight
                 (RepoScript.totalFiles
                    (RepoScript.run_loop Samples.big_api [Samples.small_item])))
            (RepoScript.make_batches Samples.big_api [Samples.small_item]))
   == 1)%Q.
Proof.
  apply (X12_repository_weights_sum_to_one Samples.big_api
           [Samples.small_item]).
  discriminate.
Defined.

(** X13.  The text a batch holds for a file: a text of at most 12000
    characters is kept as it is; a longer one becomes exactly 12037
    characters long, its first 12000 characters followed by the notice, so
    that a text of 12001 to 12036 characters grows. *)
Theorem X13_truncation (content : string) :
  (js_length content <= 12000 -> RepoScript.truncate content = content)
  /\ (12000 < js_length content ->
      js_length (RepoScript.truncate content) = RepoScript.truncated_max
      /\ substring 0 (Z.to_nat 12000) (RepoScript.truncate content)
         = substring 0 (Z.to_nat 12000) content).
Proof.
  unfold RepoScript.truncate, js_length, RepoScript.truncated_max.
  destruct (Z.gtb_spec (Z.of_nat (String.length content)) 12000)
    as [Hlong | Hshort]; split; intros H; try lia; try reflexivity.
  assert (Z.to_nat 12000 <= String.length content)%nat as Hn by lia.
  split.
  - rewrite !length_append, (RepoStatsFacts.length_substring_exact _ _ Hn).
    change (String.length RepoScript.newline) with 1%nat.
    change (String.length "... (content truncated for analysis)") with 36%nat.
    lia.
  - rewrite RepoStatsFacts.substring_append.
    + apply RepoStatsFacts.substring_twice.
    + rewrite (RepoStatsFacts.length_substring_exact _ _ Hn). lia.
Qed.

Lemma X13_truncation_witness :
  RepoScript.truncate "x" = "x"%string.
Proof.
  apply (proj1 (X13_truncation "x")). vm_compute. discriminate.
Defined.

Module RepoCauseFacts.
Import RepoScript RepoBatching.

Lemma entries_size_snoc b e :
  batch_size (b ++ [e]) = batch_size b + js_length (entry_content e).
Proof. induction b as [| g b IH]; simpl; lia. Qed.

Lemma closed_for_cause_snoc api bs b file tl :
  closed_for_cause api (bs ++ [b]) ->
  readable api file = true ->
  MAX_FILES_PER_BATCH <= arr_length b
  \/ MAX_BATCH_SIZE < batch_size b + js_length (full_content api file) ->
  closed_for_cause api ((bs ++ [b]) ++ [entry_of api file :: tl]).
Proof.
  induction bs as [| b0 bs IH]; intros H Hread Hcause.
  - simpl. split; [| exact I]. exists file, tl. now repeat split.
  - destruct bs as [| b1 bs].
    + simpl in *. destruct H as [H1 _]. split; [exact H1 |].
      split; [| exact I]. exists file, tl. now repeat split.
    + cbn [app closed_for_cause] in *. destruct H as [H1 H2].
      split; [exact H1 |]. apply IH; assumption.
Qed.

Lemma closed_for_cause_grow api bs g rest e :
  closed_for_cause api (bs ++ [g :: rest]) ->
  closed_for_cause api (bs ++ [(g :: rest) ++ [e]]).
Proof.
  induction bs as [| b0 bs IH]; intros H.
  - exact I.
  - destruct bs as [| b1 bs].
    + simpl in *. destruct H as [[file [tl [Hread [Heq Hcause]]]] _].
      injection Heq as -> ->.
      split; [| exact I]. exists file, (tl ++ [e]). now repeat split.
    + cbn [app closed_for_cause] in *. destruct H as [H1 H2].
      split; [exact H1 |]. now apply IH.
Qed.

Lemma cause_invariant_step api st file :
  cause_invariant api st -> cause_invariant api (loop_body api st file).
Proof.
  intros [Hsz [Hne Hshape]].
  assert (forall enc content, api file = Content enc content ->
            String.eqb enc "base64" = true ->
            readable api file = true
            /\ entry_of api file = mk_batch_entry (path file) (truncate content)
            /\ full_content api file = content) as Hfile.
  { intros enc content E Hb. unfold readable, entry_of, full_content.
    rewrite E. now repeat split. }
  unfold loop_body.
  destruct (api file) as [msg | enc content] eqn:E; [exact (conj Hsz (conj Hne Hshape)) |].
  destruct (String.eqb enc "base64") eqn:Hb; [| exact (conj Hsz (conj Hne Hshape))].
  destruct (Hfile enc content eq_refl Hb) as [Hread [Hentry Hfull]].
  rewrite <- Hentry. unfold cause_invariant.
  destruct (currentBatch st) as [| g rest] eqn:Ecur.
  - rewrite andb_false_r. simpl.
    split; [simpl in Hsz; rewrite ?Hfull; lia |].
    split; [exact Hne |]. right. split; [discriminate |].
    destruct Hshape as [[Hbs _] | [Hc _]]; [| now contradiction Hc].
    rewrite Hbs. exact I.
  - rewrite andb_true_r.
    destruct (_ || _) eqn:Hfullb; simpl.
    + split; [rewrite ?Hfull; lia |]. split.
      * apply Forall_app. split; [exact Hne |].
        constructor; [discriminate | constructor].
      * right. split; [discriminate |].
        destruct Hshape as [[_ Hc] | [_ Hchain]]; [discriminate |].
        apply closed_for_cause_snoc; [exact Hchain | exact Hread |].
        apply orb_prop in Hfullb. rewrite Hfull.
        destruct Hfullb as [Hsize | Hcount].
        -- right. apply Z.gtb_lt in Hsize. simpl in Hsz. simpl. lia.
        -- left. apply Z.geb_le in Hcount. exact Hcount.
    + split.
      * change (g :: rest ++ [entry_of api file])
          with ((g :: rest) ++ [entry_of api file]).
        rewrite entries_size_snoc, Hentry. simpl. simpl in Hsz. lia.
      * split; [exact Hne |]. right. split; [discriminate |].
        destruct Hshape as [[_ Hc] | [_ Hchain]]; [discriminate |].
        now apply closed_for_cause_grow.
Qed.

Lemma cause_invariant_loop api codeFiles :
  cause_invariant api (run_loop api codeFiles).
Proof.
  unfold run_loop. apply fold_left_invariant.
  - intros s a. apply cause_invariant_step.
  - split; [reflexivity | split; [constructor | now left]].
Qed.

End RepoCauseFacts.

(** X14.  The repository analysis makes no empty batch, and every batch
    but the last was closed for one of the two causes that the loop tests:
    the batch had reached [MAX_FILES_PER_BATCH] files, or its size together
    with the full length of the file that opens the next batch, before
    truncation, went over [MAX_BATCH_SIZE]. *)
Theorem X14_repository_batches_closed_for_cause
    (api : RepoScript.contents_api) (codeFiles : list RepoScript.tree_item) :
  Forall (fun b => b <> []) (RepoScript.make_batches api codeFiles)
  /\ RepoBatching.closed_for_cause api
       (RepoScript.make_batches api codeFiles).
Proof.
  destruct (RepoCauseFacts.cause_invariant_loop api codeFiles)
    as [_ [Hne Hshape]].
  unfold RepoScript.make_batches, RepoScript.push_last.
  destruct Hshape as [[Hb Hc] | [Hc Hchain]].
  - rewrite Hc, Hb. simpl. split; [constructor | exact I].
  - destruct (RepoScript.currentBatch (RepoScript.run_loop api codeFiles))
      eqn:E; [now contradiction Hc |].
    simpl nonempty. cbv iota. split; [| exact Hchain].
    apply Forall_app. split; [exact Hne |].
    constructor; [discriminate | constructor].
Qed.

Module PatternFacts.
Import RepoScript RepoBatching.

Lemma known_iff (acc : list string) (p : string) :
  existsb (String.eqb p) acc = true <-> In p acc.
Proof.
  rewrite existsb_exists. split.
  - intros [q [Hin Heq]]. apply String.eqb_eq in Heq. now subst.
  - intros Hin. exists p. split; [exact Hin | apply String.eqb_refl].
Qed.

Lemma add_pattern_in acc p q :
  In q (add_pattern acc p) <-> In q acc \/ q = p.
Proof.
  unfold add_pattern. destruct (existsb (String.eqb p) acc) eqn:E.
  - apply known_iff in E. split; [now left | intros [H | ->]; assumption].
  - rewrite in_app_iff. simpl. split.
    + intros [H | [<- | []]]; [now left | now right].
    + intros [H | ->]; [now left | right; now left].
Qed.

Lemma add_pattern_nodup acc p : NoDup acc -> NoDup (add_pattern acc p).
Proof.
  intros H. unfold add_pattern.
  destruct (existsb (String.eqb p) acc) eqn:E; [exact H |].
  apply NoDup_app; [exact H | repeat constructor; intros [] |].
  intros q Hq [<- | []].
  apply known_iff in Hq. congruence.
Qed.

Lemma add_all_in ps : forall acc q,
  In q (fold_left add_pattern ps acc) <-> In q acc \/ In q ps.
Proof.
  induction ps as [| p ps IH]; intros acc q; simpl; [tauto |].
  rewrite IH, add_pattern_in. intuition (subst; auto).
Qed.

Lemma add_all_nodup ps : forall acc,
  NoDup acc -> NoDup (fold_left add_pattern ps acc).
Proof.
  induction ps as [| p ps IH]; intros acc H; simpl; [exact H |].
  apply IH. now apply add_pattern_nodup.
Qed.

Lemma add_all_known ps : forall acc,
  (forall p, In p ps -> In p acc) -> fold_left add_pattern ps acc = acc.
Proof.
  induction ps as [| p ps IH]; intros acc H; simpl; [reflexivity |].
  assert (add_pattern acc p = acc) as ->.
  { unfold add_pattern.
    destruct (existsb (String.eqb p) acc) eqn:E; [reflexivity |].
    assert (In p acc) as Hin by (apply H; now left).
    apply known_iff in Hin. congruence. }
  apply IH. intros q Hq. apply H. now right.
Qed.

Lemma add_all_extends ps : forall acc,
  exists more, fold_left add_pattern ps acc = acc ++ more.
Proof.
  induction ps as [| p ps IH]; intros acc; simpl.
  - exists []. now rewrite app_nil_r.
  - destruct (IH (add_pattern acc p)) as [more Hmore]. rewrite Hmore.
    unfold add_pattern. destruct (existsb _ acc).
    + now exists more.
    + exists ([p] ++ more). now rewrite app_assoc.
Qed.

Lemma analyze_from_patterns cls n bs : forall i a,
  (NoDup (allPatterns a) -> NoDup (allPatterns (analyze_from cls n i bs a)))
  /\ (forall p, In p (allPatterns (analyze_from cls n i bs a))
                <-> In p (allPatterns a) \/ In p (reported cls i bs))
  /\ exists more, allPatterns (analyze_from cls n i bs a)
                  = allPatterns a ++ more.
Proof.
  induction bs as [| b bs IH]; intros i a.
  - simpl. split; [tauto | split; [tauto |]]. exists []. now rewrite app_nil_r.
  - cbn [analyze_from reported].
    destruct (IH (S i) (analyze_batch cls n i b a)) as [Hnd [Hin [more Hmore]]].
    unfold analyze_batch in *. destruct (cls i b) as [v | msg]; simpl in *.
    + split; [| split].
      * intros H. apply Hnd. now apply add_all_nodup.
      * intros p. rewrite Hin, add_all_in, in_app_iff. tauto.
      * destruct (add_all_extends (patterns_detected v) (allPatterns a))
          as [more0 Hmore0].
        rewrite Hmore, Hmore0. exists (more0 ++ more). now rewrite app_assoc.
    + split; [exact Hnd | split; [exact Hin |]]. now exists more.
Qed.

End PatternFacts.

(** X15.  The patterns the repository analysis collects: every pattern
    that the verdict of some batch reports is in the list, nothing else is,
    and none is there twice (patterns are compared as whole strings);
    adding the patterns of a verdict a second time changes nothing, and
    adding patterns never moves or removes the ones already there. *)
Theorem X15_pattern_union
    (api : RepoScript.contents_api) (cls : RepoScript.classifier)
    (codeFiles : list RepoScript.tree_item) :
  let a := RepoScript.analyzeCodeBatches api cls codeFiles in
  NoDup (RepoScript.allPatterns a)
  /\ (forall p, In p (RepoScript.allPatterns a)
                <-> In p (RepoBatching.reported cls 0
                            (RepoScript.make_batches api codeFiles)))
  /\ (forall acc ps,
        fold_left RepoScript.add_pattern ps
          (fold_left RepoScript.add_pattern ps acc)
        = fold_left RepoScript.add_pattern ps acc)
  /\ (forall acc ps, exists more,
        fold_left RepoScript.add_pattern ps acc = acc ++ more).
Proof.
  cbv zeta. unfold RepoScript.analyzeCodeBatches.
  fold (RepoScript.make_batches api codeFiles).
  destruct (PatternFacts.analyze_from_patterns cls
              (RepoScript.totalFiles (RepoScript.run_loop api codeFiles))
              (RepoScript.make_batches api codeFiles) 0
              RepoScript.analysis_init) as [Hnd [Hin _]].
  split; [apply Hnd; constructor | split; [| split]].
  - intros p. rewrite Hin. simpl. tauto.
  - intros acc ps. apply PatternFacts.add_all_known.
    intros p Hp. apply PatternFacts.add_all_in. now right.
  - intros acc ps. apply PatternFacts.add_all_extends.
Qed.

(* ================================================================= *)
(** * Further properties of the quality rollup *)

Module RollupMoreFacts.

(** In the loop of the repository analysis the index of a batch matters
    only for the first batch, where the aggregate still has its initial
    value. *)
Lemma repo_update_index i o q :
  (i = 0%nat -> o = "Unknown"%string) ->
  RepoScript.update_quality i o q = RepoScript.update_quality 1 o q.
Proof.
  intros H. destruct i as [| i]; [| reflexivity].
  rewrite (H eq_refl). reflexivity.
Qed.

Lemma repo_rollup_from_fold qs : forall i o,
  (i = 0%nat -> o = "Unknown"%string) ->
  RepoScript.rollup_from i qs o
  = fold_left (RepoScript.update_quality 1) qs o.
Proof.
  induction qs as [| q qs IH]; intros i o H; simpl; [reflexivity |].
  rewrite (repo_update_index i o q H). apply IH. discriminate.
Qed.

Lemma repo_analysis_quality cls n bs : forall i a,
  (i = 0%nat -> RepoScript.overallCodeQuality a = "Unknown"%string) ->
  RepoScript.overallCodeQuality (RepoScript.analyze_from cls n i bs a)
  = fold_left (RepoScript.update_quality 1)
      (RepoBatching.answered_qualities cls i bs)
      (RepoScript.overallCodeQuality a).
Proof.
  induction bs as [| b bs IH]; intros i a H; [reflexivity |].
  cbn [RepoScript.analyze_from RepoBatching.answered_qualities].
  rewrite IH by discriminate.
  unfold RepoScript.analyze_batch.
  destruct (cls i b) as [v | msg]; simpl; [| reflexivity].
  now rewrite (repo_update_index i _ _ H).
Qed.

End RollupMoreFacts.

(** X17.  The quality that the repository analysis reports is the rollup
    of the qualities of the batches that returned a verdict, in their
    order; failed batches leave it alone.  When those qualities are all
    among poor, average, good and excellent, the comparison chain gives one
    of them that none of them ranks below: the lowest reported. *)
Theorem X17_repository_rollup
    (api : RepoScript.contents_api) (cls : RepoScript.classifier)
    (codeFiles : list RepoScript.tree_item) :
  let qs := RepoBatching.answered_qualities cls 0
              (RepoScript.make_batches api codeFiles) in
  RepoScript.overallCodeQuality
    (RepoScript.analyzeCodeBatches api cls codeFiles)
  = RepoScript.rollup qs
  /\ forall k ks,
       qs = map RepoBatching.quality_name (k :: ks) ->
       exists lowest,
         In lowest (k :: ks)
         /\ RepoScript.rollup qs = RepoBatching.quality_name lowest
         /\ forall k', In k' (k :: ks) ->
              RepoBatching.quality_rank lowest <= RepoBatching.quality_rank k'.
Proof.
  cbv zeta. split.
  - unfold RepoScript.analyzeCodeBatches.
    fold (RepoScript.make_batches api codeFiles).
    rewrite RollupMoreFacts.repo_analysis_quality by reflexivity.
    unfold RepoScript.rollup.
    now rewrite RollupMoreFacts.repo_rollup_from_fold by reflexivity.
  - intros k ks ->.
    exists (fold_left RepoBatching.lower ks k).
    destruct (RollupFacts.lowest ks k) as [Hin Hlow].
    split; [exact Hin | split; [| exact Hlow]].
    apply RollupFacts.repo_rollup_named.
Qed.

Lemma X17_repository_rollup_witness :
  exists lowest,
    In lowest [RepoBatching.good; RepoBatching.poor; RepoBatching.average]
    /\ RepoScript.rollup
         (RepoBatching.answered_qualities
            (Samples.reports ["good"; "poor"; "average"]%string) 0
            (RepoScript.make_batches Samples.big_api
               (repeat Samples.small_item 51)))
       = RepoBatching.quality_name lowest
    /\ forall k',
         In k' [RepoBatching.good; RepoBatching.poor; RepoBatching.average] ->
         RepoBatching.quality_rank lowest <= RepoBatching.quality_rank k'.
Proof.
  refine (proj2 (X17_repository_rollup Samples.big_api
                   (Samples.reports ["good"; "poor"; "average"]%string)
                   (repeat Samples.small_item 51))
            RepoBatching.good [RepoBatching.poor; RepoBatching.average] _).
  vm_compute. reflexivity.
Defined.

(* ================================================================= *)
(** * Further properties of the GitHub-App pipeline *)

Module AppLoopFacts.
Import PrApp.

Section Loop.
Variable file : Type.
Variable analyzeFileBatch : list file -> nat -> reply.

(** An answered batch: what the [try] block did before the call of
    [updateOverallCodeQuality] stays, and the [catch] adds its line. *)
Lemma answered_batch n i b a v :
  analyzeFileBatch b i = Answer v ->
  analyze_batch file analyzeFileBatch n i b a
  = mk_analysis
      (overallAiProb a + ai_prob v * ratio (arr_length b) n)%Q
      (fold_left add_pattern (patterns_detected v) (allPatterns a))
      ((allRationales a
        ++ [("Batch " ++ show_nat (i + 1) ++ " ("
             ++ show_nat (List.length b) ++ " files): " ++ rationale v)
            %string])
       ++ [("Batch " ++ show_nat (i + 1)
            ++ ": Error during analysis - overallCodeQuality is not defined")
           %string])
      (overallCodeQuality a).
Proof.
  intros Hv. unfold analyze_batch. rewrite Hv.
  now rewrite RollupFacts.app_update_throws.
Qed.

Lemma failed_batch n i b a msg :
  analyzeFileBatch b i = Error msg ->
  analyze_batch file analyzeFileBatch n i b a
  = mk_analysis (overallAiProb a) (allPatterns a)
      (allRationales a
       ++ [("Batch " ++ show_nat (i + 1) ++ ": Error during analysis - "
            ++ msg)%string])
      (overallCodeQuality a).
Proof. intros Hv. unfold analyze_batch. now rewrite Hv. Qed.

Lemma loop_rationales n bs : forall i a,
  allRationales (analyze_from file analyzeFileBatch n i bs a)
  = allRationales a ++ PrAppLoop.lines_from file analyzeFileBatch i bs.
Proof.
  induction bs as [| b bs IH]; intros i a; cbn [analyze_from PrAppLoop.lines_from].
  - now rewrite app_nil_r.
  - rewrite IH. unfold PrAppLoop.rationale_lines.
    destruct (analyzeFileBatch b i) as [v | msg] eqn:E.
    + rewrite (answered_batch n i b a v E). cbn [allRationales].
      now rewrite <- !app_assoc.
    + rewrite (failed_batch n i b a msg E). cbn [allRationales].
      now rewrite <- !app_assoc.
Qed.

Lemma loop_prob n bs : forall i a,
  (overallAiProb (analyze_from file analyzeFileBatch n i bs a)
   == overallAiProb a
      + PrAppLoop.contributions_from file analyzeFileBatch n i bs)%Q.
Proof.
  induction bs as [| b bs IH]; intros i a;
    cbn [analyze_from PrAppLoop.contributions_from].
  - ring.
  - rewrite IH. unfold PrAppLoop.contribution.
    destruct (analyzeFileBatch b i) as [v | msg] eqn:E.
    + rewrite (answered_batch n i b a v E). cbn [overallAiProb]. ring.
    + rewrite (failed_batch n i b a msg E). cbn [overallAiProb]. ring.
Qed.

(** No batch changes the quality. *)
Lemma loop_quality n bs : forall i a,
  overallCodeQuality (analyze_from file analyzeFileBatch n i bs a)
  = overallCodeQuality a.
Proof.
  induction bs as [| b bs IH]; intros i a; [reflexivity |].
  cbn [analyze_from]. rewrite IH.
  destruct (analyzeFileBatch b i) as [v | msg] eqn:E.
  - now rewrite (answered_batch n i b a v E).
  - now rewrite (failed_batch n i b a msg E).
Qed.

Lemma loop_patterns n bs : forall i a,
  NoDup (allPatterns a) ->
  NoDup (allPatterns (analyze_from file analyzeFileBatch n i bs a))
  /\ forall p,
       In p (allPatterns (analyze_from file analyzeFileBatch n i bs a))
       <-> In p (allPatterns a)
           \/ In p (PrAppLoop.reported file analyzeFileBatch i bs).
Proof.
  induction bs as [| b bs IH]; intros i a H;
    cbn [analyze_from PrAppLoop.reported].
  - split; [exact H |]. intros p. simpl. tauto.
  - destruct (analyzeFileBatch b i) as [v | msg] eqn:E.
    + rewrite (answered_batch n i b a v E).
      change add_pattern with RepoScript.add_pattern.
      edestruct (IH (S i)) as [Hnodup Hin];
        [| split; [exact Hnodup |]].
      * cbn [allPatterns]. now apply PatternFacts.add_all_nodup.
      * intros p. rewrite Hin. cbn [allPatterns].
        rewrite PatternFacts.add_all_in, in_app_iff. tauto.
    + rewrite (failed_batch n i b a msg E).
      edestruct (IH (S i)) as [Hnodup Hin];
        [| split; [exact Hnodup |]].
      * exact H.
      * intros p. rewrite Hin. cbn [allPatterns app]. tauto.
Qed.

End Loop.

End AppLoopFacts.

(** X16.  [updateOverallCodeQuality] never updates.  The variable it names
    is declared in the [try] block, the function after it: the identifier
    resolves to nothing in the body of the function, so that every call
    throws, the first one at the assignment and the later ones at the
    comparison; and whatever the verdicts report, the quality that a run of
    [analyzePullRequest] hands to the rules and to the report is the
    initial value, Unknown. *)
Theorem X16_app_quality_stays_unknown
    (file stats policy : Type)
    (filterCodeFiles : list file -> list file)
    (organizeFilesIntoBatches : list file -> list (list file) * stats)
    (analyzeFileBatch : list file -> nat -> PrApp.reply)
    (evaluateAgainstPolicyRules : PrApp.analysis -> stats -> policy)
    (listing : string + list file) (post notify : option string) :
  (In "overallCodeQuality"%string PrApp.try_block_scope
   /\ PrApp.in_scope "overallCodeQuality" = false)
  /\ (forall (overall : string) (i : nat) (q : string),
        PrApp.updateOverallCodeQuality
          (PrApp.seen "overallCodeQuality" overall) i q
        = PrApp.ReferenceError "overallCodeQuality is not defined")
  /\ forall a p,
       PrApp.result
         (PrApp.analyzePullRequest filterCodeFiles organizeFilesIntoBatches
            analyzeFileBatch evaluateAgainstPolicyRules listing post notify)
       = Some (a, p) ->
       PrApp.overallCodeQuality a = "Unknown"%string.
Proof.
  split; [split; [vm_compute; tauto | reflexivity] | split].
  - intros overall i q. apply RollupFacts.app_update_throws.
  - intros a p. unfold PrApp.analyzePullRequest.
    destruct listing as [msg | files]; [discriminate |].
    destruct (arr_length (filterCodeFiles files) =? 0); [discriminate |].
    destruct (organizeFilesIntoBatches (filterCodeFiles files))
      as [batches st].
    assert (forall s e t,
              PrApp.result
                (PrApp.mk_outcome s e t
                   (Some
                      (PrApp.analyze_from file analyzeFileBatch
                         (arr_length (filterCodeFiles files)) 0 batches
                         PrApp.analysis_init,
                       evaluateAgainstPolicyRules
                         (PrApp.analyze_from file analyzeFileBatch
                            (arr_length (filterCodeFiles files)) 0 batches
                            PrApp.analysis_init) st)))
              = Some (a, p) ->
              PrApp.overallCodeQuality a = "Unknown"%string) as Hresult.
    { intros s e t H. cbn [PrApp.result] in H. injection H as <- _.
      now rewrite AppLoopFacts.loop_quality. }
    destruct post, notify; apply Hresult.
Qed.

(** X18.  The analysis loop of [analyzePullRequest], as it runs.  A batch
    whose request failed leaves its error line in the rationale trail and
    adds nothing to the probability.  A batch that was answered adds the
    verdict's probability weighted by its share and its patterns, and
    leaves two lines: that of its rationale and, after it, the error line
    of the exception that [updateOverallCodeQuality] throws.  The quality
    stays Unknown.  The patterns collected are those reported, each
    once. *)
Theorem X18_app_analysis_loop
    (file : Type) (analyzeFileBatch : list file -> nat -> PrApp.reply)
    (n : Z) (bs : list (list file)) :
  let a := PrApp.analyze_from file analyzeFileBatch n 0 bs
             PrApp.analysis_init in
  PrApp.allRationales a = PrAppLoop.lines_from file analyzeFileBatch 0 bs
  /\ (PrApp.overallAiProb a
      == PrAppLoop.contributions_from file analyzeFileBatch n 0 bs)%Q
  /\ PrApp.overallCodeQuality a = "Unknown"%string
  /\ NoDup (PrApp.allPatterns a)
  /\ forall p, In p (PrApp.allPatterns a)
               <-> In p (PrAppLoop.reported file analyzeFileBatch 0 bs).
Proof.
  cbv zeta.
  destruct (AppLoopFacts.loop_patterns file analyzeFileBatch n bs 0
              PrApp.analysis_init (NoDup_nil _)) as [Hnodup Hin].
  split; [| split; [| split; [| split]]].
  - now rewrite AppLoopFacts.loop_rationales.
  - rewrite AppLoopFacts.loop_prob. simpl. ring.
  - now rewrite AppLoopFacts.loop_quality.
  - exact Hnodup.
  - intros p. rewrite Hin. simpl. tauto.
Qed.

(** X19.  How a run of [analyzePullRequest] ends.  The status is one of
    completed, failed and skipped.  It is completed exactly when the
    listing was fetched, the filter left some file, and both posting the
    review and sending the notification returned.  The rules are evaluated
    exactly when the listing was fetched and the filter left some file.
    Whenever the status is failed, the error is recorded and a
    notification was attempted. *)
Theorem X19_app_run_status
    (file stats policy : Type)
    (filterCodeFiles : list file -> list file)
    (organizeFilesIntoBatches : list file -> list (list file) * stats)
    (analyzeFileBatch : list file -> nat -> PrApp.reply)
    (evaluateAgainstPolicyRules : PrApp.analysis -> stats -> policy)
    (listing : string + list file) (post notify : option string) :
  let o :=
    PrApp.analyzePullRequest filterCodeFiles organizeFilesIntoBatches
      analyzeFileBatch evaluateAgainstPolicyRules listing post notify in
  (PrApp.analysis_status o = "completed"%string
   \/ PrApp.analysis_status o = "failed"%string
   \/ PrApp.analysis_status o = "skipped"%string)
  /\ (PrApp.analysis_status o = "completed"%string
      <-> exists files, listing = inr files /\ filterCodeFiles files <> []
                        /\ post = None /\ notify = None)
  /\ (In PrApp.EvaluateRules (PrApp.trace o)
      <-> exists files, listing = inr files /\ filterCodeFiles files <> [])
  /\ (PrApp.analysis_status o = "failed"%string ->
      PrApp.error o <> None /\ In PrApp.Notify (PrApp.trace o)).
Proof.
  cbv zeta. unfold PrApp.analyzePullRequest.
  destruct listing as [msg | files].
  - simpl. split; [right; now left | split; [| split]].
    + split; [discriminate | intros [f [H _]]; discriminate].
    + split; [intros [H | []]; discriminate | intros [f [H _]]; discriminate].
    + intros _. split; [discriminate | now left].
  - destruct (filterCodeFiles files) as [| f rest] eqn:Efilter.
    + simpl. split; [right; now right | split; [| split]].
      * split; [discriminate |].
        intros [files' [Heq [Hne _]]]. injection Heq as <-. congruence.
      * split; [intros [] |].
        intros [files' [Heq Hne]]. injection Heq as <-. congruence.
      * discriminate.
    + change (arr_length (f :: rest) =? 0) with false. cbv iota.
      destruct (organizeFilesIntoBatches (f :: rest)) as [batches st].
      assert (exists files', @inr string _ files = inr files'
                             /\ filterCodeFiles files' <> []) as Hsome.
      { exists files. split; [reflexivity |]. rewrite Efilter. discriminate. }
      assert (forall tl, In PrApp.EvaluateRules
                (map PrApp.Classify (seq 0 (List.length batches))
                 ++ PrApp.EvaluateRules :: tl)) as Hrules.
      { intros tl. apply in_or_app. right. now left. }
      assert (forall pre tl, In PrApp.Notify
                (pre ++ PrApp.EvaluateRules :: PrApp.PostReview
                     :: PrApp.Notify :: tl)) as Hnotify.
      { intros pre tl. apply in_or_app. right. right. right. now left. }
      destruct post as [pmsg |]; [| destruct notify as [nmsg |]]; simpl.
      * split; [right; now left | split; [| split]].
        -- split; [discriminate |].
           intros [files' [_ [_ [H _]]]]. discriminate.
        -- split; [intros _; exact Hsome | intros _; apply Hrules].
        -- intros _. split; [discriminate | apply Hnotify].
      * split; [right; now left | split; [| split]].
        -- split; [discriminate |].
           intros [files' [_ [_ [_ H]]]]. discriminate.
        -- split; [intros _; exact Hsome | intros _; apply Hrules].
        -- intros _. split; [discriminate | apply Hnotify].
      * split; [now left | split; [| split]].
        -- split; [| reflexivity]. intros _. exists files.
           rewrite Efilter. repeat split. discriminate.
        -- split; [intros _; exact Hsome | intros _; apply Hrules].
        -- discriminate.
Qed.

(* ================================================================= *)
(** * Properties of the rule readers *)

Module TextFacts.
Import RulesText.

Lemma append_empty s : (s ++ "")%string = s.
Proof. induction s as [| c s IH]; simpl; [reflexivity | now rewrite IH]. Qed.

Lemma append_assoc a b c : ((a ++ b) ++ c)%string = (a ++ (b ++ c))%string.
Proof. induction a as [| x a IH]; simpl; [reflexivity | now rewrite IH]. Qed.

Lemma rev_string_append a b :
  rev_string (a ++ b) = (rev_string b ++ rev_string a)%string.
Proof.
  induction a as [| x a IH]; simpl.
  - now rewrite append_empty.
  - now rewrite IH, append_assoc.
Qed.

Lemma rev_string_involutive s : rev_string (rev_string s) = s.
Proof.
  induction s as [| c s IH]; simpl; [reflexivity |].
  rewrite rev_string_append, IH. reflexivity.
Qed.

Lemma skip_spaces_solid s : starts_solid s = true -> skip_spaces s = s.
Proof.
  destruct s as [| c s]; simpl; [discriminate |].
  now destruct (is_space c).
Qed.

Lemma trim_solid s :
  starts_solid s = true -> starts_solid (rev_string s) = true -> trim s = s.
Proof.
  intros H1 H2. unfold trim.
  rewrite (skip_spaces_solid s H1), (skip_spaces_solid _ H2).
  apply rev_string_involutive.
Qed.

Lemma starts_solid_append a b :
  starts_solid a = true -> starts_solid (a ++ b) = true.
Proof. destruct a; [discriminate | exact (fun H => H)]. Qed.

Lemma solid_filled s : starts_solid s = true -> filled s = true.
Proof. destruct s; [discriminate | reflexivity]. Qed.

Lemma has_char_append c a b :
  has_char c (a ++ b) = has_char c a || has_char c b.
Proof.
  induction a as [| d a IH]; simpl; [reflexivity |].
  now rewrite IH, orb_assoc.
Qed.

(** Between two lines: the text without the line breaks around it. *)
Lemma trim_between x :
  starts_solid x = true -> starts_solid (rev_string x) = true ->
  trim (nl ++ x ++ nl) = x.
Proof.
  intros H1 H2. unfold trim, nl.
  change (skip_spaces (String (ascii_of_nat 10) "" ++ x ++ String (ascii_of_nat 10) ""))
    with (skip_spaces (x ++ String (ascii_of_nat 10) "")).
  rewrite (skip_spaces_solid _ (starts_solid_append x _ H1)).
  rewrite rev_string_append.
  change (rev_string (String (ascii_of_nat 10) "")) with (String (ascii_of_nat 10) "").
  change (skip_spaces (String (ascii_of_nat 10) "" ++ rev_string x))
    with (skip_spaces (rev_string x)).
  rewrite (skip_spaces_solid _ H2). apply rev_string_involutive.
Qed.

Lemma prefix_self sep rest : prefix sep (sep ++ rest) = true.
Proof.
  induction sep as [| c sep IH]; simpl; [now destruct rest |].
  destruct (ascii_dec c c) as [_ | Hne]; [exact IH | now contradiction Hne].
Qed.

Lemma prefix_other c sep d rest :
  Ascii.eqb c d = false -> prefix (String c sep) (String d rest) = false.
Proof.
  intros H. simpl. destruct (ascii_dec c d) as [-> | _]; [| reflexivity].
  now rewrite Ascii.eqb_refl in H.
Qed.

Lemma split_skip sep x : forall rest cur,
  split_from sep (String.length x) (x ++ rest) cur = split_from sep 0 rest cur.
Proof.
  induction x as [| c x IH]; intros rest cur; simpl.
  - now destruct rest.
  - apply IH.
Qed.

(** A text without the first character of the separator is one piece. *)
Lemma split_none c sep s : forall cur,
  has_char c s = false ->
  split_from (String c sep) 0 s cur = [(cur ++ s)%string].
Proof.
  induction s as [| d s IH]; intros cur H.
  - simpl. now rewrite append_empty.
  - simpl in H. apply orb_false_elim in H. destruct H as [Hd Hs].
    cbn [split_from]. rewrite (prefix_other c sep d s Hd).
    rewrite (IH _ Hs), append_assoc. reflexivity.
Qed.

(** The first piece ends at the first occurrence of the separator. *)
Lemma split_first c sep a b : forall cur,
  has_char c a = false ->
  split_from (String c sep) 0 (a ++ String c sep ++ b) cur
  = (cur ++ a)%string :: split_from (String c sep) 0 b "".
Proof.
  induction a as [| d a IH]; intros cur H.
  - cbn [append split_from].
    change (String c (sep ++ b)) with (String c sep ++ b)%string.
    rewrite prefix_self, append_empty.
    change (String.length (String c sep) - 1)%nat with (String.length sep - 0)%nat.
    rewrite Nat.sub_0_r. now rewrite split_skip.
  - simpl in H. apply orb_false_elim in H. destruct H as [Hd Ha].
    cbn [append split_from].
    rewrite (prefix_other c sep d _ Hd), (IH _ Ha), append_assoc. reflexivity.
Qed.

Lemma split_from_some sep s : forall skip cur,
  exists p rest, split_from sep skip s cur = p :: rest.
Proof.
  induction s as [| c s IH]; intros skip cur; cbn [split_from].
  - now exists cur, [].
  - destruct skip as [| k]; [destruct (prefix sep (String c s)) |].
    + eexists. eexists. reflexivity.
    + apply IH.
    + apply IH.
Qed.

(** Joining the pieces with the separator gives the text back. *)
Lemma join_split c s : forall cur,
  join (String c "") (split_from (String c "") 0 s cur) = (cur ++ s)%string.
Proof.
  induction s as [| d s IH]; intros cur.
  - simpl. now rewrite append_empty.
  - cbn [split_from]. destruct (Ascii.eqb c d) eqn:E.
    + apply Ascii.eqb_eq in E. subst d.
      change (String c s) with (String c "" ++ s)%string at 1.
      rewrite prefix_self. simpl String.length. simpl Nat.sub.
      destruct (split_from_some (String c "") s 0 "") as [p [rest Hp]].
      specialize (IH ""%string). rewrite Hp in *.
      change (join (String c "") (cur :: p :: rest))
        with (cur ++ String c "" ++ join (String c "") (p :: rest))%string.
      rewrite IH. reflexivity.
    + rewrite (prefix_other c "" d s E), IH, append_assoc. reflexivity.
Qed.

End TextFacts.

Module RuleFileFacts.
Import RulesText.

Lemma plain_parts v :
  plain v = true ->
  has_char (ascii_of_nat 10) v = false /\ has_char "[" v = false
  /\ starts_solid v = true /\ starts_solid (rev_string v) = true.
Proof.
  unfold plain. intros H.
  apply andb_prop in H. destruct H as [H H4].
  apply andb_prop in H. destruct H as [H H3].
  apply andb_prop in H. destruct H as [H1 H2].
  apply negb_true_iff in H1, H2. now repeat split.
Qed.

Lemma well_written_parts r :
  well_written r = true ->
  plain (w_name r) = true /\ plain (w_when r) = true
  /\ plain (w_severity r) = true /\ plain (w_message r) = true.
Proof.
  unfold well_written. intros H.
  apply andb_prop in H. destruct H as [H H4].
  apply andb_prop in H. destruct H as [H H3].
  apply andb_prop in H. destruct H as [H1 H2].
  now repeat split.
Qed.

(** A line [key=value] sets the field [key] to the value, whatever equals
    signs the value holds. *)
Lemma parse_line_field o k v :
  has_char "=" k = false -> starts_solid k = true -> trim k = k ->
  (forall t, prefix "#" (k ++ t) = false) ->
  plain v = true ->
  parse_line o (k ++ "=" ++ v) = (k, v) :: o.
Proof.
  intros Hk Hsolid Htrim Hhash Hv.
  destruct (plain_parts v Hv) as [_ [_ [Hv1 Hv2]]].
  assert (starts_solid (k ++ "=" ++ v) = true) as Hline
    by now apply TextFacts.starts_solid_append.
  assert (trim (k ++ "=" ++ v) = (k ++ "=" ++ v)%string) as Hwhole.
  { apply TextFacts.trim_solid; [exact Hline |].
    rewrite !TextFacts.rev_string_append, TextFacts.append_assoc.
    now apply TextFacts.starts_solid_append. }
  unfold parse_line. rewrite Hwhole, (TextFacts.solid_filled _ Hline), Hhash.
  cbn [andb negb]. unfold split.
  change ("=" ++ v)%string with (String "=" "" ++ v)%string.
  rewrite (TextFacts.split_first "=" "" k v "" Hk).
  rewrite TextFacts.join_split. cbn [append].
  rewrite Htrim, (TextFacts.trim_solid v Hv1 Hv2). reflexivity.
Qed.

Lemma body_has_no_bracket r :
  well_written r = true -> has_char "[" (body r) = false.
Proof.
  intros H. destruct (well_written_parts r H) as [H1 [H2 [H3 H4]]].
  destruct (plain_parts _ H1) as [_ [B1 _]].
  destruct (plain_parts _ H2) as [_ [B2 _]].
  destruct (plain_parts _ H3) as [_ [B3 _]].
  destruct (plain_parts _ H4) as [_ [B4 _]].
  unfold body. rewrite !TextFacts.has_char_append, B1, B2, B3, B4.
  reflexivity.
Qed.

(** The lines of a rule, without the line breaks. *)
Lemma body_lines r :
  well_written r = true ->
  split nl (trim (body r))
  = [("name=" ++ w_name r)%string; ("when=" ++ w_when r)%string;
     ("severity=" ++ w_severity r)%string;
     ("message=" ++ w_message r)%string].
Proof.
  intros H. destruct (well_written_parts r H) as [H1 [H2 [H3 H4]]].
  destruct (plain_parts _ H1) as [N1 [_ [_ _]]].
  destruct (plain_parts _ H2) as [N2 [_ [_ _]]].
  destruct (plain_parts _ H3) as [N3 [_ [_ _]]].
  destruct (plain_parts _ H4) as [N4 [_ [_ S4]]].
  set (l1 := ("name=" ++ w_name r)%string).
  set (l2 := ("when=" ++ w_when r)%string).
  set (l3 := ("severity=" ++ w_severity r)%string).
  set (l4 := ("message=" ++ w_message r)%string).
  assert (body r = (nl ++ (l1 ++ nl ++ l2 ++ nl ++ l3 ++ nl ++ l4) ++ nl)%string)
    as Hbody.
  { unfold body, l1, l2, l3, l4. rewrite !TextFacts.append_assoc. reflexivity. }
  rewrite Hbody, TextFacts.trim_between.
  - unfold split, nl.
    rewrite TextFacts.split_first
      by (unfold l1; rewrite TextFacts.has_char_append, N1; reflexivity).
    rewrite TextFacts.split_first
      by (unfold l2; rewrite TextFacts.has_char_append, N2; reflexivity).
    rewrite TextFacts.split_first
      by (unfold l3; rewrite TextFacts.has_char_append, N3; reflexivity).
    rewrite TextFacts.split_none
      by (unfold l4; rewrite TextFacts.has_char_append, N4; reflexivity).
    reflexivity.
  - reflexivity.
  - assert ((l1 ++ nl ++ l2 ++ nl ++ l3 ++ nl ++ l4)%string
            = ((l1 ++ nl ++ l2 ++ nl ++ l3 ++ nl ++ "message=") ++ w_message r)
              %string) as ->.
    { unfold l4. rewrite !TextFacts.append_assoc. reflexivity. }
    rewrite TextFacts.rev_string_append.
    now apply TextFacts.starts_solid_append.
Qed.

Lemma parse_section_body r :
  well_written r = true -> parse_section (body r) = as_object r.
Proof.
  intros H. unfold parse_section. rewrite (body_lines r H).
  destruct (well_written_parts r H) as [H1 [H2 [H3 H4]]].
  cbn [fold_left].
  change ("name=" ++ w_name r)%string with ("name" ++ "=" ++ w_name r)%string.
  change ("when=" ++ w_when r)%string with ("when" ++ "=" ++ w_when r)%string.
  change ("severity=" ++ w_severity r)%string
    with ("severity" ++ "=" ++ w_severity r)%string.
  change ("message=" ++ w_message r)%string
    with ("message" ++ "=" ++ w_message r)%string.
  rewrite (parse_line_field [] "name" (w_name r)) by
    (try reflexivity; try assumption; intros t; reflexivity).
  rewrite (parse_line_field _ "when" (w_when r)) by
    (try reflexivity; try assumption; intros t; reflexivity).
  rewrite (parse_line_field _ "severity" (w_severity r)) by
    (try reflexivity; try assumption; intros t; reflexivity).
  rewrite (parse_line_field _ "message" (w_message r)) by
    (try reflexivity; try assumption; intros t; reflexivity).
  reflexivity.
Qed.

Lemma as_object_complete r :
  well_written r = true -> complete (as_object r) = true.
Proof.
  intros H. destruct (well_written_parts r H) as [H1 [H2 [H3 H4]]].
  destruct (plain_parts _ H1) as [_ [_ [S1 _]]].
  destruct (plain_parts _ H2) as [_ [_ [S2 _]]].
  destruct (plain_parts _ H3) as [_ [_ [S3 _]]].
  destruct (plain_parts _ H4) as [_ [_ [S4 _]]].
  unfold complete, as_object. cbn [field String.eqb Ascii.eqb Bool.eqb].
  now rewrite !TextFacts.solid_filled.
Qed.

Lemma split_rendered rs : forall pre cur,
  has_char "[" pre = false ->
  Forall (fun r => well_written r = true) rs ->
  split_from "[rule]" 0 (pre ++ render_all rs) cur
  = (cur ++ pre)%string :: map body rs.
Proof.
  induction rs as [| r rs IH]; intros pre cur Hpre Hall.
  - simpl. rewrite TextFacts.append_empty.
    now apply TextFacts.split_none.
  - inversion Hall as [| ? ? Hr Hrest]; subst.
    cbn [render_all map]. unfold render.
    rewrite (TextFacts.append_assoc "[rule]" (body r) (render_all rs)).
    change ("[rule]" ++ body r ++ render_all rs)%string
      with (String "[" "rule]" ++ body r ++ render_all rs)%string.
    rewrite (TextFacts.split_first "[" "rule]" pre _ cur Hpre).
    rewrite (IH (body r) ""%string (body_has_no_bracket r Hr) Hrest).
    reflexivity.
Qed.

Lemma read_section_conditions section r :
  In r (read_section section) ->
  In (condition r) known_conditions
  /\ condition r = condition_of (name r)
  /\ (severity r = "error"%string \/ severity r = "warning"%string)
  /\ (severity r = "error"%string
      <-> includes "flag this as an error" (message r) = true).
Proof.
  unfold read_section. cbv zeta.
  set (title := trim (hd ""%string (split nl (trim section)))).
  set (content := trim (join " " (tl (split nl (trim section))))).
  destruct (filled (condition_of title)) eqn:Hfilled; [| intros []].
  intros [<- | []]. cbn [condition name severity message].
  split; [| split; [reflexivity | split]].
  - unfold condition_of in *. unfold known_conditions.
    repeat match goal with
           | |- context [if ?c then _ else _] => destruct c
           end; simpl; try tauto.
    discriminate Hfilled.
  - destruct (includes _ content); [now left | now right].
  - destruct (includes _ content); split; try reflexivity; discriminate.
Qed.

End RuleFileFacts.

(** X20.  A rules file written in the format [parseRulesFromText] reads is
    read back as written: after any preamble, each rule a line [[rule]]
    followed by the lines name=, when=, severity= and message=, the values
    not empty, without line break or opening bracket and without white
    space at either end.  The values may hold equals signs.  The rules
    come back in the order of the file, each with its four values. *)
Theorem X20_rules_file_round_trip
    (preamble : string) (rules : list RulesText.written_rule) :
  RulesText.has_char "[" preamble = false ->
  Forall (fun r => RulesText.well_written r = true) rules ->
  RulesText.parseRulesFromText (preamble ++ RulesText.render_all rules)
  = map RulesText.as_object rules.
Proof.
  intros Hpre Hall. unfold RulesText.parseRulesFromText, RulesText.split.
  rewrite (RuleFileFacts.split_rendered rules preamble "" Hpre Hall).
  cbn [tl]. clear Hpre.
  induction Hall as [| r rs Hr Hrs IH]; [reflexivity |].
  cbn [map filter].
  rewrite (RuleFileFacts.parse_section_body r Hr),
    (RuleFileFacts.as_object_complete r Hr), IH.
  reflexivity.
Qed.

Lemma X20_rules_file_round_trip_witness :
  RulesText.parseRulesFromText
    ("# policy" ++ RulesText.nl
     ++ RulesText.render_all
          [RulesText.mk_written_rule "High AI Confidence"
             "ctx.ai_prob >= 0.8" "error" "Score = high"])%string
  = map RulesText.as_object
      [RulesText.mk_written_rule "High AI Confidence"
         "ctx.ai_prob >= 0.8" "error" "Score = high"].
Proof.
  apply (X20_rules_file_round_trip ("# policy" ++ RulesText.nl)%string
           [RulesText.mk_written_rule "High AI Confidence"
              "ctx.ai_prob >= 0.8" "error" "Score = high"]).
  - reflexivity.
  - repeat constructor.
Defined.

(** X21.  Whatever the text of the rules file, every rule that
    [parseHumanReadableRules] returns has one of the eight conditions
    written in the function, chosen by the rule's title; the text of the
    file decides only which titles occur, the message, and the severity,
    which is error when the message holds the words flag this as an error
    and warning otherwise.  A text without a number sign has no rule. *)
Theorem X21_readable_rules_have_fixed_conditions (text : string) :
  Forall (fun r =>
            In (RulesText.condition r) RulesText.known_conditions
            /\ RulesText.condition r
               = RulesText.condition_of (RulesText.name r)
            /\ (RulesText.severity r = "error"%string
                \/ RulesText.severity r = "warning"%string)
            /\ (RulesText.severity r = "error"%string
                <-> includes "flag this as an error" (RulesText.message r)
                    = true))
    (RulesText.parseHumanReadableRules text)
  /\ (RulesText.has_char "#" text = false ->
      RulesText.parseHumanReadableRules text = []).
Proof.
  split.
  - apply Forall_forall. intros r Hr.
    unfold RulesText.parseHumanReadableRules in Hr.
    apply in_flat_map in Hr. destruct Hr as [section [_ Hr]].
    exact (RuleFileFacts.read_section_conditions section r Hr).
  - intros H. unfold RulesText.parseHumanReadableRules, RulesText.split.
    change "## "%string with (String "#" "# ").
    now rewrite (TextFacts.split_none "#" "# " text "" H).
Qed.

